(** * Call/session orchestration and signaling relay of the reception server

    A shallow embedding of the Socket.IO event handlers and the two REST
    routes of the main server file that implement presence, call-request
    routing, call sessions, signaling relay and disconnect cleanup,
    together with the properties of the specification that concern them.
    Line numbers in the comments refer to that file.

    Conventions of the embedding.
    - Every handler is a function from the in-memory registries ([State])
      and the inbound payload to the new registries and the list of
      emissions it performs, in program order.
    - A handler body runs to completion; what an [await] lets interleave is
      not modelled.  Results of external collaborators (database, clock,
      generated ids, the AI service) are inputs of the handler ([Env] and
      explicit arguments).
    - JavaScript values that the code only tests for truthiness, compares
      with [===] or copies into payloads are kept as [JsVal]. *)

From Stdlib Require Import ZArith String List Lia Bool Ascii.
From stdpp Require Import base strings list gmap pretty.
Import ListNotations.

Set Warnings "-register-all".
Local Open Scope Z_scope.

(** ** JavaScript values *)

Module Js.

Inductive JsVal : Type :=
| JUndef
| JNull
| JBool (b : bool)
| JNum (z : Z)
| JStr (s : string)
| JDate (ms : Z)
| JArr (l : list JsVal)
| JObj (fields : list (string * JsVal)).

(** [ToBoolean]: what [if (v)], [!v], [a || b] and [c ? x : y] test. *)
Definition truthy (v : JsVal) : bool :=
  match v with
  | JUndef | JNull => false
  | JBool b => b
  | JNum z => negb (z =? 0)
  | JStr s => negb (String.eqb s "")
  | JDate _ | JArr _ | JObj _ => true
  end.

(** [a || b] *)
Definition or (a b : JsVal) : JsVal := if truthy a then a else b.

(** [s === v] for a string [s]: only an equal string is strictly equal. *)
Definition str_eq (s : string) (v : JsVal) : bool :=
  match v with
  | JStr t => String.eqb s t
  | _ => false
  end.

(** [data.name] of an inbound object. *)
Definition field (name : string) (data : JsVal) : JsVal :=
  match data with
  | JObj fields =>
      match List.find (fun kv => String.eqb name (fst kv)) fields with
      | Some kv => snd kv
      | None => JUndef
      end
  | _ => JUndef
  end.

(** [Math.floor((a - b) / 1000)] on millisecond timestamps; [Z.div]
    rounds towards minus infinity as [Math.floor] does. *)
Definition floor_seconds (a b : Z) : Z := (a - b) / 1000.

Definition lower_ascii (c : ascii) : ascii :=
  let n := nat_of_ascii c in
  if ((65 <=? n) && (n <=? 90))%nat then ascii_of_nat (n + 32) else c.

(** [s.toLowerCase()], on the ASCII letters. *)
Fixpoint toLowerCase (s : string) : string :=
  match s with
  | EmptyString => EmptyString
  | String c r => String (lower_ascii c) (toLowerCase r)
  end.

(** [hay.includes(needle)] *)
Definition includes (hay needle : string) : bool :=
  match String.index 0 needle hay with
  | Some _ => true
  | None => false
  end.

(** [s.split('@')[0]] *)
Fixpoint before_at (s : string) : string :=
  match s with
  | EmptyString => EmptyString
  | String c r => if Ascii.eqb c "@"%char then EmptyString else String c (before_at r)
  end.

(** [String(v)], as used by template literals, on primitives. *)
Definition toStr (v : JsVal) : string :=
  match v with
  | JUndef => "undefined"
  | JNull => "null"
  | JBool true => "true"
  | JBool false => "false"
  | JNum z => pretty z
  | JStr s => s
  | JDate ms => pretty ms
  | JArr _ => "[object Array]"
  | JObj _ => "[object Object]"
  end.

(** Truthiness of a string ([""] is falsy). *)
Definition nonempty (s : string) : bool := negb (String.eqb s "").

End Js.
Import Js.

(** ** Results of code that may throw *)

Inductive Res (A : Type) : Type :=
| Ok (a : A)
| Throw (msg : string).
Arguments Ok {A} a.
Arguments Throw {A} msg.

Definition Res_bind {A B : Type} (r : Res A) (k : A -> Res B) : Res B :=
  match r with
  | Ok a => k a
  | Throw msg => Throw msg
  end.

Notation "x <- e ;; k" := (Res_bind e (fun x => k))
  (at level 100, e at next level, right associativity).

(** [try { body } catch (e) { handler(e) }] *)
Definition try_catch {A : Type} (body : Res A) (handler : string -> A) : A :=
  match body with
  | Ok a => a
  | Throw msg => handler msg
  end.

(** ** Insertion-ordered maps

    [activeCalls], [waitingCalls] and [staffSessions] are JavaScript [Map]s
    that the handlers also iterate ([for ... of] with an early exit,
    [Array.from(m.entries()).find], [Array.from(m.keys())]); iteration
    follows insertion order, so these maps are kept as association lists in
    insertion order with the [Map] operations written out.  Maps that are
    only read and written by key are [gmap]s. *)

Module OMap.
Section Ops.
Context {K V : Type} (eqb : K -> K -> bool).

Fixpoint get (k : K) (m : list (K * V)) : option V :=
  match m with
  | [] => None
  | (k', v) :: r => if eqb k k' then Some v else get k r
  end.

Definition has (k : K) (m : list (K * V)) : bool :=
  match get k m with Some _ => true | None => false end.

(** [Map.prototype.set]: an existing key keeps its position. *)
Fixpoint set (k : K) (v : V) (m : list (K * V)) : list (K * V) :=
  match m with
  | [] => [(k, v)]
  | (k', v') :: r =>
      if eqb k k' then (k, v) :: r else (k', v') :: set k v r
  end.

Fixpoint delete (k : K) (m : list (K * V)) : list (K * V) :=
  match m with
  | [] => []
  | (k', v') :: r =>
      if eqb k k' then delete k r else (k', v') :: delete k r
  end.

Definition keys (m : list (K * V)) : list K := map fst m.

End Ops.
End OMap.

(** Key equality of a [Map] (SameValueZero) on the values that occur as
    keys: primitives are compared by value; objects, arrays and dates
    arriving in a payload are fresh and equal to no stored key. *)
Definition same_value_zero (a b : JsVal) : bool :=
  match a, b with
  | JUndef, JUndef => true
  | JNull, JNull => true
  | JBool x, JBool y => Bool.eqb x y
  | JNum x, JNum y => x =? y
  | JStr x, JStr y => String.eqb x y
  | _, _ => false
  end.

(** [m.get(k)] on a [gmap] for a key that is a JavaScript value. *)
Definition lookup_js {V : Type} (k : JsVal) (m : gmap string V) : option V :=
  match k with
  | JStr s => m !! s
  | _ => None
  end.

(** ** Registries *)

Definition SocketId := string.
Definition CallId := string.

(** A call session as stored in [activeCalls].  [clientSocketId] and
    [staffSocketId] are JavaScript values: the video-call path copies the
    client's id from the inbound payload and the chat path stores sessions
    without a staff socket.  [startTime] is [None] when the member is
    absent, else the milliseconds of the stored [Date]; [cs_duration] and
    [cs_endTime] are the members that [call_ended] adds. *)
Record CallSession := mkCallSession {
  cs_callId : JsVal;
  clientSocketId : JsVal;
  staffSocketId : JsVal;
  startTime : option Z;
  cs_status : string;
  cs_videoCallRequest : JsVal;
  cs_duration : JsVal;
  cs_endTime : option Z
}.

(** An entry of [connectedUsers].  [u_id] is [user._id.toString()];
    [u_email = None] stands for a missing or empty e-mail. *)
Record User := mkUser {
  u_id : string;
  u_name : string;
  u_role : string;
  u_department : string;
  u_email : option string
}.

(** A record of staff-profiles.js, which is not part of the sources and is
    taken as a parameter wherever a handler reads it. *)
Record StaffProfile := mkStaffProfile {
  p_name : string;
  p_email : string;
  p_shortName : string;
  p_department : string;
  p_password : string
}.

(** An entry of [incomingCallRequests] (event [call-request]). *)
Record IncomingRequest := mkIncomingRequest {
  ir_requestId : string;
  ir_clientSocketId : SocketId;
  ir_clientId : JsVal;
  ir_clientName : string;
  ir_staffEmail : JsVal;
  ir_timestamp : Z
}.

(** An entry of [videoCallRequests] (event [video-call-request]). *)
Record VideoCallRequest := mkVideoCallRequest {
  vr_requestId : string;
  vr_staffId : string;
  vr_staffName : string;
  vr_staffDepartment : string;
  vr_clientName : JsVal;
  vr_clientSocketId : JsVal;
  vr_status : string;
  vr_requestTime : Z;
  vr_accepted : bool;
  vr_acceptedTime : JsVal;
  vr_rejectedTime : JsVal
}.

(** A [Call] document of the database, also the value type of
    [waitingCalls].  [cd_duration = None] is [NaN] or an absent member. *)
Record CallDoc := mkCallDoc {
  cd_id : string;
  cd_clientId : string;
  cd_clientName : JsVal;
  cd_staffId : string;
  cd_status : string;
  cd_startTime : option Z;
  cd_endTime : option Z;
  cd_duration : option Z
}.

(** The module-level maps of the server, plus what Socket.IO itself keeps:
    the connected sockets and the rooms joined with [socket.join].
    [pendingVideoCalls] holds the very objects stored in
    [videoCallRequests]; its queues are kept as lists of request ids that
    are read through [videoCallRequests], so that a status written by
    [video-call-response] is seen through both.  The elements of the
    [pendingStaffCalls] queues are object literals that are only pushed and
    emitted, and are kept as [JsVal]. *)
Record State := mkState {
  sockets : gset SocketId;
  joined : gmap string (gset SocketId);
  connectedUsers : gmap SocketId User;
  waitingCalls : list (SocketId * CallDoc);
  activeCalls : list (JsVal * CallSession);
  lastSeenByEmail : gmap string Z;
  staffSessions : list (string * SocketId);
  videoCallRequests : gmap string VideoCallRequest;
  pendingVideoCalls : gmap string (list string);
  pendingStaffCalls : gmap string (list JsVal);
  staffEmailSessions : gmap string SocketId;
  staffRooms : gmap string (gset SocketId);
  incomingCallRequests : gmap string IncomingRequest;
  clientSessions : gmap string SocketId
}.

Definition empty_state : State :=
  mkState ∅ ∅ ∅ [] [] ∅ [] ∅ ∅ ∅ ∅ ∅ ∅ ∅.

Definition upd_sockets (f : gset SocketId -> gset SocketId) (st : State) : State :=
  mkState (f (sockets st)) (joined st) (connectedUsers st) (waitingCalls st)
    (activeCalls st) (lastSeenByEmail st) (staffSessions st)
    (videoCallRequests st) (pendingVideoCalls st) (pendingStaffCalls st)
    (staffEmailSessions st) (staffRooms st) (incomingCallRequests st)
    (clientSessions st).

Definition upd_joined (f : gmap string (gset SocketId) -> gmap string (gset SocketId))
    (st : State) : State :=
  mkState (sockets st) (f (joined st)) (connectedUsers st) (waitingCalls st)
    (activeCalls st) (lastSeenByEmail st) (staffSessions st)
    (videoCallRequests st) (pendingVideoCalls st) (pendingStaffCalls st)
    (staffEmailSessions st) (staffRooms st) (incomingCallRequests st)
    (clientSessions st).

Definition upd_connectedUsers (f : gmap SocketId User -> gmap SocketId User)
    (st : State) : State :=
  mkState (sockets st) (joined st) (f (connectedUsers st)) (waitingCalls st)
    (activeCalls st) (lastSeenByEmail st) (staffSessions st)
    (videoCallRequests st) (pendingVideoCalls st) (pendingStaffCalls st)
    (staffEmailSessions st) (staffRooms st) (incomingCallRequests st)
    (clientSessions st).

Definition upd_waitingCalls
    (f : list (SocketId * CallDoc) -> list (SocketId * CallDoc))
    (st : State) : State :=
  mkState (sockets st) (joined st) (connectedUsers st) (f (waitingCalls st))
    (activeCalls st) (lastSeenByEmail st) (staffSessions st)
    (videoCallRequests st) (pendingVideoCalls st) (pendingStaffCalls st)
    (staffEmailSessions st) (staffRooms st) (incomingCallRequests st)
    (clientSessions st).

Definition upd_activeCalls
    (f : list (JsVal * CallSession) -> list (JsVal * CallSession))
    (st : State) : State :=
  mkState (sockets st) (joined st) (connectedUsers st) (waitingCalls st)
    (f (activeCalls st)) (lastSeenByEmail st) (staffSessions st)
    (videoCallRequests st) (pendingVideoCalls st) (pendingStaffCalls st)
    (staffEmailSessions st) (staffRooms st) (incomingCallRequests st)
    (clientSessions st).

Definition upd_lastSeenByEmail (f : gmap string Z -> gmap string Z)
    (st : State) : State :=
  mkState (sockets st) (joined st) (connectedUsers st) (waitingCalls st)
    (activeCalls st) (f (lastSeenByEmail st)) (staffSessions st)
    (videoCallRequests st) (pendingVideoCalls st) (pendingStaffCalls st)
    (staffEmailSessions st) (staffRooms st) (incomingCallRequests st)
    (clientSessions st).

Definition upd_staffSessions
    (f : list (string * SocketId) -> list (string * SocketId))
    (st : State) : State :=
  mkState (sockets st) (joined st) (connectedUsers st) (waitingCalls st)
    (activeCalls st) (lastSeenByEmail st) (f (staffSessions st))
    (videoCallRequests st) (pendingVideoCalls st) (pendingStaffCalls st)
    (staffEmailSessions st) (staffRooms st) (incomingCallRequests st)
    (clientSessions st).

Definition upd_videoCallRequests
    (f : gmap string VideoCallRequest -> gmap string VideoCallRequest)
    (st : State) : State :=
  mkState (sockets st) (joined st) (connectedUsers st) (waitingCalls st)
    (activeCalls st) (lastSeenByEmail st) (staffSessions st)
    (f (videoCallRequests st)) (pendingVideoCalls st) (pendingStaffCalls st)
    (staffEmailSessions st) (staffRooms st) (incomingCallRequests st)
    (clientSessions st).

Definition upd_pendingVideoCalls
    (f : gmap string (list string) -> gmap string (list string))
    (st : State) : State :=
  mkState (sockets st) (joined st) (connectedUsers st) (waitingCalls st)
    (activeCalls st) (lastSeenByEmail st) (staffSessions st)
    (videoCallRequests st) (f (pendingVideoCalls st)) (pendingStaffCalls st)
    (staffEmailSessions st) (staffRooms st) (incomingCallRequests st)
    (clientSessions st).

Definition upd_pendingStaffCalls
    (f : gmap string (list JsVal) -> gmap string (list JsVal))
    (st : State) : State :=
  mkState (sockets st) (joined st) (connectedUsers st) (waitingCalls st)
    (activeCalls st) (lastSeenByEmail st) (staffSessions st)
    (videoCallRequests st) (pendingVideoCalls st) (f (pendingStaffCalls st))
    (staffEmailSessions st) (staffRooms st) (incomingCallRequests st)
    (clientSessions st).

Definition upd_staffEmailSessions
    (f : gmap string SocketId -> gmap string SocketId) (st : State) : State :=
  mkState (sockets st) (joined st) (connectedUsers st) (waitingCalls st)
    (activeCalls st) (lastSeenByEmail st) (staffSessions st)
    (videoCallRequests st) (pendingVideoCalls st) (pendingStaffCalls st)
    (f (staffEmailSessions st)) (staffRooms st) (incomingCallRequests st)
    (clientSessions st).

Definition upd_staffRooms
    (f : gmap string (gset SocketId) -> gmap string (gset SocketId))
    (st : State) : State :=
  mkState (sockets st) (joined st) (connectedUsers st) (waitingCalls st)
    (activeCalls st) (lastSeenByEmail st) (staffSessions st)
    (videoCallRequests st) (pendingVideoCalls st) (pendingStaffCalls st)
    (staffEmailSessions st) (f (staffRooms st)) (incomingCallRequests st)
    (clientSessions st).

Definition upd_incomingCallRequests
    (f : gmap string IncomingRequest -> gmap string IncomingRequest)
    (st : State) : State :=
  mkState (sockets st) (joined st) (connectedUsers st) (waitingCalls st)
    (activeCalls st) (lastSeenByEmail st) (staffSessions st)
    (videoCallRequests st) (pendingVideoCalls st) (pendingStaffCalls st)
    (staffEmailSessions st) (staffRooms st) (f (incomingCallRequests st))
    (clientSessions st).

Definition upd_clientSessions
    (f : gmap string SocketId -> gmap string SocketId) (st : State) : State :=
  mkState (sockets st) (joined st) (connectedUsers st) (waitingCalls st)
    (activeCalls st) (lastSeenByEmail st) (staffSessions st)
    (videoCallRequests st) (pendingVideoCalls st) (pendingStaffCalls st)
    (staffEmailSessions st) (staffRooms st) (incomingCallRequests st)
    (f (clientSessions st)).

(** The [Map] operations at the key types of the three iterated maps. *)
Definition activeCalls_get (callId : JsVal) (st : State) : option CallSession :=
  OMap.get same_value_zero callId (activeCalls st).
Definition activeCalls_set (callId : JsVal) (session : CallSession) : State -> State :=
  upd_activeCalls (OMap.set same_value_zero callId session).
Definition activeCalls_delete (callId : JsVal) : State -> State :=
  upd_activeCalls (OMap.delete same_value_zero callId).
Definition staffSessions_get (key : string) (st : State) : option SocketId :=
  OMap.get String.eqb key (staffSessions st).
Definition staffSessions_set (key : string) (socket : SocketId) : State -> State :=
  upd_staffSessions (OMap.set String.eqb key socket).
Definition staffSessions_delete (key : string) : State -> State :=
  upd_staffSessions (OMap.delete String.eqb key).

(** [socket.join(room)] *)
Definition socket_join (socket : SocketId) (room : string) (st : State) : State :=
  upd_joined (fun j => <[ room := {[ socket ]} ∪ default ∅ (j !! room) ]> j) st.

(** [io.on('connection', ...)]: a new socket is connected. *)
Definition on_connection (st : State) (socket : SocketId) : State :=
  upd_sockets (fun s => {[ socket ]} ∪ s) st.

(** ** Emissions *)

(** Where an emission is addressed. *)
Inductive Target : Type :=
| Sock (s : SocketId)
| Room (r : JsVal)
| RoomExcept (r : JsVal) (sender : SocketId)
| All.

(** [Sock s] is [socket.emit] on the handler's own socket [s], [Room r] is
    [io.to(r).emit], [RoomExcept r s] is [socket.to(r).emit] and [All] is
    [io.emit]. *)
Record Emit := mkEmit {
  target : Target;
  event : string;
  payload : JsVal
}.

(** Socket.IO delivery: every connected socket is a member of the room
    named by its own id; [socket.join] adds further members. *)
Definition room_members (st : State) (r : JsVal) : gset SocketId :=
  match r with
  | JStr name =>
      (if bool_decide (name ∈ sockets st) then {[ name ]} else ∅)
        ∪ (default ∅ (joined st !! name) ∩ sockets st)
  | _ => ∅
  end.

Definition recipients (st : State) (e : Emit) : gset SocketId :=
  match target e with
  | Sock s => {[ s ]}
  | Room r => room_members st r
  | RoomExcept r sender => room_members st r ∖ {[ sender ]}
  | All => sockets st
  end.

(** The emissions of a list that carry event [ev]. *)
Definition with_event (ev : string) (out : list Emit) : list Emit :=
  List.filter (fun e => String.eqb (event e) ev) out.

(** The emissions of a list that are addressed to the socket id [s], by
    [io.to(s)] or by [socket.emit] on [s] itself. *)
Definition addressed_to (s : SocketId) (out : list Emit) : list Emit :=
  List.filter
    (fun e => match target e with
              | Sock s' => String.eqb s s'
              | Room r => str_eq s r
              | _ => false
              end) out.

Definition message (text : string) : JsVal := JObj [("message", JStr text)].

(** ** External collaborators *)

(** One timetable entry; [timeSlot.start] and [timeSlot.end] are kept as
    the hour and minute that [timeToMinutes] splits out of ["HH:MM"]. *)
Record TimetableEntry := mkTimetableEntry {
  te_day : string;
  te_start : Z * Z;
  te_end : Z * Z;
  te_subject : string
}.

(** The update document of a call-log upsert, keyed by
    [{ callId, staffEmail }]. *)
Record CallLogEntry := mkCallLogEntry {
  cl_callId : JsVal;
  cl_staffEmail : string;
  cl_type : string;
  cl_caller : JsVal;
  cl_callee : JsVal;
  cl_timestamp : Z;
  cl_staffUsername : string;
  cl_status : string;
  cl_duration : Z;
  cl_reason : JsVal
}.

(** A write that reached the persistence store. *)
Inductive DbWrite : Type :=
| WStaffCallLog (e : CallLogEntry)
| WPerStaffLog (username : string) (e : CallLogEntry)
| WCallSave (d : CallDoc).

(** What the handlers obtain from outside the process.  Each database
    operation either returns or throws; [User_findStaff] stands for the
    lookup of a staff user by e-mail followed by the password comparison
    and the save of the login time; [Staff_timetable] stands for the lookup
    of the staff document and of its latest active timetable. *)
Record Env := mkEnv {
  isDbConnected : bool;
  User_findStaff : string -> string -> Res (option User);
  Call_findById : JsVal -> Res (option CallDoc);
  Call_save : CallDoc -> Res unit;
  Call_countWaiting : Res Z;
  StaffCallLog_upsert : CallLogEntry -> Res unit;
  PerStaffLog_upsert : string -> CallLogEntry -> Res unit;
  Staff_timetable : string -> Res (option (list TimetableEntry));
  claraAI_resetDemoMode : Res unit;
  DEMO_STAFF_EMAIL : string;
  DEMO_STAFF_PASSWORD : string;
  currentDay : string;
  currentTime : Z * Z
}.

(** ** Signaling relay *)



(** First registration of the room-scoped events [call_offer],
    [call_answer], [ice_candidate] (lines 1924-1953): the payload goes to
    the room named by [sessionId || callId] without the sender, or to
    everybody when both are falsy. *)
Definition relay_room (ev : string)
    (st : State) (socket : SocketId) (data : JsVal) : State * list Emit :=
  let targetRoom := Js.or (field "sessionId" data) (field "callId" data) in
  if truthy targetRoom
  then (st, [mkEmit (RoomExcept targetRoom socket) ev data])
  else (st, [mkEmit All ev data]).

(** Second registration of the same events (lines 3430-3481): always
    addressed to the room [sessionId || callId], with a rebuilt payload
    tagged with the sender's user name. *)
Definition relay_room_tagged (ev body : string)
    (st : State) (socket : SocketId) (data : JsVal) : State * list Emit :=
  let targetRoom := Js.or (field "sessionId" data) (field "callId" data) in
  let from :=
    match connectedUsers st !! socket with
    | Some u => Js.or (JStr (u_name u)) (JStr "Unknown")
    | None => JStr "Unknown"
    end in
  (st, [mkEmit (RoomExcept targetRoom socket) ev
          (JObj [("callId", field "callId" data);
                 ("sessionId", field "sessionId" data);
                 (body, field body data);
                 ("from", from)])]).

(** An event with two registered listeners runs both, in registration
    order. *)
Definition both (h1 h2 : State -> SocketId -> JsVal -> State * list Emit)
    (st : State) (socket : SocketId) (data : JsVal) : State * list Emit :=
  let '(st1, out1) := h1 st socket data in
  let '(st2, out2) := h2 st1 socket data in
  (st2, out1 ++ out2).

(** [socket.on('call_offer', ...)], both registrations. *)
Definition on_call_offer :=
  both (relay_room "call_offer") (relay_room_tagged "call_offer" "offer").

(** [socket.on('join_call', ...)] (lines 1914-1922). *)
Definition on_join_call (st : State) (socket : SocketId) (data : JsVal) : State :=
  let callId := field "callId" data in
  if negb (truthy callId) then st
  else match callId with
       | JStr name => socket_join socket name st
       | _ => st
       end.

(** ** Call requests addressed by e-mail *)

(** [socket.on('call-request', ...)] (lines 2043-2086); [requestId] is the
    id the handler generates and [now] the clock. *)
Definition on_call_request (st : State) (socket : SocketId)
    (requestId : string) (now : Z) (data : JsVal) : State * list Emit :=
  let clientId := field "clientId" data in
  let staffEmail := field "staffEmail" data in
  let clientName :=
    match connectedUsers st !! socket with
    | Some clientInfo => u_name clientInfo
    | None => "Client"
    end in
  let st1 :=
    upd_incomingCallRequests
      (fun m => <[ requestId :=
                     mkIncomingRequest requestId socket clientId clientName
                       staffEmail now ]> m) st in
  let payload :=
    JObj [("requestId", JStr requestId); ("clientId", clientId);
          ("clientName", JStr clientName); ("staffEmail", staffEmail);
          ("timestamp", JDate now)] in
  let direct :=
    match lookup_js staffEmail (staffEmailSessions st) with
    | Some staffSocketId =>
        if nonempty staffSocketId
        then [mkEmit (Room (JStr staffSocketId)) "incoming-call" payload]
        else []
    | None => []
    end in
  (st1,
   [mkEmit (Room staffEmail) "incoming-call" payload]
   ++ direct
   ++ [mkEmit (Sock socket) "call-request-sent"
         (JObj [("staffEmail", staffEmail); ("requestId", JStr requestId);
                ("message", JStr ("Call request sent to " +:+ toStr staffEmail))])]).

(** [socket.on('call-accepted', ...)] (lines 2108-2155); [callId] is the
    id the handler generates for the new session. *)
Definition on_call_accepted (st : State) (socket : SocketId)
    (callId : CallId) (now : Z) (data : JsVal) : State * list Emit :=
  let requestId := field "requestId" data in
  let staffEmail := field "staffEmail" data in
  let staffName := field "staffName" data in
  match lookup_js requestId (incomingCallRequests st) with
  | None => (st, [])
  | Some pending =>
      let st1 :=
        activeCalls_set
          (JStr callId)
          (mkCallSession (JStr callId) (JStr (ir_clientSocketId pending))
             (JStr socket) (Some now) "in-progress" JUndef JUndef None) st in
      let busy :=
        if truthy staffEmail
        then [mkEmit All "staff_status_update"
                (JObj [("staffEmail", staffEmail); ("status", JStr "busy");
                       ("timestamp", JDate now)])]
        else [] in
      let st2 :=
        upd_incomingCallRequests
          (fun m => match requestId with
                    | JStr r => delete r m
                    | _ => m
                    end) st1 in
      (st2,
       [mkEmit (Room (JStr (ir_clientSocketId pending))) "call-accepted"
          (JObj [("callId", JStr callId); ("staffEmail", staffEmail);
                 ("staffName", Js.or staffName (JStr "Staff"))]);
        mkEmit (Room (JStr socket)) "call-started"
          (JObj [("callId", JStr callId); ("clientId", ir_clientId pending);
                 ("clientName",
                  Js.or (JStr (ir_clientName pending)) (JStr "Client"))])]
       ++ busy)
  end.

(** [socket.on('call-rejected', ...)] (lines 2157-2169). *)
Definition on_call_rejected (st : State) (socket : SocketId)
    (data : JsVal) : State * list Emit :=
  let requestId := field "requestId" data in
  match lookup_js requestId (incomingCallRequests st) with
  | None => (st, [])
  | Some pending =>
      (upd_incomingCallRequests
         (fun m => match requestId with
                   | JStr r => delete r m
                   | _ => m
                   end) st,
       [mkEmit (Room (JStr (ir_clientSocketId pending))) "call-rejected"
          (JObj [("staffEmail", field "staffEmail" data);
                 ("message",
                  Js.or (field "reason" data) (JStr "Staff declined the call"))])])
  end.

(** ** Video-call requests *)

(** A stored request as it appears in a payload; members that are still
    [undefined] vanish when the payload is serialised. *)
Definition vr_json (r : VideoCallRequest) : list (string * JsVal) :=
  [("requestId", JStr (vr_requestId r));
   ("staffId", JStr (vr_staffId r));
   ("staffName", JStr (vr_staffName r));
   ("staffDepartment", JStr (vr_staffDepartment r));
   ("clientName", vr_clientName r);
   ("clientSocketId", vr_clientSocketId r);
   ("status", JStr (vr_status r));
   ("requestTime", JDate (vr_requestTime r));
   ("accepted", JBool (vr_accepted r));
   ("acceptedTime", vr_acceptedTime r);
   ("rejectedTime", vr_rejectedTime r)].

(** The objects of a [pendingVideoCalls] queue, read through
    [videoCallRequests]. *)
Definition pending_requests (st : State) (ids : list string) : list JsVal :=
  map (fun id => match videoCallRequests st !! id with
                 | Some r => JObj (vr_json r)
                 | None => JUndef
                 end) ids.

(** [v.toLowerCase()] throws on a value that is not a string. *)
Definition lower_js (v : JsVal) : Res string :=
  match v with
  | JStr s => Ok (toLowerCase s)
  | _ => Throw "TypeError: toLowerCase is not a function"
  end.

(** The predicate of [staffProfiles.find] in [video-call-request] (lines
    1518-1539): five tests in order inside a [try]; an exception makes the
    profile a non-match. *)
Definition matches_video_target (staffId staffName staffEmail : JsVal)
    (s : StaffProfile) : bool :=
  try_catch
    (c1 <- (if truthy staffEmail && nonempty (p_email s)
            then e <- lower_js staffEmail ;;
                 Ok (String.eqb (toLowerCase (p_email s)) e)
            else Ok false) ;;
     if c1 : bool then Ok true else
     c2 <- (if truthy staffName
            then n <- lower_js staffName ;;
                 Ok (String.eqb (toLowerCase (p_name s)) n)
            else Ok false) ;;
     if c2 : bool then Ok true else
     c3 <- (if truthy staffName
            then n <- lower_js staffName ;;
                 Ok (includes (toLowerCase (p_name s)) n)
            else Ok false) ;;
     if c3 : bool then Ok true else
     c4 <- (if truthy staffName && nonempty (p_shortName s)
            then n <- lower_js staffName ;;
                 Ok (String.eqb (toLowerCase (p_shortName s)) n)
            else Ok false) ;;
     if c4 : bool then Ok true else
     Ok (truthy staffId && nonempty (p_shortName s)
         && str_eq (p_shortName s) staffId))
    (fun _ => false).

Section WithStaffProfiles.

Variable staffProfiles : list StaffProfile.

(** [socket.on('video-call-request', ...)] (lines 1508-1636); [requestId]
    is the id the handler generates. *)
Definition on_video_call_request (st : State) (socket : SocketId)
    (requestId : string) (now : Z) (data : JsVal) : State * list Emit :=
  let clientName := field "clientName" data in
  let clientSocketId := field "clientSocketId" data in
  match List.find (matches_video_target (field "staffId" data)
                     (field "staffName" data) (field "staffEmail" data))
          staffProfiles with
  | None =>
      (st, [mkEmit (Sock socket) "video-call-error"
              (message ("Staff member " +:+ toStr (field "staffName" data)
                        +:+ " not found"))])
  | Some staffProfile =>
      let staffId := p_shortName staffProfile in
      let staffName := p_name staffProfile in
      if negb (nonempty staffId)
      then (st, [mkEmit (Sock socket) "video-call-error"
                   (message "Staff member not found")])
      else
        let videoCallRequest :=
          mkVideoCallRequest requestId staffId staffName
            (p_department staffProfile) clientName clientSocketId
            "pending" now false JUndef JUndef in
        let st1 :=
          upd_videoCallRequests (fun m => <[ requestId := videoCallRequest ]> m) st in
        let st2 :=
          upd_pendingVideoCalls
            (fun m => <[ staffId := default [] (m !! staffId) ++ [requestId] ]> m)
            st1 in
        match staffSessions_get staffId st with
        | Some staffSocketId =>
            if nonempty staffSocketId
            then
              (st2,
               [mkEmit (Room (JStr staffSocketId)) "video-call-request"
                  (JObj (vr_json videoCallRequest
                         ++ [("ringSound", JBool true);
                             ("message",
                              JStr ("🎥 Incoming video call request from "
                                    +:+ toStr clientName));
                             ("callerName", clientName);
                             ("purpose", JStr "Video call request")]));
                mkEmit (Sock socket) "video-call-request-sent"
                  (JObj [("requestId", JStr requestId);
                         ("staffName", JStr staffName);
                         ("message",
                          JStr ("Video call request sent to " +:+ staffName
                                +:+ ". Waiting for response..."))])])
            else
              (st2,
               [mkEmit (Sock socket) "video-call-request-sent"
                  (JObj [("requestId", JStr requestId);
                         ("staffName", JStr staffName);
                         ("message",
                          JStr ("Video call request queued for " +:+ staffName
                                +:+ ". They will be notified when they come online."))])])
        | None =>
            (st2,
             [mkEmit (Sock socket) "video-call-request-sent"
                (JObj [("requestId", JStr requestId);
                       ("staffName", JStr staffName);
                       ("message",
                        JStr ("Video call request queued for " +:+ staffName
                              +:+ ". They will be notified when they come online."))])])
        end
  end.

End WithStaffProfiles.

(** The tail of [video-call-response]: the answered request leaves the
    queue named by the [staffId] of the response. *)
Definition remove_pending (staffId requestId : JsVal) (st : State) : State :=
  match staffId with
  | JStr k =>
      upd_pendingVideoCalls
        (fun m => <[ k := List.filter (fun id => negb (str_eq id requestId))
                             (default [] (m !! k)) ]> m) st
  | _ => st
  end.

(** [socket.on('video-call-response', ...)] (lines 1639-1714); [callId] is
    the id generated for the session on acceptance.  [resetDemoMode]
    belongs to the AI service; when it throws the handler's [catch] reports
    a failure. *)
Definition on_video_call_response (env : Env) (st : State) (socket : SocketId)
    (callId : CallId) (now : Z) (data : JsVal) : State * list Emit :=
  let requestId := field "requestId" data in
  let staffId := field "staffId" data in
  match lookup_js requestId (videoCallRequests st) with
  | None =>
      (st, [mkEmit (Sock socket) "video-call-error"
              (message "Video call request not found")])
  | Some videoCallRequest =>
      let client := vr_clientSocketId videoCallRequest in
      let rid := vr_requestId videoCallRequest in
      if truthy (field "accepted" data)
      then
        let accepted :=
          mkVideoCallRequest rid (vr_staffId videoCallRequest)
            (vr_staffName videoCallRequest) (vr_staffDepartment videoCallRequest)
            (vr_clientName videoCallRequest) client "accepted"
            (vr_requestTime videoCallRequest) true (JDate now)
            (vr_rejectedTime videoCallRequest) in
        let st1 := upd_videoCallRequests (fun m => <[ rid := accepted ]> m) st in
        let st2 :=
          activeCalls_set (JStr callId)
            (mkCallSession (JStr callId) client (JStr socket) (Some now)
               "connecting" requestId JUndef None) st1 in
        (remove_pending staffId requestId st2,
         [mkEmit (Room client) "video-call-accepted"
            (JObj [("requestId", requestId);
                   ("staffName", JStr (vr_staffName videoCallRequest));
                   ("message",
                    JStr ("🎉 " +:+ vr_staffName videoCallRequest
                          +:+ " accepted your video call request!"))]);
          mkEmit (Sock socket) "video-call-accepted-staff"
            (JObj [("requestId", requestId);
                   ("clientName", vr_clientName videoCallRequest);
                   ("message",
                    JStr ("Video call accepted with "
                          +:+ toStr (vr_clientName videoCallRequest)))]);
          mkEmit (Room client) "call-started" (JObj [("callId", JStr callId)]);
          mkEmit (Sock socket) "call-started" (JObj [("callId", JStr callId)])])
      else
        let rejected :=
          mkVideoCallRequest rid (vr_staffId videoCallRequest)
            (vr_staffName videoCallRequest) (vr_staffDepartment videoCallRequest)
            (vr_clientName videoCallRequest) client "rejected"
            (vr_requestTime videoCallRequest) (vr_accepted videoCallRequest)
            (vr_acceptedTime videoCallRequest) (JDate now) in
        let st1 := upd_videoCallRequests (fun m => <[ rid := rejected ]> m) st in
        let out1 :=
          [mkEmit (Room client) "video-call-rejected"
             (JObj [("requestId", requestId);
                    ("staffName", JStr (vr_staffName videoCallRequest));
                    ("message",
                     JStr ("❌ " +:+ vr_staffName videoCallRequest
                           +:+ " is not available for video calls right now."))])] in
        match claraAI_resetDemoMode env with
        | Throw _ =>
            (st1, out1 ++ [mkEmit (Sock socket) "video-call-error"
                             (message "Failed to process video call response")])
        | Ok _ =>
            (remove_pending staffId requestId st1,
             out1 ++ [mkEmit (Room client) "clara-ai-reset"
                        (message "Clara is now back to full AI mode. You can ask me anything!")])
        end
  end.

(** ** Accepting and ending a call *)

Definition call_error (socket : SocketId) (text : string) : Emit :=
  mkEmit (Sock socket) "call-error" (message text).

(** The part of [accept-call] after the call document is selected (lines
    1184-1215): the session is stored under the [callId] of the payload. *)
Definition accept_call_tail (st : State) (socket : SocketId) (staffUser : User)
    (callId : JsVal) (clientSocketId : option SocketId) (selectedCall : CallDoc)
    (now : Z) : State * list Emit :=
  match clientSocketId with
  | None => (st, [])
  | Some client =>
      if negb (nonempty client) then (st, [])
      else
        let st1 :=
          activeCalls_set callId
            (mkCallSession callId (JStr client) (JStr socket) (Some now)
               "in-progress" JUndef JUndef None) st in
        let st2 := upd_waitingCalls (OMap.delete String.eqb client) st1 in
        (st2,
         [mkEmit (Room (JStr client)) "call-accepted"
            (JObj [("staffName", JStr (u_name staffUser));
                   ("staffDepartment", JStr (u_department staffUser));
                   ("callId", callId)]);
          mkEmit (Sock socket) "call-started"
            (JObj [("callId", callId);
                   ("clientId", JStr (cd_clientId selectedCall));
                   ("clientName",
                    Js.or (cd_clientName selectedCall) (JStr "Client"))]);
          mkEmit All "waiting-calls-updated"
            (JObj [("count", JNum (Z.of_nat (length (waitingCalls st2))))])])
  end.

Definition start_call (call : CallDoc) (now : Z) : CallDoc :=
  mkCallDoc (cd_id call) (cd_clientId call) (cd_clientName call)
    (cd_staffId call) "in-progress" (Some now) (cd_endTime call)
    (cd_duration call).

(** [socket.on('accept-call', ...)] (lines 1111-1220); [now] and [now2]
    are the two clock readings. *)
Definition on_accept_call (env : Env) (st : State) (socket : SocketId)
    (now now2 : Z) (data : JsVal) : State * list Emit * list DbWrite :=
  let callId := field "callId" data in
  let unauthorized :=
    (st, [call_error socket "Unauthorized: Staff access required"], []) in
  match connectedUsers st !! socket with
  | None => unauthorized
  | Some staffUser =>
      if negb (String.eqb (u_role staffUser) "staff") then unauthorized
      else if isDbConnected env then
        match Call_findById env callId with
        | Throw m => (st, [call_error socket ("Failed to accept call: " +:+ m)], [])
        | Ok None =>
            (st, [call_error socket "Call not found or already processed"], [])
        | Ok (Some call) =>
            if negb (String.eqb (cd_status call) "waiting")
            then (st, [call_error socket "Call not found or already processed"], [])
            else if negb (String.eqb (cd_staffId call) (u_id staffUser))
            then (st, [call_error socket "You are not assigned to this call"], [])
            else
              let call' := start_call call now in
              match Call_save env call' with
              | Throw m =>
                  (st, [call_error socket ("Failed to accept call: " +:+ m)], [])
              | Ok _ =>
                  let '(st', out) :=
                    accept_call_tail st socket staffUser callId
                      (clientSessions st !! cd_clientId call) call' now2 in
                  (st', out, [WCallSave call'])
              end
        end
      else
        match List.find (fun entry => str_eq (cd_id (snd entry)) callId)
                (waitingCalls st) with
        | None => (st, [call_error socket "Call not found"], [])
        | Some (clientSocketId, call) =>
            if negb (String.eqb (cd_staffId call) (u_id staffUser))
            then (st, [call_error socket "You are not assigned to this call"], [])
            else
              let call' := start_call call now in
              let st1 :=
                upd_waitingCalls (OMap.set String.eqb clientSocketId call') st in
              let '(st', out) :=
                accept_call_tail st1 socket staffUser callId
                  (Some clientSocketId) call' now2 in
              (st', out, [])
        end
  end.

(** The clock readings of [end-call], in program order. *)
Record EndCallClock := mkEndCallClock {
  t_duration : Z;
  t_endTime : Z;
  t_qr_timestamp : Z;
  t_qr_now : Z;
  t_log_timestamp : Z;
  t_log_timestamp2 : Z;
  t_db_endTime : Z
}.

(** [callSession.startTime ? Math.floor((new Date() - startTime) / 1000) : 0] *)
Definition session_duration (callSession : CallSession) (now : Z) : Z :=
  match startTime callSession with
  | Some t0 => floor_seconds now t0
  | None => 0
  end.

(** The update of the [Call] document at the end of a call (lines
    1437-1439): [duration] is [NaN] when the document has no start time. *)
Definition complete_call (call : CallDoc) (now : Z) : CallDoc :=
  mkCallDoc (cd_id call) (cd_clientId call) (cd_clientName call)
    (cd_staffId call) "completed" (cd_startTime call) (Some now)
    (match cd_startTime call with
     | Some t0 => Some (floor_seconds now t0)
     | None => None
     end).

Definition user_of (st : State) (socketId : JsVal) : option User :=
  lookup_js socketId (connectedUsers st).

(** The body of the [try] that persists the staff call log (lines
    1373-1424).  The first upsert may throw out of the block; the upsert
    into the per-staff collection has a [try] of its own. *)
Definition persist_call_log (env : Env) (st : State) (callSession : CallSession)
    (callId reason : JsVal) (durationSec : Z) (clock : EndCallClock)
    : Res (list DbWrite) :=
  if isDbConnected env then
    let staffInfo := user_of st (staffSocketId callSession) in
    let clientInfo := user_of st (clientSocketId callSession) in
    let caller :=
      match clientInfo with
      | Some c => Js.or (JStr (u_name c)) (JStr "Client")
      | None => JStr "Client"
      end in
    let callee :=
      match staffInfo with
      | Some s => Js.or (JStr (u_name s)) (JStr "Staff")
      | None => JStr "Staff"
      end in
    match staffInfo with
    | Some s =>
        match u_email s with
        | Some staffEmail =>
            let entry :=
              mkCallLogEntry callId staffEmail "incoming" caller callee
                (default (t_log_timestamp clock) (startTime callSession))
                (before_at staffEmail) "completed" durationSec
                (Js.or reason (JStr "ended")) in
            _ <- StaffCallLog_upsert env entry ;;
            let username := toLowerCase (before_at staffEmail) in
            let entry2 :=
              mkCallLogEntry callId staffEmail "incoming" caller callee
                (default (t_log_timestamp2 clock) (startTime callSession))
                username "completed" durationSec
                (Js.or reason (JStr "ended")) in
            Ok (WStaffCallLog entry
                :: try_catch
                     (_ <- PerStaffLog_upsert env username entry2 ;;
                      Ok [WPerStaffLog username entry2])
                     (fun _ => []))
        | None => Ok []
        end
    | None => Ok []
    end
  else Ok [].

(** The update of the [Call] document (lines 1432-1445), inside its own
    [try]. *)
Definition persist_call_status (env : Env) (callId : JsVal) (clock : EndCallClock)
    : list DbWrite :=
  if isDbConnected env then
    try_catch
      (found <- Call_findById env callId ;;
       match found with
       | Some call =>
           let call' := complete_call call (t_db_endTime clock) in
           _ <- Call_save env call' ;;
           Ok [WCallSave call']
       | None => Ok []
       end)
      (fun _ => [])
  else [].

(** [socket.on('end-call', ...)] (lines 1305-1451).  The member [data] of
    the QR code stands for the JSON text of [qrCodeData];
    [qrCodeData.duration || 0] is the duration itself.  The third
    component of the result lists the writes that reached the database. *)
Definition on_end_call (env : Env) (st : State) (socket : SocketId)
    (clock : EndCallClock) (data : JsVal) : State * list Emit * list DbWrite :=
  let callId := field "callId" data in
  let reason := field "reason" data in
  match connectedUsers st !! socket with
  | None => (st, [call_error socket "User not authenticated"], [])
  | Some user =>
      match activeCalls_get callId st with
      | None => (st, [call_error socket "Call session not found"], [])
      | Some callSession =>
          if negb (str_eq socket (clientSocketId callSession))
             && negb (str_eq socket (staffSocketId callSession))
          then (st, [call_error socket "Unauthorized call end attempt"], [])
          else
            let otherSocketId :=
              if str_eq socket (clientSocketId callSession)
              then staffSocketId callSession
              else clientSocketId callSession in
            let duration := session_duration callSession (t_duration clock) in
            let qrCodeData :=
              JObj [("callId", callId);
                    ("participants",
                     JObj [("client", clientSocketId callSession);
                           ("staff", staffSocketId callSession)]);
                    ("duration", JNum duration);
                    ("endTime", JDate (t_endTime clock));
                    ("purpose", JStr "Video call completion")] in
            let qrCode :=
              JObj [("data", qrCodeData);
                    ("timestamp", JDate (t_qr_timestamp clock));
                    ("expiresAt",
                     JDate (t_qr_now clock + 24 * 60 * 60 * 1000))] in
            let out1 :=
              [mkEmit (Room otherSocketId) "call-ended"
                 (JObj [("callId", callId);
                        ("reason",
                         Js.or reason (JStr "Call ended by other participant"));
                        ("endedBy", JStr (u_name user))]);
               mkEmit (Sock socket) "call-ended"
                 (JObj [("callId", callId);
                        ("reason", Js.or reason (JStr "Call ended"));
                        ("endedBy", JStr (u_name user))]);
               mkEmit (Room (clientSocketId callSession)) "call-completed-qr"
                 (JObj [("callId", callId); ("qrCode", qrCode);
                        ("message",
                         JStr "Call completed! Here is your QR code:")])] in
            match claraAI_resetDemoMode env with
            | Throw m =>
                (st, out1 ++ [call_error socket ("Failed to end call: " +:+ m)], [])
            | Ok _ =>
                let out2 :=
                  [mkEmit (Room (clientSocketId callSession)) "clara-ai-reset"
                     (message "🎉 Call completed! Clara is now back to full AI mode. You can ask me anything!")] in
                let durationSec := duration in
                let logged :=
                  try_catch
                    (persist_call_log env st callSession callId reason
                       durationSec clock)
                    (fun _ => []) in
                let st' := activeCalls_delete callId st in
                let saved := persist_call_status env callId clock in
                (st', out1 ++ out2, logged ++ saved)
            end
      end
  end.

(** [socket.on('call_ended', ...)], the registration of lines 3484-3518:
    the session is marked completed with the duration found in the payload
    and stays in [activeCalls].  The members [clientName] and [staffName]
    of the broadcast are read from session members that are not modelled
    and are left out. *)
Definition on_call_ended_session (st : State) (socket : SocketId) (now : Z)
    (data : JsVal) : State * list Emit :=
  let callId := field "callId" data in
  let duration := field "duration" data in
  match activeCalls_get callId st with
  | Some callSession =>
      (activeCalls_set callId
         (mkCallSession (cs_callId callSession) (clientSocketId callSession)
            (staffSocketId callSession) (startTime callSession) "completed"
            (cs_videoCallRequest callSession) duration (Some now)) st,
       [mkEmit (Room (clientSocketId callSession)) "call_ended"
          (JObj [("callId", callId); ("duration", duration);
                 ("message", JStr "Video call ended successfully")]);
        mkEmit All "call_ended"
          (JObj [("callId", callId); ("duration", duration);
                 ("message", JStr "Video call completed")])])
  | None => (st, [])
  end.

(** ** Presence: login, disconnect, status *)

(** How an [async] listener without a [try] of its own finishes: it
    returns, or its promise rejects (which the process-level
    [unhandledRejection] hook turns into an exit). *)
Inductive Outcome : Type :=
| Returned (st : State) (out : list Emit)
| Rejected (st : State) (out : list Emit) (msg : string).

(** The argument of [staff-list-updated]: one item per key of
    [staffSessions]; reading [name] of a user that is not in
    [connectedUsers] throws. *)
Fixpoint staff_list (st : State) (entries : list (string * SocketId))
    : Res (list JsVal) :=
  match entries with
  | [] => Ok []
  | (staffId, socketId) :: rest =>
      match connectedUsers st !! socketId with
      | None => Throw "TypeError: Cannot read properties of undefined (reading 'name')"
      | Some staffUser =>
          items <- staff_list st rest ;;
          Ok (JObj [("id", JStr staffId); ("name", JStr (u_name staffUser));
                    ("department", JStr (u_department staffUser))] :: items)
      end
  end.

(** The loop over [activeCalls] at the end of the disconnect handler
    (lines 2289-2306): the first session of the socket is ended and the
    loop is left. *)
Fixpoint cleanup_active_calls (socket : SocketId)
    (entries : list (JsVal * CallSession)) (st : State) : State * list Emit :=
  match entries with
  | [] => (st, [])
  | (callId, callSession) :: rest =>
      if str_eq socket (clientSocketId callSession)
         || str_eq socket (staffSocketId callSession)
      then
        let otherSocketId :=
          if str_eq socket (clientSocketId callSession)
          then staffSocketId callSession
          else clientSocketId callSession in
        (activeCalls_delete callId st,
         if truthy otherSocketId
         then [mkEmit (Room otherSocketId) "call-ended"
                 (JObj [("callId", callId);
                        ("reason", JStr "Other participant disconnected");
                        ("endedBy", JStr "System")])]
         else [])
      else cleanup_active_calls socket rest st
  end.

(** The waiting-call cleanup of the disconnect handler (lines 2272-2287). *)
Definition cleanup_waiting_call (socket : SocketId) (st : State)
    : State * list Emit :=
  match OMap.get String.eqb socket (waitingCalls st) with
  | Some _ =>
      let st1 := upd_waitingCalls (OMap.delete String.eqb socket) st in
      (st1, [mkEmit All "waiting-calls-updated"
               (JObj [("count", JNum (Z.of_nat (length (waitingCalls st1))))])])
  | None => (st, [])
  end.

(** The sessions of [activeCalls] in which [socket] is the client or the
    staff side. *)
Definition bound_sessions (socket : SocketId) (st : State)
    : list (JsVal * CallSession) :=
  List.filter
    (fun entry => str_eq socket (clientSocketId (snd entry))
                  || str_eq socket (staffSocketId (snd entry)))
    (activeCalls st).

Section Presence.

Variable staffProfiles : list StaffProfile.

(** The profile of a logged-in user, by e-mail or by name (lines 745-748
    and 2224). *)
Definition profile_of_user (user : User) : option StaffProfile :=
  List.find
    (fun p =>
       (nonempty (p_email p)
        && match u_email user with
           | Some email => String.eqb (toLowerCase (p_email p)) (toLowerCase email)
           | None => false
           end)
       || (nonempty (p_name p) && nonempty (u_name user)
           && String.eqb (toLowerCase (p_name p)) (toLowerCase (u_name user))))
    staffProfiles.

(** The presence part of the disconnect handler for a staff user (lines
    2220-2263). *)
Definition unregister_staff (socket : SocketId) (user : User) (now : Z)
    (st : State) : State * list Emit :=
  let st1 := staffSessions_delete (u_id user) st in
  let st2 :=
    match profile_of_user user with
    | Some profile =>
        if nonempty (p_shortName profile)
        then staffSessions_delete (p_shortName profile) st1
        else st1
    | None => st1
    end in
  match u_email user with
  | Some email =>
      let st3 := upd_staffEmailSessions (delete email) st2 in
      let st4 :=
        match staffRooms st3 !! email with
        | Some room =>
            let room' := room ∖ {[ socket ]} in
            if bool_decide (size room' = 0%nat)
            then upd_staffRooms (delete email) st3
            else upd_staffRooms (fun m => <[ email := room' ]> m) st3
        | None => st3
        end in
      (upd_lastSeenByEmail (fun m => <[ email := now ]> m) st4,
       [mkEmit All "staff_status_update"
          (JObj [("staffEmail", JStr email); ("status", JStr "offline");
                 ("lastSeen", JDate now); ("timestamp", JDate now)])])
  | None => (st2, [])
  end.

(** [socket.on('disconnect', ...)] (lines 2217-2309).  Socket.IO has taken
    the socket out of its rooms before the listener runs.  The saves of
    the user and of the waiting call are wrapped in [try] blocks that
    swallow their failures and do not touch the registries. *)
Definition on_disconnect (st0 : State) (socket : SocketId) (now : Z) : Outcome :=
  let st :=
    upd_joined (fmap (fun members => members ∖ {[ socket ]}))
      (upd_sockets (fun s => s ∖ {[ socket ]}) st0) in
  let finish (st : State) (out : list Emit) : Outcome :=
    let '(st1, out1) := cleanup_waiting_call socket st in
    let '(st2, out2) := cleanup_active_calls socket (activeCalls st1) st1 in
    Returned st2 (out ++ out1 ++ out2) in
  match connectedUsers st !! socket with
  | Some user =>
      if String.eqb (u_role user) "staff"
      then
        let '(st1, out1) := unregister_staff socket user now st in
        match staff_list st1 (staffSessions st1) with
        | Throw m => Rejected st1 out1 m
        | Ok items =>
            finish (upd_connectedUsers (delete socket) st1)
              (out1 ++ [mkEmit All "staff-list-updated"
                          (JObj [("staff", JArr items)])])
        end
      else
        finish
          (upd_connectedUsers (delete socket)
             (upd_clientSessions (delete (u_id user)) st)) []
  | None => finish st []
  end.

(** The three ways [staff-login] finds its user (lines 689-731). *)
Definition resolve_staff_user (env : Env) (now : Z) (email password : JsVal)
    : Res (option User) :=
  dbUser <- (if isDbConnected env
             then User_findStaff env (toStr email) (toStr password)
             else Ok None) ;;
  let demoEmail :=
    if nonempty (DEMO_STAFF_EMAIL env) then DEMO_STAFF_EMAIL env
    else "staff@demo.com" in
  let demoPassword :=
    if nonempty (DEMO_STAFF_PASSWORD env) then DEMO_STAFF_PASSWORD env
    else "demo123" in
  let demo :=
    if negb (isDbConnected env) && str_eq demoEmail email
       && str_eq demoPassword password
    then Some (mkUser ("staff_" +:+ pretty now) "Demo Staff" "staff" "Support"
                 (Some demoEmail))
    else None in
  match dbUser with
  | Some user => Ok (Some user)
  | None =>
      match List.find
              (fun s => String.eqb (toLowerCase (p_email s))
                          (toLowerCase (toStr (Js.or email (JStr "")))))
              staffProfiles with
      | Some profile =>
          if str_eq (p_password profile) password
          then Ok (Some (mkUser (p_shortName profile) (p_name profile) "staff"
                           (p_department profile)
                           (if nonempty (p_email profile)
                            then Some (p_email profile) else None)))
          else Ok demo
      | None => Ok demo
      end
  end.

(** The registration part of [staff-login] (lines 739-774). *)
Definition register_staff_user (socket : SocketId) (user : User) (now : Z)
    (st : State) : State * list Emit :=
  let st1 := upd_connectedUsers (fun m => <[ socket := user ]> m) st in
  let st2 := staffSessions_set (u_id user) socket st1 in
  let st3 :=
    match profile_of_user user with
    | Some profile =>
        if nonempty (p_shortName profile)
        then staffSessions_set (p_shortName profile) socket st2
        else st2
    | None => st2
    end in
  match u_email user with
  | Some email =>
      let st4 := upd_staffEmailSessions (fun m => <[ email := socket ]> m) st3 in
      let st5 := socket_join socket email st4 in
      let st6 :=
        upd_staffRooms
          (fun m => <[ email := {[ socket ]} ∪ default ∅ (m !! email) ]> m) st5 in
      (st6,
       [mkEmit All "staff_status_update"
          (JObj [("staffEmail", JStr email); ("status", JStr "online");
                 ("timestamp", JDate now)])])
  | None => (st3, [])
  end.

(** The delivery of the queued calls of [staff-login] (lines 814-821):
    every element of the queue of [user._id] is emitted, then the queue is
    replaced by an empty one. *)
Definition drain_staff_calls (socket : SocketId) (user : User) (st : State)
    : State * list Emit :=
  let queuedCalls := default [] (pendingStaffCalls st !! u_id user) in
  if (0 <? length queuedCalls)%nat
  then
    (upd_pendingStaffCalls (fun m => <[ u_id user := [] ]> m) st,
     map (fun c => mkEmit (Sock socket) "new-call-request" c) queuedCalls)
  else (st, []).

(** The notification about pending video-call requests of [staff-login]
    (lines 808-812); the queue is left as it is. *)
Definition notify_pending_video_calls (socket : SocketId) (user : User)
    (st : State) : list Emit :=
  let pendingRequests := default [] (pendingVideoCalls st !! u_id user) in
  if (0 <? length pendingRequests)%nat
  then [mkEmit (Sock socket) "pending-video-calls"
          (JObj [("requests", JArr (pending_requests st pendingRequests))])]
  else [].

(** [socket.on('staff-login', ...)] (lines 684-833).  The whole body is
    inside one [try]; its [catch] emits [login-error].  The activity report
    to the webhook has a [try] of its own and touches nothing. *)
Definition on_staff_login (env : Env) (st : State) (socket : SocketId) (now : Z)
    (data : JsVal) : State * list Emit :=
  let failed (st : State) (out : list Emit) :=
    (st, out ++ [mkEmit (Sock socket) "login-error" (message "Login failed")]) in
  match resolve_staff_user env now (field "email" data) (field "password" data) with
  | Throw _ => failed st []
  | Ok None =>
      (st, [mkEmit (Sock socket) "login-error" (message "Invalid credentials")])
  | Ok (Some user) =>
      let '(st1, out1) := register_staff_user socket user now st in
      let out2 :=
        out1 ++ [mkEmit (Sock socket) "staff-login-success"
                   (JObj [("staff",
                           JObj [("id", JStr (u_id user));
                                 ("name", JStr (u_name user));
                                 ("department", JStr (u_department user));
                                 ("email",
                                  match u_email user with
                                  | Some e => JStr e
                                  | None => JUndef
                                  end)])])] in
      match (if isDbConnected env then Call_countWaiting env
             else Ok (Z.of_nat (length (waitingCalls st1)))) with
      | Throw _ => failed st1 out2
      | Ok count =>
          let out3 :=
            out2 ++ [mkEmit (Sock socket) "waiting-calls"
                       (JObj [("count", JNum count)])]
                 ++ notify_pending_video_calls socket user st1 in
          let '(st2, out4) := drain_staff_calls socket user st1 in
          match staff_list st2 (staffSessions st2) with
          | Throw _ => failed st2 (out3 ++ out4)
          | Ok items =>
              (st2, out3 ++ out4
                    ++ [mkEmit All "staff-list-updated"
                          (JObj [("staff", JArr items)])])
          end
      end
  end.

(** The object that [POST /api/staff/call-request] sends or queues. *)
Definition call_request_object (callId : string) (now : Z) (body : JsVal) : JsVal :=
  JObj [("callId", JStr callId);
        ("clientName", field "clientName" body);
        ("purpose", Js.or (field "purpose" body) (JStr "General inquiry"));
        ("timestamp", JDate now);
        ("type", JStr "video-call")].

(** [POST /api/staff/call-request] (lines 370-430); [callId] is the id the
    route generates.  The result carries the HTTP status and body. *)
Definition api_staff_call_request (st : State) (callId : string) (now : Z)
    (body : JsVal) : State * list Emit * (Z * JsVal) :=
  let staffId := field "staffId" body in
  match List.find (fun s => str_eq (p_shortName s) staffId) staffProfiles with
  | None => (st, [], (404, JObj [("error", JStr "Staff member not found")]))
  | Some staffProfile =>
      let key := p_shortName staffProfile in
      let callRequest := call_request_object callId now body in
      let online :=
        match staffSessions_get key st with
        | Some staffSocketId =>
            if nonempty staffSocketId then Some staffSocketId else None
        | None => None
        end in
      match online with
      | Some staffSocketId =>
          (st,
           [mkEmit (Room (JStr staffSocketId)) "incoming-call-request" callRequest],
           (200, JObj [("success", JBool true);
                       ("message",
                        JStr ("Call request sent to " +:+ p_name staffProfile));
                       ("callId", JStr callId)]))
      | None =>
          (upd_pendingStaffCalls
             (fun m => <[ key := default [] (m !! key) ++ [callRequest] ]> m) st,
           [],
           (200, JObj [("success", JBool true);
                       ("message",
                        JStr ("Call request queued for " +:+ p_name staffProfile
                              +:+ ". They will be notified when they come online."));
                       ("callId", JStr callId)]))
      end
  end.

End Presence.

(** ** Derived status *)

(** [timeToMinutes] (lines 206-209) on the split hour and minute. *)
Definition timeToMinutes (t : Z * Z) : Z := fst t * 60 + snd t.

(** The [isAvailable] member of the result of [checkTeacherAvailability]
    (lines 102-203); [requestedDay = None] is a missing or empty day.  The
    sort of the day's entries does not change which entry contains the
    current time and is left out. *)
Definition isAvailable (env : Env) (entries : list TimetableEntry)
    (requestedDay : option string) : bool :=
  let targetDay := default (currentDay env) requestedDay in
  let currentMinutes := timeToMinutes (currentTime env) in
  let dayEntries :=
    List.filter (fun entry => String.eqb (te_day entry) targetDay) entries in
  if (length dayEntries =? 0)%nat then true
  else if match requestedDay with
          | Some d => negb (String.eqb d (currentDay env))
          | None => false
          end
  then true
  else negb (existsb
               (fun entry =>
                  (timeToMinutes (te_start entry) <=? currentMinutes)
                  && (currentMinutes <? timeToMinutes (te_end entry)))
               dayEntries).

(** The status label (lines 468-471 and 2840-2843): three assignments in
    this order over the initial ['offline']. *)
Definition status_label (isOnline inClass isBusy : bool) : string :=
  let status := "offline" in
  let status := if isOnline then "online" else status in
  let status := if inClass then "in_class" else status in
  let status := if isBusy then "busy" else status in
  status.

(** Busy: some active session has the staff socket on its staff side
    (lines 442-448 and 2807-2812). *)
Definition is_busy (st : State) (socketOfStaff : option SocketId) : bool :=
  match socketOfStaff with
  | Some s =>
      nonempty s
      && existsb (fun entry => str_eq s (staffSocketId (snd entry)))
           (activeCalls st)
  | None => false
  end.

(** In class, as the status route reads it (lines 451-466): any failure of
    the enrichment is ignored. *)
Definition in_class_now (env : Env) (staffEmail : string) : bool :=
  try_catch
    (if isDbConnected env && nonempty staffEmail
     then found <- Staff_timetable env staffEmail ;;
          match found with
          | Some entries =>
              Ok ((0 <? length entries)%nat && negb (isAvailable env entries None))
          | None => Ok false
          end
     else Ok false)
    (fun _ => false).

Section Status.

Variable staffProfiles : list StaffProfile.

(** [GET /api/staff/status/:staffId] (lines 432-486): the members
    [status], [isOnline], [isBusy], [inClass] of the response. *)
Definition api_staff_status (env : Env) (st : State) (staffId : string)
    : string * (bool * bool * bool) :=
  let isOnline := OMap.has String.eqb staffId (staffSessions st) in
  let staffEmail :=
    match List.find (fun s => String.eqb (p_shortName s) staffId) staffProfiles with
    | Some profile => p_email profile
    | None => ""
    end in
  let staffSocketId :=
    if nonempty staffEmail then staffEmailSessions st !! staffEmail else None in
  let isBusy := is_busy st staffSocketId in
  let inClass := in_class_now env staffEmail in
  (status_label isOnline inClass isBusy, (isOnline, isBusy, inClass)).

(** The status part of [check_teacher_availability] for a teacher found in
    the profiles (lines 2800-2843); [day] is the requested day. *)
Definition teacher_status (env : Env) (st : State) (staffProfile : StaffProfile)
    (day : option string) : string * (bool * bool * bool) :=
  let staffEmail := p_email staffProfile in
  let staffSocketId :=
    if nonempty staffEmail then staffEmailSessions st !! staffEmail else None in
  let isOnlineBasic :=
    OMap.has String.eqb (p_shortName staffProfile) (staffSessions st)
    || bool_decide (is_Some (staffEmailSessions st !! staffEmail)) in
  let isBusy := is_busy st staffSocketId in
  let inClass :=
    if isDbConnected env
    then try_catch
           (found <- Staff_timetable env staffEmail ;;
            match found with
            | Some entries =>
                Ok ((0 <? length entries)%nat
                    && match day with
                       | Some d => String.eqb d (currentDay env)
                       | None => true
                       end
                    && negb (isAvailable env entries day))
            | None => Ok false
            end)
           (fun _ => false)
    else false in
  (status_label isOnlineBasic inClass isBusy, (isOnlineBasic, isBusy, inClass)).

End Status.

(** ** Vocabulary of the properties *)

(** The sender is one of the two connections of the session. *)
Definition is_participant (socket : SocketId) (callSession : CallSession) : bool :=
  str_eq socket (clientSocketId callSession)
  || str_eq socket (staffSocketId callSession).

(** The other connection of the session, seen from [socket]. *)
Definition peer (socket : SocketId) (callSession : CallSession) : JsVal :=
  if str_eq socket (clientSocketId callSession)
  then staffSocketId callSession
  else clientSocketId callSession.



(** What every creating handler does with a request that exists: the new
    session is stored under the generated id, every other entry of
    [activeCalls] is kept, and no error is reported. *)
Definition creates_session (st st' : State) (out : list Emit)
    (callId : CallId) (client staff : JsVal) : Prop :=
  (exists callSession,
     activeCalls_get (JStr callId) st' = Some callSession
     /\ clientSocketId callSession = client
     /\ staffSocketId callSession = staff)
  /\ (forall k, same_value_zero k (JStr callId) = false ->
                activeCalls_get k st' = activeCalls_get k st)
  /\ Forall (fun e => event e <> "call-error"%string
                      /\ event e <> "video-call-error"%string) out.

(** The REST submissions of a list of requests, one after the other. *)
Definition submit_all (profiles : list StaffProfile) (st : State)
    (reqs : list (string * Z * JsVal)) : State :=
  fold_left
    (fun st r => fst (fst (api_staff_call_request profiles st (fst (fst r))
                             (snd (fst r)) (snd r))))
    reqs st.

Definition queue_of (st : State) (X : string) : list JsVal :=
  default [] (pendingStaffCalls st !! X).


(** ** A running example

    Four sockets connect: the clients [a] and [b], the staff member [s]
    and a bystander [x].  The states below are reached from the empty
    registries by running the handlers. *)

Module Scenario.

Definition profiles : list StaffProfile :=
  [mkStaffProfile "Prof. Anitha C S" "anitha@college.edu" "ACS" "CSE" "pw-acs";
   mkStaffProfile "Dr. Nagashree N" "nagashree@college.edu" "NN" "CSE" "pw-nn"].

Definition no_db : Env :=
  mkEnv false (fun _ _ => Ok None) (fun _ => Ok None) (fun _ => Ok tt) (Ok 0)
    (fun _ => Ok tt) (fun _ _ => Ok tt) (fun _ => Ok None) (Ok tt)
    "" "" "Monday" (10, 30).

Definition obj (fields : list (string * string)) : JsVal :=
  JObj (map (fun kv => (fst kv, JStr (snd kv))) fields).

Definition connected : State :=
  fold_left on_connection ["a"; "b"; "s"; "x"] empty_state.

Definition acs_online : State :=
  fst (on_staff_login profiles no_db connected "s" 1000
         (obj [("email", "anitha@college.edu"); ("password", "pw-acs")])).

Definition call1_requested : State :=
  fst (on_call_request acs_online "a" "req1" 2000
         (obj [("clientId", "client-a"); ("staffEmail", "anitha@college.edu")])).

Definition call1_active : State :=
  fst (on_call_accepted call1_requested "s" "call1" 3000
         (obj [("requestId", "req1"); ("staffEmail", "anitha@college.edu");
               ("staffName", "Prof. Anitha C S")])).


Definition call2_requested : State :=
  fst (on_call_request call1_active "b" "req2" 4000
         (obj [("clientId", "client-b"); ("staffEmail", "anitha@college.edu")])).

Definition two_calls : State :=
  fst (on_call_accepted call2_requested "s" "call2" 5000
         (obj [("requestId", "req2"); ("staffEmail", "anitha@college.edu");
               ("staffName", "Prof. Anitha C S")])).

(** [a], already in [call1], asks for the same staff member again. *)
Definition call1_and_request : State :=
  fst (on_call_request call1_active "a" "req3" 4000
         (obj [("clientId", "client-a"); ("staffEmail", "anitha@college.edu")])).

Definition accept_req3 : JsVal :=
  obj [("requestId", "req3"); ("staffEmail", "anitha@college.edu");
       ("staffName", "Prof. Anitha C S")].

(** [a] asks for a video call with the staff member [ACS], who is online. *)
Definition video_requested : State :=
  fst (on_video_call_request profiles acs_online "a" "vcr1" 2000
         (JObj [("staffName", JStr "ACS"); ("clientName", JStr "Asha");
                ("clientSocketId", JStr "a")])).

Definition accept_vcr1 : JsVal :=
  JObj [("requestId", JStr "vcr1"); ("accepted", JBool true);
        ("staffId", JStr "ACS")].

Definition video_accepted : State :=
  fst (on_video_call_response no_db video_requested "s" "vcall1" 3000 accept_vcr1).

(** A connected database in which every operation fails. *)
Definition db_failing : Env :=
  mkEnv true (fun _ _ => Throw "db") (fun _ => Throw "db") (fun _ => Throw "db")
    (Throw "db") (fun _ => Throw "db") (fun _ _ => Throw "db")
    (fun _ => Throw "db") (Ok tt) "" "" "Monday" (10, 30).

(** A connected database that holds the document of [call1], started at
    3000 ms, and accepts every write. *)
Definition db_ok : Env :=
  mkEnv true (fun _ _ => Ok None)
    (fun _ => Ok (Some (mkCallDoc "call1" "client-a" JUndef "ACS" "in-progress"
                          (Some 3000) None None)))
    (fun _ => Ok tt) (Ok 0) (fun _ => Ok tt) (fun _ _ => Ok tt)
    (fun _ => Ok None) (Ok tt) "" "" "Monday" (10, 30).

Definition end_clock : EndCallClock :=
  mkEndCallClock 4500 4500 4500 4500 4500 4500 4500.

Definition end_call1 : JsVal := obj [("callId", "call1")].

Definition call1_ended : State :=
  fst (fst (on_end_call no_db call1_active "s" end_clock end_call1)).


Definition acs_login : JsVal :=
  obj [("email", "anitha@college.edu"); ("password", "pw-acs")].

(** Two REST call requests for [ACS] and one video-call request arrive
    while nobody is logged in. *)
Definition rest_requests : list (string * Z * JsVal) :=
  [("call_1", 100, obj [("staffId", "ACS"); ("clientName", "Asha");
                        ("purpose", "Project review")]);
   ("call_2", 200, obj [("staffId", "ACS"); ("clientName", "Bala")])].

Definition video_queued : State :=
  fst (on_video_call_request profiles connected "a" "vcr9" 300
         (JObj [("staffName", JStr "ACS"); ("clientName", JStr "Asha");
                ("clientSocketId", JStr "a")])).


End Scenario.

(** * Further parts of the code

    Handlers, routes and helpers next to the ones above: the remaining
    call and session handlers of the main server, the staff-only server
    and the guards of the staff portal.  Line numbers refer to the file
    named with each definition, and to the main server file otherwise. *)

(** ** Further vocabulary *)


(** The e-mail of the payload names the profile [p], letter case aside. *)
Definition names_profile (email : JsVal) (p : StaffProfile) : bool :=
  String.eqb (toLowerCase (p_email p)) (toLowerCase (toStr (Js.or email (JStr "")))).

(** The registries an outcome leaves behind. *)
Definition outcome_state (o : Outcome) : State :=
  match o with
  | Returned st _ => st
  | Rejected st _ _ => st
  end.

(** ** Further handlers of the main server *)

(** A listener whose parameter is a destructuring pattern throws, outside
    any [try], when the payload is [undefined] or [null]. *)
Definition destructured (data : JsVal) : Res JsVal :=
  match data with
  | JUndef | JNull => Throw "TypeError: Cannot destructure property of undefined"
  | _ => Ok data
  end.

(** The common body of [call-ended-by-client] and [call-ended-by-staff]
    (lines 1968-1992): [side] is the member of the session that names the
    socket to notify. *)
Definition end_call_unchecked (ev text : string) (side : CallSession -> JsVal)
    (st : State) (socket : SocketId) (data : JsVal) : Res (State * list Emit) :=
  d <- destructured data ;;
  let callId := field "callId" d in
  match activeCalls_get callId st with
  | Some callSession =>
      Ok (activeCalls_delete callId st,
          [mkEmit (Room (side callSession)) ev
             (JObj [("callId", callId); ("message", JStr text)])])
  | None => Ok (st, [])
  end.

(** [socket.on('call-ended-by-client', ...)] (lines 1968-1979). *)
Definition on_call_ended_by_client :=
  end_call_unchecked "call-ended-by-client" "Client ended the call" staffSocketId.

(** [socket.on('call-ended-by-staff', ...)] (lines 1981-1992). *)
Definition on_call_ended_by_staff :=
  end_call_unchecked "call-ended-by-staff" "Staff ended the call" clientSocketId.

(** [socket.on('register-staff', ...)] of the main server (lines
    1996-2013); the payload is the e-mail string itself. *)
Definition on_register_staff (st : State) (socket : SocketId)
    (staffEmail : string) : State * list Emit :=
  let st1 := upd_staffEmailSessions (fun m => <[ staffEmail := socket ]> m) st in
  let st2 := socket_join socket staffEmail st1 in
  let st3 :=
    upd_staffRooms
      (fun m => <[ staffEmail := {[ socket ]} ∪ default ∅ (m !! staffEmail) ]> m)
      st2 in
  (st3, [mkEmit (Sock socket) "staff-registered"
           (JObj [("email", JStr staffEmail); ("success", JBool true)])]).

Section MoreHandlers.

Variable staffProfiles : list StaffProfile.

(** The user record that [restore-session] builds from a profile (lines
    855-863). *)
Definition restored_user (profile : StaffProfile) : User :=
  mkUser (p_shortName profile) (p_name profile) "staff" (p_department profile)
    (if nonempty (p_email profile) then Some (p_email profile) else None).

(** [socket.on('restore-session', ...)] (lines 836-895).  The body is one
    [try] whose [catch] only logs: a payload without [staff.email], an
    e-mail that is not a string (its [toLowerCase] throws) or that names
    no profile leaves everything as it is; a failing count of the waiting
    calls comes after the registration. *)
Definition on_restore_session (env : Env) (st : State) (socket : SocketId)
    (now : Z) (data : JsVal) : State * list Emit :=
  match data with
  | JUndef | JNull => (st, [])
  | _ =>
      let staff := field "staff" data in
      if negb (truthy staff) || negb (truthy (field "email" staff)) then (st, [])
      else
        match field "email" staff with
        | JStr email =>
            match List.find
                    (fun s => String.eqb (toLowerCase (p_email s)) (toLowerCase email))
                    staffProfiles with
            | None => (st, [])
            | Some profile =>
                let user := restored_user profile in
                let st1 := upd_connectedUsers (fun m => <[ socket := user ]> m) st in
                let st2 := staffSessions_set (u_id user) socket st1 in
                let st3 := staffSessions_set (p_shortName profile) socket st2 in
                let '(st4, out1) :=
                  match u_email user with
                  | Some e =>
                      (upd_staffRooms
                         (fun m => <[ e := {[ socket ]} ∪ default ∅ (m !! e) ]> m)
                         (socket_join socket e
                            (upd_staffEmailSessions (fun m => <[ e := socket ]> m)
                               st3)),
                       [mkEmit All "staff_status_update"
                          (JObj [("staffEmail", JStr e); ("status", JStr "online");
                                 ("timestamp", JDate now)])])
                  | None => (st3, [])
                  end in
                match (if isDbConnected env then Call_countWaiting env
                       else Ok (Z.of_nat (length (waitingCalls st4)))) with
                | Throw _ => (st4, out1)
                | Ok count =>
                    (st4, out1 ++ [mkEmit (Sock socket) "waiting-calls"
                                     (JObj [("count", JNum count)])])
                end
            end
        | _ => (st, [])
        end
  end.

(** The in-memory stores of the demo mode that only [start-conversation]
    writes. *)
Record DemoStore := mkDemoStore {
  demoUsers : list (string * User);
  demoConversations : list (SocketId * JsVal);
  demoCalls : list (SocketId * JsVal)
}.

(** The clock readings of the demo branch of [start-conversation], in
    program order. *)
Record StartClock := mkStartClock {
  t_userId : Z;
  t_callId : Z;
  t_createdAt : Z;
  t_notified : Z
}.

(** The branch of [start-conversation] that runs with a connected
    database (lines 920-1027) creates documents through the database
    layer; it is a parameter here. *)
Variable start_conversation_db :
  State -> DemoStore -> SocketId -> JsVal -> State * DemoStore * list Emit.

(** [socket.on('start-conversation', ...)] (lines 898-1108): the guard and
    the demo branch.  [name] and [email] are the strings the client form
    sends; a payload that cannot be destructured is reported by the
    [catch].  The report to the webhook has a [try] of its own and
    touches nothing. *)
Definition on_start_conversation (env : Env) (st : State) (demo : DemoStore)
    (socket : SocketId) (clock : StartClock) (data : JsVal)
    (name : string) (email : option string) : State * DemoStore * list Emit :=
  let purpose := field "purpose" data in
  let selectedStaffId := field "selectedStaffId" data in
  match destructured data with
  | Throw m =>
      (st, demo,
       [mkEmit (Sock socket) "conversation-error"
          (message ("Failed to start conversation: " +:+ m))])
  | Ok _ =>
  if negb (truthy selectedStaffId)
  then (st, demo,
        [mkEmit (Sock socket) "conversation-error"
           (message "Please select a staff member to connect with")])
  else
    let staffSocketId :=
      match selectedStaffId with
      | JStr k =>
          match staffSessions_get k st with
          | Some s => if nonempty s then Some s else None
          | None => None
          end
      | _ => None
      end in
    let staffProfile :=
      List.find
        (fun s => String.eqb (toLowerCase (p_shortName s))
                    (toLowerCase (toStr selectedStaffId)))
        staffProfiles in
    let staffUser :=
      match staffSocketId with
      | Some s => connectedUsers st !! s
      | None => None
      end in
    if isDbConnected env then start_conversation_db st demo socket data
    else
      let sessionId := socket in
      let userId := "demo_" +:+ pretty (t_userId clock) in
      let demoUser := mkUser userId name "client" "" email in
      let staffName :=
        match staffUser with
        | Some u => if nonempty (u_name u) then Some (u_name u) else None
        | None => None
        end in
      let staffName :=
        match staffName with
        | Some n => n
        | None =>
            match staffProfile with
            | Some p => if nonempty (p_name p) then p_name p else "Staff"
            | None => "Staff"
            end
        end in
      let staffDepartment :=
        match staffUser with
        | Some u => if nonempty (u_department u) then Some (u_department u) else None
        | None => None
        end in
      let staffDepartment :=
        match staffDepartment with
        | Some d => d
        | None =>
            match staffProfile with
            | Some p => if nonempty (p_department p) then p_department p
                        else "General"
            | None => "General"
            end
        end in
      let demoConversation :=
        JObj [("sessionId", JStr sessionId); ("userId", JStr userId);
              ("messages",
               JArr [JObj [("sender", JStr "system");
                           ("content",
                            JStr ("New conversation started by " +:+ name
                                  +:+ " with staff " +:+ staffName
                                  +:+ " - Purpose: " +:+ toStr purpose));
                           ("messageType", JStr "system")]])] in
      let callId := "call_" +:+ pretty (t_callId clock) in
      let demoCall :=
        JObj [("_id", JStr callId); ("clientId", JStr userId);
              ("staffId", selectedStaffId); ("purpose", purpose);
              ("status", JStr "waiting");
              ("createdAt", JDate (t_createdAt clock))] in
      let demo' :=
        mkDemoStore
          (OMap.set String.eqb userId demoUser (demoUsers demo))
          (OMap.set String.eqb sessionId demoConversation (demoConversations demo))
          (OMap.set String.eqb sessionId demoCall (demoCalls demo)) in
      let st1 := upd_connectedUsers (fun m => <[ socket := demoUser ]> m) st in
      let st2 := upd_clientSessions (fun m => <[ userId := socket ]> m) st1 in
      let request :=
        JObj [("callId", JStr callId); ("clientName", JStr name);
              ("purpose", purpose); ("timestamp", JDate (t_notified clock))] in
      let '(st3, out1) :=
        match staffSocketId with
        | Some s => (st2, [mkEmit (Room (JStr s)) "new-call-request" request])
        | None =>
            let k := toStr selectedStaffId in
            (upd_pendingStaffCalls
               (fun m => <[ k := default [] (m !! k) ++ [request] ]> m) st2,
             [])
        end in
      (st3, demo',
       out1 ++ [mkEmit (Sock socket) "conversation-started"
                  (JObj [("sessionId", JStr sessionId); ("callId", JStr callId);
                         ("name", JStr name); ("purpose", purpose);
                         ("staffName", JStr staffName);
                         ("staffDepartment", JStr staffDepartment);
                         ("selectedStaffId", selectedStaffId)])])
  end.

(** ASCII white space, as [\s] matches it. *)
Definition is_space (c : ascii) : bool :=
  let n := nat_of_ascii c in
  ((n =? 32) || ((9 <=? n) && (n <=? 13)))%nat.

Fixpoint drop_spaces (s : string) : string :=
  match s with
  | EmptyString => EmptyString
  | String c r => if is_space c then drop_spaces r else s
  end.

(** [s.replace(/^(prof\.|dr\.|mrs?\.|ms\.)\s*/i, '')] on a lower-cased
    name. *)
Definition strip_title (s : string) : string :=
  let after (n : nat) := drop_spaces (String.substring n (String.length s - n) s) in
  if String.prefix "prof." s then after 5%nat
  else if String.prefix "dr." s then after 3%nat
  else if String.prefix "mrs." s then after 4%nat
  else if String.prefix "mr." s then after 3%nat
  else if String.prefix "ms." s then after 3%nat
  else s.

(** [s.split(/\s+/)[0]] *)
Fixpoint first_word (s : string) : string :=
  match s with
  | EmptyString => EmptyString
  | String c r => if is_space c then EmptyString else String c (first_word r)
  end.

(** The predicate of [staffProfiles.find] in the online-staff checker
    (lines 640-659). *)
Definition checker_matches (st : State) (identifier : string)
    (s : StaffProfile) : bool :=
  let lowerName := toLowerCase (p_name s) in
  String.eqb lowerName identifier
  || String.eqb (strip_title lowerName) identifier
  || includes lowerName identifier || includes identifier lowerName
  || (nonempty (p_email s)
      && bool_decide (is_Some (staffEmailSessions st !! p_email s)))
  || (nonempty (p_shortName s)
      && OMap.has String.eqb (p_shortName s) (staffSessions st)).

(** The checker handed to the AI service with [setOnlineStaffChecker]
    (lines 619-662), on an identifier that is a string. *)
Definition onlineStaffChecker (st : State) (staffIdentifier : string) : bool :=
  if negb (nonempty staffIdentifier) then false
  else
    let identifier := toLowerCase staffIdentifier in
    if OMap.has String.eqb staffIdentifier (staffSessions st) then true
    else if bool_decide (is_Some (staffEmailSessions st !! staffIdentifier)) then true
    else if existsb
              (fun entry =>
                 String.eqb (fst entry) staffIdentifier
                 || String.eqb (toLowerCase (fst entry)) identifier)
              (staffSessions st)
    then true
    else match List.find (checker_matches st identifier) staffProfiles with
         | Some _ => true
         | None => false
         end.

Definition collegeKeywords : list string :=
  ["admission"; "apply"; "enroll"; "join"; "fee"; "cost"; "price"; "tuition";
   "scholarship";
   "department"; "course"; "branch"; "cse"; "mechanical"; "civil"; "ece"; "ise";
   "it"; "cs";
   "placement"; "job"; "career"; "salary";
   "event"; "fest"; "seminar"; "workshop"; "contact"; "phone"; "email"; "address";
   "sai vidya"; "engineering"; "college"; "university"; "institute"; "technology";
   "curriculum"; "syllabus"; "subjects"; "books"; "library"; "lab"; "laboratory";
   "exam"; "examination"; "test"; "result"; "grade"; "marks"; "cgpa"; "gpa";
   "hostel"; "accommodation"; "canteen"; "cafeteria"; "transport"; "bus";
   "facilities"; "campus"; "infrastructure"; "location"; "directions"; "map"].

Definition greetingPatterns : list string :=
  ["namaste"; "namaskar"; "hello"; "hi"; "good morning"; "good afternoon";
   "good evening";
   "kaise ho"; "kaise hai"; "aap kaise"; "how are you"; "how do you do";
   "hey clara";
   "clara hai"; "hai kya"].

Definition staffCallKeywords : list string :=
  ["call"; "meet"; "meeting"; "talk"; "speak"; "connect"; "video call";
   "appointment";
   "set a meeting"; "schedule meeting"; "available"; "free"; "busy"; "timetable";
   "schedule"].

(** The name variations that [isCollegeQuery] collects from the profiles
    (lines 311-327). *)
Definition staffNameVariations : list string :=
  flat_map
    (fun staff =>
       let lowerName := toLowerCase (p_name staff) in
       let firstName := first_word (strip_title lowerName) in
       [lowerName]
       ++ (if nonempty firstName then [firstName] else [])
       ++ (if nonempty (p_shortName staff)
           then [toLowerCase (p_shortName staff)] else [])
       ++ (if nonempty (p_email staff)
           then [toLowerCase (before_at (p_email staff))] else []))
    staffProfiles.

(** [isCollegeQuery] (lines 269-346), on ASCII messages. *)
Definition isCollegeQuery (message : string) : bool :=
  let lowerMessage := toLowerCase message in
  if existsb (includes lowerMessage) greetingPatterns then false
  else
    let hasStaffName := existsb (includes lowerMessage) staffNameVariations in
    let hasCallKeyword := existsb (includes lowerMessage) staffCallKeywords in
    if hasStaffName && hasCallKeyword then false
    else if (String.length lowerMessage <? 3)%nat
            || String.eqb lowerMessage "yes" || String.eqb lowerMessage "no"
    then false
    else existsb (includes lowerMessage) collegeKeywords.

End MoreHandlers.

(** [isTimetableQuery] (lines 349-359). *)
Definition isTimetableQuery (message : string) : bool :=
  existsb (includes (toLowerCase message))
    ["schedule"; "timetable"; "class"; "free"; "available"; "busy"; "teaching";
     "monday"; "tuesday"; "wednesday"; "thursday"; "friday"; "saturday";
     "room"; "lab"; "office hours"; "when does"; "what classes";
     "mr."; "mrs."; "ms."; "dr."; "prof."].

(** ** The staff-only server

    The second server of the repository (part_001) serves the staff
    dashboard alone.  It keeps three registries of its own and addresses
    every emission either to the handler's socket or to all other
    sockets. *)

Module StaffOnly.

(** A value of [activeCalls] (lines 132-137). *)
Record Session := mkSession {
  staffSocketId : SocketId;
  staffEmail : JsVal;
  staffName : JsVal;
  startTime : Z
}.

Record State := mkState {
  staffEmailSessions : list (string * SocketId);
  connectedUsers : gmap SocketId string;
  activeCalls : list (string * Session)
}.

(** [Self s] is [socket.emit] on the socket [s]; [Others s] is
    [socket.broadcast.emit]. *)
Inductive Target : Type :=
| Self (s : SocketId)
| Others (s : SocketId).

Record Emit := mkEmit {
  target : Target;
  event : string;
  payload : JsVal
}.

(** The sockets an emission reaches, among the connected ones. *)
Definition recipients (connected : gset SocketId) (e : Emit) : gset SocketId :=
  match target e with
  | Self s => {[ s ]}
  | Others s => connected ∖ {[ s ]}
  end.

(** [activeCalls.get(callId)] for a call id that arrives in a payload. *)
Definition activeCalls_get (callId : JsVal) (st : State) : option Session :=
  match callId with
  | JStr k => OMap.get String.eqb k (activeCalls st)
  | _ => None
  end.

Definition activeCalls_delete (callId : string) (st : State) : State :=
  mkState (staffEmailSessions st) (connectedUsers st)
    (OMap.delete String.eqb callId (activeCalls st)).

(** [socket.on('register-staff', ...)] (lines 111-121); the payload is the
    e-mail string.  The stored user is [{ email, type: 'staff' }]. *)
Definition on_register_staff (st : State) (socket : SocketId)
    (email : string) : State * list Emit :=
  (mkState (OMap.set String.eqb email socket (staffEmailSessions st))
     (<[ socket := email ]> (connectedUsers st))
     (activeCalls st),
   [mkEmit (Self socket) "staff-registered"
      (JObj [("email", JStr email); ("success", JBool true)])]).

(** [socket.on('call-accepted', ...)] (lines 124-151); [callId] is the id
    the handler generates and [now] the clock.  The listener is [async]
    and has no [try]: a payload that cannot be destructured rejects. *)
Definition on_call_accepted (st : State) (socket : SocketId) (callId : string)
    (now : Z) (data : JsVal) : Res (State * list Emit) :=
  d <- destructured data ;;
  Ok (mkState (staffEmailSessions st) (connectedUsers st)
        (OMap.set String.eqb callId
           (mkSession socket (field "staffEmail" d) (field "staffName" d) now)
           (activeCalls st)),
      [mkEmit (Others socket) "call-accepted-by-staff"
         (JObj [("callId", JStr callId); ("staffName", field "staffName" d);
                ("requestId", field "requestId" d)]);
       mkEmit (Self socket) "start-call"
         (JObj [("callId", JStr callId); ("clientName", JStr "Client")])]).

(** [socket.on('call-rejected', ...)] (lines 154-157). *)
Definition on_call_rejected (st : State) (socket : SocketId) (data : JsVal)
    : State * list Emit :=
  (st, [mkEmit (Others socket) "call-rejected-by-staff" data]).

(** The body of the [try] that persists the call log (lines 169-219): the
    first upsert may throw out of the block, as does [split] on an e-mail
    that is not a string; the upsert into the per-staff collection has a
    [try] of its own. *)
Definition persist_call_log (env : Env) (callSession : Session)
    (callId reason : JsVal) (duration : Z) : Res (list DbWrite) :=
  if isDbConnected env && truthy (staffEmail callSession) then
    match staffEmail callSession with
    | JStr email =>
        let username := toLowerCase (before_at email) in
        let entry :=
          mkCallLogEntry callId email "incoming" (JStr "Client")
            (Js.or (staffName callSession) (JStr "Staff"))
            (startTime callSession) username "completed" duration
            (Js.or reason (JStr "ended")) in
        _ <- StaffCallLog_upsert env entry ;;
        Ok (WStaffCallLog entry
            :: try_catch
                 (_ <- PerStaffLog_upsert env username entry ;;
                  Ok [WPerStaffLog username entry])
                 (fun _ => []))
    | _ => Throw "TypeError: staffEmail.split is not a function"
    end
  else Ok [].

(** [socket.on('end-call', ...)] (lines 160-227); [now] is the clock read
    for the duration.  The third component lists the writes that reached
    the database. *)
Definition on_end_call (env : Env) (st : State) (socket : SocketId) (now : Z)
    (data : JsVal) : Res (State * list Emit * list DbWrite) :=
  d <- destructured data ;;
  let callId := field "callId" d in
  let reason := field "reason" d in
  match callId, activeCalls_get callId st with
  | JStr k, Some callSession =>
      let duration := floor_seconds now (startTime callSession) in
      let logged :=
        try_catch (persist_call_log env callSession callId reason duration)
          (fun _ => []) in
      Ok (activeCalls_delete k st,
          [mkEmit (Self socket) "call-ended"
             (JObj [("callId", callId); ("reason", reason)]);
           mkEmit (Others socket) "call-ended"
             (JObj [("callId", callId); ("reason", reason)])],
          logged)
  | _, _ => Ok (st, [], [])
  end.

(** [offer], [answer] and [ice-candidate] (lines 230-240). *)
Definition relay (ev : string) (st : State) (socket : SocketId) (data : JsVal)
    : State * list Emit :=
  (st, [mkEmit (Others socket) ev data]).

(** The loop over [activeCalls] of the disconnect handler (lines
    254-259): every session of the socket is deleted and announced. *)
Fixpoint cleanup_active_calls (socket : SocketId)
    (entries : list (string * Session)) (st : State) : State * list Emit :=
  match entries with
  | [] => (st, [])
  | (callId, callSession) :: rest =>
      if String.eqb (staffSocketId callSession) socket
      then
        let '(st', out) :=
          cleanup_active_calls socket rest (activeCalls_delete callId st) in
        (st', mkEmit (Others socket) "call-ended"
                (JObj [("callId", JStr callId); ("reason", JStr "disconnect")])
              :: out)
      else cleanup_active_calls socket rest st
  end.

(** [socket.on('disconnect', ...)] (lines 243-260). *)
Definition on_disconnect (st : State) (socket : SocketId) : State * list Emit :=
  let sessions :=
    match connectedUsers st !! socket with
    | Some email =>
        if nonempty email
        then OMap.delete String.eqb email (staffEmailSessions st)
        else staffEmailSessions st
    | None => staffEmailSessions st
    end in
  let st1 := mkState sessions (delete socket (connectedUsers st)) (activeCalls st) in
  cleanup_active_calls socket (activeCalls st1) st1.

End StaffOnly.

(** ** The staff portal routes and their guards *)

Module Portal.

(** [s.split(c)] for a one-character separator. *)
Fixpoint split_on (c : ascii) (s : string) : list string :=
  match s with
  | EmptyString => [EmptyString]
  | String a r =>
      if Ascii.eqb a c then EmptyString :: split_on c r
      else match split_on c r with
           | h :: t => String a h :: t
           | [] => [String a EmptyString]
           end
  end.

(** What a request is answered with, or the values a middleware hands to
    the next one. *)
Inductive Step (A : Type) : Type :=
| Respond (status : Z) (error : string)
| Next (a : A).
Arguments Respond {A} status error.
Arguments Next {A} a.

(** The claims of a verified token. *)
Record Decoded := mkDecoded {
  userId : JsVal;
  role : JsVal
}.

(** The members of a [Staff] document that the guards read; a missing
    [username] is the empty string. *)
Record StaffDoc := mkStaffDoc {
  sd_id : JsVal;
  sd_username : string;
  sd_email : string
}.

(** What the guards obtain from outside: the token verification and the
    lookups by id; a lookup returns the [_id] of the document. *)
Record Auth := mkAuth {
  jwt_verify : string -> Res Decoded;
  dbConnected : bool;
  User_findById : JsVal -> Res (option JsVal);
  Staff_findById : JsVal -> Res (option StaffDoc)
}.

(** [authHeader && authHeader.split(' ')[1]] *)
Definition token_of (authorization : option string) : option string :=
  match authorization with
  | Some authHeader =>
      if nonempty authHeader then nth_error (split_on " " authHeader) 1 else None
  | None => None
  end.

(** [authenticateToken] (part_003): the result is the [_id] of
    [req.user]. *)
Definition authenticateToken (auth : Auth) (authorization : option string)
    : Step JsVal :=
  match token_of authorization with
  | None => Respond 401 "Access token required"
  | Some token =>
      if negb (nonempty token) then Respond 401 "Access token required"
      else
        try_catch
          (decoded <- jwt_verify auth token ;;
           if dbConnected auth then
             found <- User_findById auth (userId decoded) ;;
             match found with
             | Some id => Ok (Next id)
             | None =>
                 staff <- Staff_findById auth (userId decoded) ;;
                 match staff with
                 | Some doc => Ok (Next (sd_id doc))
                 | None => Ok (Respond 401 "Invalid token")
                 end
             end
           else Ok (Next (userId decoded)))
          (fun _ => Respond 403 "Invalid token")
  end.

(** [staff.username || staff.email.split('@')[0]], lower-cased. *)
Definition username_of (staff : StaffDoc) : string :=
  toLowerCase (if nonempty (sd_username staff) then sd_username staff
               else before_at (sd_email staff)).

(** [ensureSelf] (staffPortal.js, lines 141-154): [user] is the [_id] of
    [req.user] and [username] the route parameter; the result is
    [req._staffDoc] and [req._username]. *)
Definition ensureSelf (auth : Auth) (user : JsVal) (username : string)
    : Step (StaffDoc * string) :=
  let usernameParam := toLowerCase username in
  try_catch
    (found <- Staff_findById auth (Js.or user JUndef) ;;
     match found with
     | None => Ok (Respond 404 "Staff not found")
     | Some staff =>
         if negb (String.eqb (username_of staff) usernameParam)
         then Ok (Respond 403 "Forbidden")
         else Ok (Next (staff, usernameParam))
     end)
    (fun _ => Respond 500 "Auth check failed").

(** The two guards in front of every [/:username/...] route. *)
Definition guarded (auth : Auth) (authorization : option string)
    (username : string) : Step (StaffDoc * string) :=
  match authenticateToken auth authorization with
  | Respond status error => Respond status error
  | Next user => ensureSelf auth user username
  end.





Definition allowedDepartments : list string :=
  ["Computer Science"; "Mechanical"; "Civil"; "ECE"; "ISE"; "Administration";
   "Support"].

(** [normalizedDept] of the login route (lines 31-32), for the department
    of a profile. *)
Definition normalizedDept (department : string) : string :=
  if includes (toLowerCase department) "computer" then "Computer Science"
  else if existsb (String.eqb department) allowedDepartments then department
       else "Administration".

End Portal.

(** The session [entry] has [socket] on its staff side. *)
Definition ends_on (socket : SocketId) (entry : string * StaffOnly.Session) : bool :=
  String.eqb (StaffOnly.staffSocketId (snd entry)) socket.

(** ** Further examples *)

Module Examples.
Import Scenario.

Definition nn_login : JsVal :=
  obj [("email", "nagashree@college.edu"); ("password", "pw-nn")].

(** The socket [s] logs in as [ACS] and then as [NN], and disconnects:
    the session of [ACS] still points to [s], which has no user record
    any more. *)
Definition stale_session : State :=
  outcome_state
    (on_disconnect profiles
       (fst (on_staff_login profiles no_db acs_online "s" 1500 nn_login))
       "s" 2000).

(** [NN] logs in again on socket [x]. *)
Definition nn_on_x : State :=
  fst (on_staff_login profiles no_db stale_session "x" 3000 nn_login).

(** The bystander [x] logs in as [NN] while [call1] is running. *)
Definition call1_with_nn : State :=
  fst (on_staff_login profiles no_db call1_active "x" 3500 nn_login).

(** Two REST call requests are queued for [ACS]; then a socket asks to
    restore the session of [ACS], spelling the e-mail in other letter
    case. *)
Definition queued_for_acs : State := submit_all profiles connected rest_requests.

Definition restore_acs : JsVal :=
  JObj [("staff", obj [("email", "Anitha@College.edu")])].

(** The client [a] starts a conversation with [ACS], who is online; no
    database is connected. *)
Definition start_clock : StartClock := mkStartClock 2000 2001 2002 2003.

Definition start_with_acs : JsVal :=
  obj [("selectedStaffId", "ACS"); ("purpose", "Project review")].

Definition no_db_branch (st : State) (demo : DemoStore) (socket : SocketId)
    (data : JsVal) : State * DemoStore * list Emit := (st, demo, []).

(** On the staff-only server the socket [s] accepts two calls and the
    socket [t] one. *)
Definition so_accept (st : StaffOnly.State) (socket : SocketId) (callId : string)
    (now : Z) : StaffOnly.State :=
  match StaffOnly.on_call_accepted st socket callId now
          (obj [("requestId", "r"); ("staffEmail", "anitha@college.edu");
                ("staffName", "Prof. Anitha C S")]) with
  | Ok (st', _) => st'
  | Throw _ => st
  end.

Definition so_three_calls : StaffOnly.State :=
  so_accept
    (so_accept (so_accept (StaffOnly.mkState [] ∅ []) "s" "c1" 100) "t" "c2" 200)
    "s" "c3" 300.

(** A portal whose only valid token belongs to the staff document of
    [Anitha@college.edu], which has no username of its own. *)
Definition acs_doc : Portal.StaffDoc :=
  Portal.mkStaffDoc (JStr "id-acs") "" "Anitha@college.edu".

Definition portal_auth : Portal.Auth :=
  Portal.mkAuth
    (fun token =>
       if String.eqb token "tok-acs"
       then Ok (Portal.mkDecoded (JStr "id-acs") (JStr "staff"))
       else Throw "jwt malformed")
    true
    (fun _ => Ok None)
    (fun id => if str_eq "id-acs" id then Ok (Some acs_doc) else Ok None).

End Examples.

(** * Properties *)

Import Scenario.

(** ** Facts about the building blocks *)


Lemma same_value_zero_str (k : string) (v : JsVal) :
  same_value_zero (JStr k) v = true <-> v = JStr k.
Proof.
  destruct v; simpl; try (split; intros; discriminate).
  rewrite String.eqb_eq. split; [intros ->; reflexivity | intros [= ->]; reflexivity].
Qed.

Section OMapFacts.
Context {K V : Type} (eqb : K -> K -> bool).

Lemma get_delete_same (k : K) (m : list (K * V)) :
  OMap.get eqb k (OMap.delete eqb k m) = None.
Proof.
  induction m as [|[k' v'] r IH]; simpl; [reflexivity|].
  destruct (eqb k k') eqn:E; simpl; [exact IH|].
  rewrite E. exact IH.
Qed.

Lemma delete_length (k : K) (m : list (K * V)) :
  (length (OMap.delete eqb k m) <= length m)%nat.
Proof.
  induction m as [|[k' v'] r IH]; simpl; [lia|].
  destruct (eqb k k'); simpl; lia.
Qed.

End OMapFacts.

Lemma activeCalls_get_set_same (k : string) (v : CallSession) (st : State) :
  activeCalls_get (JStr k) (activeCalls_set (JStr k) v st) = Some v.
Proof.
  unfold activeCalls_get, activeCalls_set. simpl.
  assert (Hrefl : same_value_zero (JStr k) (JStr k) = true)
    by (apply same_value_zero_str; reflexivity).
  induction (activeCalls st) as [|[k' v'] r IH]; cbn [OMap.set OMap.get].
  - rewrite Hrefl. reflexivity.
  - destruct (same_value_zero (JStr k) k') eqn:E; cbn [OMap.get].
    + rewrite Hrefl. reflexivity.
    + rewrite E. exact IH.
Qed.

Lemma activeCalls_get_set_other (k : string) (k2 : JsVal) (v : CallSession) (st : State) :
  same_value_zero k2 (JStr k) = false ->
  activeCalls_get k2 (activeCalls_set (JStr k) v st) = activeCalls_get k2 st.
Proof.
  intros Hne. unfold activeCalls_get, activeCalls_set. simpl.
  induction (activeCalls st) as [|[k' v'] r IH]; cbn [OMap.set OMap.get].
  - rewrite Hne. reflexivity.
  - destruct (same_value_zero (JStr k) k') eqn:E; cbn [OMap.get].
    + apply same_value_zero_str in E. subst k'. rewrite Hne. reflexivity.
    + destruct (same_value_zero k2 k'); [reflexivity | exact IH].
Qed.

Lemma activeCalls_get_delete_same (k : JsVal) (st : State) :
  activeCalls_get k (activeCalls_delete k st) = None.
Proof. unfold activeCalls_get, activeCalls_delete. simpl. apply get_delete_same. Qed.

(** ** Signaling relay *)








(** ** Room-scoped signaling *)




(** ** Disconnect cleanup *)

(** The loop of the disconnect handler ends at most one session and
    notifies at most one peer, however many sessions the socket has. *)
Lemma cleanup_active_calls_at_most_one socket entries st :
  (length (snd (cleanup_active_calls socket entries st)) <= 1)%nat
  /\ (fst (cleanup_active_calls socket entries st) = st
      \/ exists callId,
           fst (cleanup_active_calls socket entries st)
           = activeCalls_delete callId st).
Proof.
  induction entries as [|[callId cs] rest IH]; simpl.
  - split; [lia | left; reflexivity].
  - destruct (str_eq socket (clientSocketId cs) || str_eq socket (staffSocketId cs)).
    + simpl. split.
      * destruct (truthy _); simpl; lia.
      * right. eexists. reflexivity.
    + exact IH.
Qed.

(** C1 (failing input): the staff socket [s] is the staff side of the two
    active sessions [call1] (with [a]) and [call2] (with [b]) and
    disconnects.  The handler ends [call1] and tells [a]; [call2] stays in
    [activeCalls], still bound to the vanished socket, and [b] is told
    nothing. *)
Theorem C1_disconnect_ends_first_session_only :
  map fst (bound_sessions "s" two_calls) = [JStr "call1"; JStr "call2"]
  /\ exists st' out,
       on_disconnect profiles two_calls "s" 6000 = Returned st' out
       /\ map fst (bound_sessions "s" st') = [JStr "call2"]
       /\ with_event "call-ended" out
          = [mkEmit (Room (JStr "a")) "call-ended"
               (obj [("callId", "call1");
                     ("reason", "Other participant disconnected");
                     ("endedBy", "System")])]
       /\ addressed_to "b" out = [].
Proof.
  split; [reflexivity|].
  eexists. eexists. split; [vm_compute; reflexivity|].
  split; [reflexivity|]. split; reflexivity.
Qed.

(** ** Creating a session *)


Lemma activeCalls_get_remove_pending k staffId requestId st :
  activeCalls_get k (remove_pending staffId requestId st) = activeCalls_get k st.
Proof. unfold remove_pending. destruct staffId; reflexivity. Qed.

Lemma on_call_accepted_creates st socket callId now data pending :
  lookup_js (field "requestId" data) (incomingCallRequests st) = Some pending ->
  creates_session st (fst (on_call_accepted st socket callId now data))
    (snd (on_call_accepted st socket callId now data))
    callId (JStr (ir_clientSocketId pending)) (JStr socket).
Proof.
  intros H. unfold on_call_accepted. rewrite H. cbn [fst snd].
  split; [|split].
  - exists (mkCallSession (JStr callId) (JStr (ir_clientSocketId pending))
              (JStr socket) (Some now) "in-progress" JUndef JUndef None).
    split; [|split; reflexivity].
    change (activeCalls_get (JStr callId)
              (activeCalls_set (JStr callId)
                 (mkCallSession (JStr callId) (JStr (ir_clientSocketId pending))
                    (JStr socket) (Some now) "in-progress" JUndef JUndef None) st)
            = Some (mkCallSession (JStr callId) (JStr (ir_clientSocketId pending))
                      (JStr socket) (Some now) "in-progress" JUndef JUndef None)).
    apply activeCalls_get_set_same.
  - intros k Hk.
    change (activeCalls_get k
              (activeCalls_set (JStr callId)
                 (mkCallSession (JStr callId) (JStr (ir_clientSocketId pending))
                    (JStr socket) (Some now) "in-progress" JUndef JUndef None) st)
            = activeCalls_get k st).
    apply activeCalls_get_set_other. exact Hk.
  - destruct (truthy (field "staffEmail" data)); simpl;
      repeat constructor; simpl; discriminate.
Qed.

Lemma on_video_call_response_creates env st socket callId now data request :
  lookup_js (field "requestId" data) (videoCallRequests st) = Some request ->
  truthy (field "accepted" data) = true ->
  creates_session st (fst (on_video_call_response env st socket callId now data))
    (snd (on_video_call_response env st socket callId now data))
    callId (vr_clientSocketId request) (JStr socket).
Proof.
  intros H Ha. unfold on_video_call_response. rewrite H, Ha. cbn [fst snd].
  split; [|split].
  - exists (mkCallSession (JStr callId) (vr_clientSocketId request)
              (JStr socket) (Some now) "connecting" (field "requestId" data)
              JUndef None).
    split; [|split; reflexivity].
    rewrite activeCalls_get_remove_pending.
    apply activeCalls_get_set_same.
  - intros k Hk. rewrite activeCalls_get_remove_pending.
    rewrite activeCalls_get_set_other by exact Hk. reflexivity.
  - repeat constructor; simpl; discriminate.
Qed.

Lemma accept_call_tail_creates st socket staffUser k client selectedCall now :
  nonempty client = true ->
  creates_session st
    (fst (accept_call_tail st socket staffUser (JStr k) (Some client)
            selectedCall now))
    (snd (accept_call_tail st socket staffUser (JStr k) (Some client)
            selectedCall now))
    k (JStr client) (JStr socket).
Proof.
  intros Hc. unfold accept_call_tail. rewrite Hc. cbn [negb fst snd].
  split; [|split].
  - exists (mkCallSession (JStr k) (JStr client) (JStr socket) (Some now)
              "in-progress" JUndef JUndef None).
    split; [|split; reflexivity].
    change (activeCalls_get (JStr k)
              (activeCalls_set (JStr k)
                 (mkCallSession (JStr k) (JStr client) (JStr socket) (Some now)
                    "in-progress" JUndef JUndef None) st)
            = Some (mkCallSession (JStr k) (JStr client) (JStr socket) (Some now)
                      "in-progress" JUndef JUndef None)).
    apply activeCalls_get_set_same.
  - intros k2 Hk.
    change (activeCalls_get k2
              (activeCalls_set (JStr k)
                 (mkCallSession (JStr k) (JStr client) (JStr socket) (Some now)
                    "in-progress" JUndef JUndef None) st)
            = activeCalls_get k2 st).
    apply activeCalls_get_set_other. exact Hk.
  - repeat constructor; simpl; discriminate.
Qed.

(** C3 (amended): creating a session never fails with a conflict.
    Whenever the answered request exists, [call-accepted], an accepting
    [video-call-response] and the session-creating part of [accept-call]
    store the new session under its id, keep every session that is
    already active (also those of the same client or staff connection) and
    report no error. *)
Theorem C3_create_never_conflicts :
  (forall st socket callId now data pending,
      lookup_js (field "requestId" data) (incomingCallRequests st) = Some pending ->
      creates_session st (fst (on_call_accepted st socket callId now data))
        (snd (on_call_accepted st socket callId now data))
        callId (JStr (ir_clientSocketId pending)) (JStr socket))
  /\ (forall env st socket callId now data request,
         lookup_js (field "requestId" data) (videoCallRequests st) = Some request ->
         truthy (field "accepted" data) = true ->
         creates_session st
           (fst (on_video_call_response env st socket callId now data))
           (snd (on_video_call_response env st socket callId now data))
           callId (vr_clientSocketId request) (JStr socket))
  /\ (forall st socket staffUser k client selectedCall now,
         nonempty client = true ->
         creates_session st
           (fst (accept_call_tail st socket staffUser (JStr k) (Some client)
                   selectedCall now))
           (snd (accept_call_tail st socket staffUser (JStr k) (Some client)
                   selectedCall now))
           k (JStr client) (JStr socket)).
Proof.
  split; [|split].
  - intros. apply on_call_accepted_creates. assumption.
  - intros. apply on_video_call_response_creates; assumption.
  - intros. apply accept_call_tail_creates. assumption.
Qed.

(** C3 (witness): the second request of [a] is accepted while [call1] is
    running. *)
Lemma C3_create_never_conflicts_witness :
  exists pending,
    lookup_js (field "requestId" accept_req3) (incomingCallRequests call1_and_request)
      = Some pending
    /\ creates_session call1_and_request
         (fst (on_call_accepted call1_and_request "s" "call3" 5000 accept_req3))
         (snd (on_call_accepted call1_and_request "s" "call3" 5000 accept_req3))
         "call3" (JStr (ir_clientSocketId pending)) (JStr "s").
Proof.
  eexists. split; [vm_compute; reflexivity|].
  apply (proj1 C3_create_never_conflicts). vm_compute. reflexivity.
Defined.

(** C3 (counterexample): [a] and [s] are bound to the active session
    [call1]; accepting a second request of [a] reports no conflict and
    inserts [call3], after which the client connection [a] is bound to two
    active sessions. *)
Lemma C3_bound_client_gets_second_session :
  let result := on_call_accepted call1_and_request "s" "call3" 5000 accept_req3 in
  map fst (bound_sessions "a" call1_and_request) = [JStr "call1"]
  /\ map fst (bound_sessions "s" call1_and_request) = [JStr "call1"]
  /\ map event (snd result) = ["call-accepted"; "call-started"; "staff_status_update"]%string
  /\ map fst (bound_sessions "a" (fst result)) = [JStr "call1"; JStr "call3"].
Proof. repeat split; reflexivity. Qed.

(** ** Answering a request *)

(** After [call-accepted] has run for a request id, the request is gone:
    a further accept or reject for the same id changes nothing and emits
    nothing.  The same holds after [call-rejected]. *)
Lemma call_response_is_final st socket callId now data r :
  field "requestId" data = JStr r ->
  forall st1,
    st1 = fst (on_call_accepted st socket callId now data)
    \/ st1 = fst (on_call_rejected st socket data) ->
    forall socket2 callId2 now2 data2,
      field "requestId" data2 = JStr r ->
      on_call_accepted st1 socket2 callId2 now2 data2 = (st1, [])
      /\ on_call_rejected st1 socket2 data2 = (st1, []).
Proof.
  intros Hr st1 Hst1 socket2 callId2 now2 data2 Hr2.
  assert (Hgone : lookup_js (JStr r) (incomingCallRequests st1) = None).
  { destruct Hst1 as [-> | ->].
    - unfold on_call_accepted. rewrite Hr.
      destruct (lookup_js (JStr r) (incomingCallRequests st)) eqn:E; cbn [fst].
      + simpl. apply lookup_delete_eq.
      + exact E.
    - unfold on_call_rejected. rewrite Hr.
      destruct (lookup_js (JStr r) (incomingCallRequests st)) eqn:E; cbn [fst].
      + simpl. apply lookup_delete_eq.
      + exact E. }
  unfold on_call_accepted, on_call_rejected. rewrite Hr2, Hgone.
  split; reflexivity.
Qed.

(** C4 (failing input): the staff socket [s] accepts the video-call
    request [vcr1] of [a], which takes the request to status [accepted],
    and then sends the same acceptance again.  The second response
    creates a second session and notifies both parties once more. *)
Theorem C4_second_video_response_is_not_a_noop :
  let second := on_video_call_response no_db video_accepted "s" "vcall2" 3500 accept_vcr1 in
  vr_status <$> (videoCallRequests video_accepted !! "vcr1") = Some "accepted"%string
  /\ map fst (activeCalls video_accepted) = [JStr "vcall1"]
  /\ map fst (activeCalls (fst second)) = [JStr "vcall1"; JStr "vcall2"]
  /\ map (fun e => (target e, event e)) (snd second)
     = [(Room (JStr "a"), "video-call-accepted"%string);
        (Sock "s", "video-call-accepted-staff"%string);
        (Room (JStr "a"), "call-started"%string);
        (Sock "s", "call-started"%string)].
Proof. repeat split; vm_compute; reflexivity. Qed.

(** ** Ending a call *)

(** The four ways [end-call] can go, by its guards. *)
Lemma on_end_call_cases env st socket clock data :
  let callId := field "callId" data in
  let result := on_end_call env st socket clock data in
  (exists text, result = (st, [call_error socket text], []))
  \/ (exists user callSession text out,
        connectedUsers st !! socket = Some user
        /\ activeCalls_get callId st = Some callSession
        /\ is_participant socket callSession = true
        /\ claraAI_resetDemoMode env = Throw text
        /\ result = (st, out ++ [call_error socket ("Failed to end call: " +:+ text)], []))
  \/ (exists user callSession out writes,
        connectedUsers st !! socket = Some user
        /\ activeCalls_get callId st = Some callSession
        /\ is_participant socket callSession = true
        /\ claraAI_resetDemoMode env = Ok tt
        /\ result = (activeCalls_delete callId st, out, writes)
        /\ with_event "call-ended" out
           = [mkEmit (Room (peer socket callSession)) "call-ended"
                (JObj [("callId", callId);
                       ("reason",
                        Js.or (field "reason" data)
                          (JStr "Call ended by other participant"));
                       ("endedBy", JStr (u_name user))]);
              mkEmit (Sock socket) "call-ended"
                (JObj [("callId", callId);
                       ("reason", Js.or (field "reason" data) (JStr "Call ended"));
                       ("endedBy", JStr (u_name user))])]
        /\ with_event "call-error" out = []
        /\ writes = try_catch
                      (persist_call_log env st callSession callId
                         (field "reason" data)
                         (session_duration callSession (t_duration clock)) clock)
                      (fun _ => [])
                    ++ persist_call_status env callId clock).
Proof.
  intros callId result. subst result. unfold on_end_call. fold callId.
  destruct (connectedUsers st !! socket) as [user|] eqn:Hu;
    [|left; eexists; reflexivity].
  destruct (activeCalls_get callId st) as [cs|] eqn:Hc;
    [|left; eexists; reflexivity].
  destruct (is_participant socket cs) eqn:Hp.
  - unfold is_participant in Hp.
    replace (negb (str_eq socket (clientSocketId cs))
             && negb (str_eq socket (staffSocketId cs))) with false
      by (rewrite <- negb_orb, Hp; reflexivity).
    destruct (claraAI_resetDemoMode env) as [[]|text] eqn:Hr.
    + right. right. exists user, cs. eexists. eexists.
      repeat (split; [first [eassumption | reflexivity]|]).
      reflexivity.
    + right. left. exists user, cs, text. eexists.
      repeat (split; [first [eassumption | reflexivity]|]).
      reflexivity.
  - unfold is_participant in Hp.
    replace (negb (str_eq socket (clientSocketId cs))
             && negb (str_eq socket (staffSocketId cs))) with true
      by (rewrite <- negb_orb, Hp; reflexivity).
    left. eexists. reflexivity.
Qed.

Lemma with_event_app ev out1 out2 :
  with_event ev (out1 ++ out2) = with_event ev out1 ++ with_event ev out2.
Proof. unfold with_event. apply List.filter_app. Qed.

(** C5 (amended): once an [end-call] has completed a session (it raised no
    [call-error]), a further [end-call] for the same [callId], from any
    socket and whatever the database does, changes no registry, forwards
    and persists nothing, and answers the caller with exactly one
    [call-error] event. *)
Theorem C5_second_end_call_reports_error :
  forall env st socket clock data env2 socket2 clock2,
    with_event "call-error" (snd (fst (on_end_call env st socket clock data))) = [] ->
    let st1 := fst (fst (on_end_call env st socket clock data)) in
    activeCalls_get (field "callId" data) st1 = None
    /\ exists text,
         on_end_call env2 st1 socket2 clock2 data
         = (st1, [call_error socket2 text], []).
Proof.
  intros env st socket clock data env2 socket2 clock2 Hfirst st1.
  assert (Hgone : activeCalls_get (field "callId" data) st1 = None).
  { subst st1.
    destruct (on_end_call_cases env st socket clock data)
      as [[text E] | [(user & cs & text & out & _ & _ & _ & _ & E)
                     | (user & cs & out & writes & _ & _ & _ & _ & E & _)]];
      rewrite E in Hfirst |- *; cbn [fst snd] in *.
    - discriminate Hfirst.
    - rewrite with_event_app in Hfirst.
      apply app_eq_nil in Hfirst as [_ Hfirst]. discriminate Hfirst.
    - apply activeCalls_get_delete_same. }
  split; [exact Hgone|].
  unfold on_end_call. rewrite Hgone.
  destruct (connectedUsers st1 !! socket2); eexists; reflexivity.
Qed.

(** C5 (witness): the staff member ends [call1] and sends the same
    [end-call] again. *)
Lemma C5_second_end_call_reports_error_witness :
  with_event "call-error"
    (snd (fst (on_end_call no_db call1_active "s" end_clock end_call1))) = []
  /\ activeCalls_get (field "callId" end_call1) call1_ended = None
  /\ exists text,
       on_end_call db_failing call1_ended "s" end_clock end_call1
       = (call1_ended, [call_error "s" text], []).
Proof.
  split; [reflexivity|].
  exact (C5_second_end_call_reports_error no_db call1_active "s" end_clock
           end_call1 db_failing "s" end_clock eq_refl).
Defined.

(** C5 (counterexample): the second [end-call] for [call1] is not silent:
    the caller receives a [call-error] event. *)
Lemma C5_second_end_call_emits_call_error :
  map fst (activeCalls call1_active) = [JStr "call1"]
  /\ activeCalls call1_ended = []
  /\ on_end_call no_db call1_ended "s" end_clock end_call1
     = (call1_ended,
        [mkEmit (Sock "s") "call-error" (message "Call session not found")],
        []).
Proof. repeat split; vm_compute; reflexivity. Qed.

(** A session that [call_ended] has marked completed is still in
    [activeCalls]; an [end-call] for it runs in full. *)
Example end_call_after_call_ended :
  let marked :=
    fst (on_call_ended_session call1_active "s" 4000
           (JObj [("callId", JStr "call1"); ("duration", JNum 1)])) in
  cs_status <$> activeCalls_get (JStr "call1") marked = Some "completed"%string
  /\ map event (snd (fst (on_end_call no_db marked "s" end_clock end_call1)))
     = ["call-ended"; "call-ended"; "call-completed-qr"; "clara-ai-reset"]%string
  /\ activeCalls (fst (fst (on_end_call no_db marked "s" end_clock end_call1))) = [].
Proof. repeat split; vm_compute; reflexivity. Qed.

(** ** Persistence at the end of a call *)

(** C9: the registries and the emissions that [end-call] produces do not
    depend on the database at all: connected or not, every write
    succeeding or failing.  When the caller is a participant of the
    session (and the AI service call returns), the session is removed from
    [activeCalls], exactly one [call-ended] goes to the other participant
    and one to the caller, and no [call-error] is emitted. *)
Theorem C9_end_call_independent_of_persistence :
  forall env1 env2 st socket clock data,
    claraAI_resetDemoMode env1 = claraAI_resetDemoMode env2 ->
    fst (on_end_call env1 st socket clock data)
    = fst (on_end_call env2 st socket clock data)
    /\ (forall user callSession,
          connectedUsers st !! socket = Some user ->
          activeCalls_get (field "callId" data) st = Some callSession ->
          is_participant socket callSession = true ->
          claraAI_resetDemoMode env1 = Ok tt ->
          let st' := fst (fst (on_end_call env1 st socket clock data)) in
          let out := snd (fst (on_end_call env1 st socket clock data)) in
          activeCalls_get (field "callId" data) st' = None
          /\ st' = activeCalls_delete (field "callId" data) st
          /\ with_event "call-ended" out
             = [mkEmit (Room (peer socket callSession)) "call-ended"
                  (JObj [("callId", field "callId" data);
                         ("reason",
                          Js.or (field "reason" data)
                            (JStr "Call ended by other participant"));
                         ("endedBy", JStr (u_name user))]);
                mkEmit (Sock socket) "call-ended"
                  (JObj [("callId", field "callId" data);
                         ("reason",
                          Js.or (field "reason" data) (JStr "Call ended"));
                         ("endedBy", JStr (u_name user))])]
          /\ with_event "call-error" out = []).
Proof.
  intros env1 env2 st socket clock data Hreset. split.
  - unfold on_end_call. rewrite Hreset.
    destruct (connectedUsers st !! socket); [|reflexivity].
    destruct (activeCalls_get (field "callId" data) st); [|reflexivity].
    destruct (negb _ && negb _); [reflexivity|].
    destruct (claraAI_resetDemoMode env2); reflexivity.
  - intros user cs Hu Hc Hp Hr st' out. subst st' out.
    destruct (on_end_call_cases env1 st socket clock data)
      as [[text E] | [(user' & cs' & text & out & _ & _ & _ & Hr' & E)
                     | (user' & cs' & out & writes & Hu' & Hc' & _ & _ & E & Hended & Herr & _)]].
    + exfalso. unfold on_end_call in E. rewrite Hu, Hc in E.
      unfold is_participant in Hp.
      replace (negb (str_eq socket (clientSocketId cs))
               && negb (str_eq socket (staffSocketId cs))) with false in E
        by (rewrite <- negb_orb, Hp; reflexivity).
      rewrite Hr in E. discriminate E.
    + congruence.
    + rewrite E. cbn [fst snd].
      assert (user' = user) by congruence. assert (cs' = cs) by congruence.
      subst user' cs'.
      split; [apply activeCalls_get_delete_same|].
      split; [reflexivity|]. split; assumption.
Qed.

(** C9 (witness): the staff member ends [call1] once with a database on
    which every operation fails and once without a database. *)
Lemma C9_end_call_independent_of_persistence_witness :
  claraAI_resetDemoMode db_failing = claraAI_resetDemoMode no_db
  /\ fst (on_end_call db_failing call1_active "s" end_clock end_call1)
     = fst (on_end_call no_db call1_active "s" end_clock end_call1)
  /\ activeCalls_get (JStr "call1")
       (fst (fst (on_end_call db_failing call1_active "s" end_clock end_call1)))
     = None
  /\ with_event "call-error"
       (snd (fst (on_end_call db_failing call1_active "s" end_clock end_call1)))
     = [].
Proof.
  split; [reflexivity|].
  destruct (C9_end_call_independent_of_persistence db_failing no_db call1_active
              "s" end_clock end_call1 eq_refl) as [Hsame Hok].
  split; [exact Hsame|].
  destruct (Hok (mkUser "ACS" "Prof. Anitha C S" "staff" "CSE"
                   (Some "anitha@college.edu"))
              (mkCallSession (JStr "call1") (JStr "a") (JStr "s") (Some 3000)
                 "in-progress" JUndef JUndef None)
              eq_refl eq_refl eq_refl eq_refl) as (Hgone & _ & _ & Herr).
  split; [exact Hgone | exact Herr].
Defined.

(** ** Duration accounting *)








(** The [call_ended] event marks a session completed with whatever
    duration its payload carries. *)
Example call_ended_stores_payload_duration :
  let st := fst (on_call_ended_session call1_active "s" 4500
                   (JObj [("callId", JStr "call1"); ("duration", JNum (-5))])) in
  (fun cs => (cs_status cs, startTime cs, cs_endTime cs, cs_duration cs))
    <$> activeCalls_get (JStr "call1") st
  = Some ("completed"%string, Some 3000, Some 4500, JNum (-5)).
Proof. reflexivity. Qed.

(** ** Derived status *)



(** ** Queued call requests *)











(** * Further properties *)

Import Examples.

(** ** Presence registry *)

Section StringMapFacts.
Context {V : Type}.

Lemma smap_get_set_same (k : string) (v : V) (m : list (string * V)) :
  OMap.get String.eqb k (OMap.set String.eqb k v m) = Some v.
Proof.
  induction m as [|[k' v'] r IH]; cbn [OMap.set OMap.get].
  - rewrite String.eqb_refl. reflexivity.
  - destruct (String.eqb k k') eqn:E; cbn [OMap.get].
    + rewrite String.eqb_refl. reflexivity.
    + rewrite E. exact IH.
Qed.

Lemma smap_get_set_other (k k2 : string) (v : V) (m : list (string * V)) :
  k2 <> k ->
  OMap.get String.eqb k2 (OMap.set String.eqb k v m) = OMap.get String.eqb k2 m.
Proof.
  intros Hne. apply String.eqb_neq in Hne.
  induction m as [|[k' v'] r IH]; cbn [OMap.set OMap.get].
  - rewrite Hne. reflexivity.
  - destruct (String.eqb k k') eqn:E; cbn [OMap.get].
    + apply String.eqb_eq in E. subst k'. rewrite Hne. reflexivity.
    + destruct (String.eqb k2 k'); [reflexivity | exact IH].
Qed.

Lemma smap_get_delete_other (k k2 : string) (m : list (string * V)) :
  k2 <> k ->
  OMap.get String.eqb k2 (OMap.delete String.eqb k m) = OMap.get String.eqb k2 m.
Proof.
  intros Hne.
  induction m as [|[k' v'] r IH]; cbn [OMap.delete OMap.get]; [reflexivity|].
  destruct (String.eqb k k') eqn:E; cbn [OMap.get].
  - apply String.eqb_eq in E. subst k'.
    apply String.eqb_neq in Hne. rewrite Hne. exact IH.
  - destruct (String.eqb k2 k'); [reflexivity | exact IH].
Qed.

Lemma smap_get_delete_none (k k2 : string) (m : list (string * V)) :
  OMap.get String.eqb k2 m = None ->
  OMap.get String.eqb k2 (OMap.delete String.eqb k m) = None.
Proof.
  intros H. destruct (String.eqb_spec k2 k) as [->|Hne].
  - apply get_delete_same.
  - rewrite smap_get_delete_other by exact Hne. exact H.
Qed.

Lemma smap_in_delete (k : string) (e : string * V) (m : list (string * V)) :
  In e m -> fst e <> k -> In e (OMap.delete String.eqb k m).
Proof.
  intros Hin Hne. induction m as [|[k' v'] r IH]; [contradiction|].
  cbn [OMap.delete]. destruct Hin as [<-|Hin].
  - cbn [fst] in Hne. apply not_eq_sym in Hne.
    apply String.eqb_neq in Hne. rewrite Hne. left. reflexivity.
  - destruct (String.eqb k k'); [apply IH, Hin | right; apply IH, Hin].
Qed.

End StringMapFacts.

(** The registries that the delivery of queued calls leaves alone. *)
Lemma drain_staff_calls_frame socket user st :
  let st' := fst (drain_staff_calls socket user st) in
  connectedUsers st' = connectedUsers st
  /\ staffSessions st' = staffSessions st
  /\ staffEmailSessions st' = staffEmailSessions st
  /\ joined st' = joined st
  /\ activeCalls st' = activeCalls st.
Proof.
  unfold drain_staff_calls.
  destruct (0 <? length _)%nat; repeat split; reflexivity.
Qed.

Lemma register_staff_user_registers profiles socket user now st :
  let st' := fst (register_staff_user profiles socket user now st) in
  connectedUsers st' !! socket = Some user
  /\ staffSessions_get (u_id user) st' = Some socket
  /\ (forall profile,
        profile_of_user profiles user = Some profile ->
        nonempty (p_shortName profile) = true ->
        staffSessions_get (p_shortName profile) st' = Some socket)
  /\ (forall email,
        u_email user = Some email ->
        staffEmailSessions st' !! email = Some socket
        /\ socket ∈ default ∅ (joined st' !! email)).
Proof.
  unfold register_staff_user.
  assert (Hid : forall st0,
             connectedUsers st0 !! socket = Some user ->
             staffSessions_get (u_id user) st0 = Some socket ->
             let st3 :=
               match profile_of_user profiles user with
               | Some profile =>
                   if nonempty (p_shortName profile)
                   then staffSessions_set (p_shortName profile) socket st0
                   else st0
               | None => st0
               end in
             connectedUsers st3 !! socket = Some user
             /\ staffSessions_get (u_id user) st3 = Some socket
             /\ (forall profile,
                   profile_of_user profiles user = Some profile ->
                   nonempty (p_shortName profile) = true ->
                   staffSessions_get (p_shortName profile) st3 = Some socket)).
  { intros st0 Hu Hs. cbv zeta.
    destruct (profile_of_user profiles user) as [p|].
    - destruct (nonempty (p_shortName p)) eqn:Hn.
      + split; [exact Hu|]. split.
        * unfold staffSessions_get, staffSessions_set. cbn.
          destruct (String.eqb_spec (u_id user) (p_shortName p)) as [->|Hne].
          -- apply smap_get_set_same.
          -- rewrite smap_get_set_other by exact Hne. exact Hs.
        * intros profile [= <-] _. unfold staffSessions_get, staffSessions_set.
          cbn. apply smap_get_set_same.
      + split; [exact Hu|]. split; [exact Hs|].
        intros profile [= <-] Hn'. congruence.
    - split; [exact Hu|]. split; [exact Hs|]. intros profile [=]. }
  specialize (Hid (staffSessions_set (u_id user) socket
                     (upd_connectedUsers (fun m => <[socket:=user]> m) st))).
  destruct Hid as (Hu & Hs & Hp).
  { cbn. apply lookup_insert_eq. }
  { unfold staffSessions_get, staffSessions_set. cbn. apply smap_get_set_same. }
  cbv zeta.
  destruct (u_email user) as [email|]; cbn [fst].
  - split; [exact Hu|]. split; [exact Hs|]. split; [exact Hp|].
    intros email' [= <-]. cbn. rewrite !lookup_insert_eq. cbn.
    split; [reflexivity | set_solver].
  - split; [exact Hu|]. split; [exact Hs|]. split; [exact Hp|].
    intros email' [=].
Qed.

(** X1.  A login whose credentials resolve to a user binds the socket to
    that user under every key, whatever was bound before and even when a
    later step of the handler fails: the socket's user record, the session
    of the user id, the session of the profile's short name, and the
    e-mail session and room. *)
Theorem staff_login_registers_socket :
  forall profiles env st socket now data user,
    resolve_staff_user profiles env now (field "email" data) (field "password" data)
    = Ok (Some user) ->
    let st' := fst (on_staff_login profiles env st socket now data) in
    connectedUsers st' !! socket = Some user
    /\ staffSessions_get (u_id user) st' = Some socket
    /\ (forall profile,
          profile_of_user profiles user = Some profile ->
          nonempty (p_shortName profile) = true ->
          staffSessions_get (p_shortName profile) st' = Some socket)
    /\ (forall email,
          u_email user = Some email ->
          staffEmailSessions st' !! email = Some socket
          /\ socket ∈ default ∅ (joined st' !! email)).
Proof.
  intros profiles env st socket now data user Hres st'. subst st'.
  unfold on_staff_login. rewrite Hres. cbv zeta.
  pose proof (register_staff_user_registers profiles socket user now st) as Hreg.
  destruct (register_staff_user profiles socket user now st) as [st1 out1].
  cbn [fst] in Hreg.
  destruct (if isDbConnected env then Call_countWaiting env
            else Ok (Z.of_nat (length (waitingCalls st1)))) as [count|m];
    [|exact Hreg].
  pose proof (drain_staff_calls_frame socket user st1) as Hframe.
  destruct (drain_staff_calls socket user st1) as [st2 out4].
  cbn [fst] in Hframe. destruct Hframe as (Hcu & Hss & Hes & Hj & _).
  assert (Hst2 : connectedUsers st2 !! socket = Some user
                 /\ staffSessions_get (u_id user) st2 = Some socket
                 /\ (forall profile,
                       profile_of_user profiles user = Some profile ->
                       nonempty (p_shortName profile) = true ->
                       staffSessions_get (p_shortName profile) st2 = Some socket)
                 /\ (forall email,
                       u_email user = Some email ->
                       staffEmailSessions st2 !! email = Some socket
                       /\ socket ∈ default ∅ (joined st2 !! email))).
  { unfold staffSessions_get in *. rewrite Hcu, Hss, Hes, Hj. exact Hreg. }
  destruct (staff_list st2 (staffSessions st2)); exact Hst2.
Qed.

(** X1 (witness): [ACS] logs in on socket [x] although [s] already holds
    the session. *)
Lemma staff_login_registers_socket_witness :
  let st' := fst (on_staff_login profiles no_db acs_online "x" 2000 acs_login) in
  staffSessions_get "ACS" acs_online = Some "s"
  /\ staffSessions_get "ACS" st' = Some "x"
  /\ staffEmailSessions st' !! "anitha@college.edu" = Some "x".
Proof.
  intros st'. split; [reflexivity|].
  destruct (staff_login_registers_socket profiles no_db acs_online "x" 2000
              acs_login
              (mkUser "ACS" "Prof. Anitha C S" "staff" "CSE" (Some "anitha@college.edu"))
              eq_refl) as (_ & Hs & _ & He).
  split; [exact Hs | exact (proj1 (He _ eq_refl))].
Defined.



(** X3.  Without a database user, the e-mail of a profile (in any letter
    case) together with the password of the first profile carrying that
    e-mail logs in as the user whose id is that profile's short name. *)
Theorem staff_login_profile_identity :
  forall profiles env now email password p,
    (isDbConnected env = true ->
     User_findStaff env (toStr email) (toStr password) = Ok None) ->
    List.find (names_profile email) profiles = Some p ->
    str_eq (p_password p) password = true ->
    exists user,
      resolve_staff_user profiles env now email password = Ok (Some user)
      /\ u_id user = p_shortName p
      /\ u_name user = p_name p
      /\ u_role user = "staff"%string.
Proof.
  intros profiles env now email password p Hdb Hfind Hpw.
  unfold resolve_staff_user.
  assert (Hf : (if isDbConnected env
                then User_findStaff env (toStr email) (toStr password)
                else Ok None) = Ok None).
  { destruct (isDbConnected env); [apply Hdb; reflexivity | reflexivity]. }
  rewrite Hf. cbn [Res_bind]. unfold names_profile in Hfind.
  rewrite Hfind, Hpw. eexists. split; [reflexivity|]. repeat split.
Qed.

(** X3 (witness): the e-mail of [ACS] in capitals. *)
Lemma staff_login_profile_identity_witness :
  exists user,
    resolve_staff_user profiles no_db 1000 (JStr "ANITHA@College.edu")
      (JStr "pw-acs") = Ok (Some user)
    /\ u_id user = "ACS"%string.
Proof.
  destruct (staff_login_profile_identity profiles no_db 1000
              (JStr "ANITHA@College.edu") (JStr "pw-acs")
              (mkStaffProfile "Prof. Anitha C S" "anitha@college.edu" "ACS" "CSE"
                 "pw-acs"))
    as (user & Hres & Hid & _).
  - intros H. discriminate H.
  - reflexivity.
  - reflexivity.
  - exists user. split; [exact Hres | exact Hid].
Defined.

(** *** Disconnect *)

Lemma cleanup_waiting_call_frame socket st :
  let st' := fst (cleanup_waiting_call socket st) in
  connectedUsers st' = connectedUsers st
  /\ staffSessions st' = staffSessions st
  /\ staffEmailSessions st' = staffEmailSessions st
  /\ lastSeenByEmail st' = lastSeenByEmail st
  /\ activeCalls st' = activeCalls st
  /\ clientSessions st' = clientSessions st.
Proof.
  unfold cleanup_waiting_call.
  destruct (OMap.get String.eqb socket (waitingCalls st)); repeat split; reflexivity.
Qed.

Lemma cleanup_active_calls_frame socket entries st :
  let st' := fst (cleanup_active_calls socket entries st) in
  connectedUsers st' = connectedUsers st
  /\ staffSessions st' = staffSessions st
  /\ staffEmailSessions st' = staffEmailSessions st
  /\ lastSeenByEmail st' = lastSeenByEmail st
  /\ waitingCalls st' = waitingCalls st
  /\ clientSessions st' = clientSessions st.
Proof.
  induction entries as [|[callId cs] rest IH]; cbn [cleanup_active_calls].
  - repeat split; reflexivity.
  - destruct (str_eq socket (clientSocketId cs) || str_eq socket (staffSocketId cs)).
    + repeat split; reflexivity.
    + exact IH.
Qed.

Lemma unregister_staff_spec profiles socket user now st :
  let st' := fst (unregister_staff profiles socket user now st) in
  staffSessions_get (u_id user) st' = None
  /\ (forall profile,
        profile_of_user profiles user = Some profile ->
        nonempty (p_shortName profile) = true ->
        staffSessions_get (p_shortName profile) st' = None)
  /\ (forall email,
        u_email user = Some email ->
        staffEmailSessions st' !! email = None
        /\ lastSeenByEmail st' !! email = Some now
        /\ snd (unregister_staff profiles socket user now st)
           = [mkEmit All "staff_status_update"
                (JObj [("staffEmail", JStr email); ("status", JStr "offline");
                       ("lastSeen", JDate now); ("timestamp", JDate now)])])
  /\ connectedUsers st' = connectedUsers st
  /\ activeCalls st' = activeCalls st
  /\ waitingCalls st' = waitingCalls st
  /\ (forall e, In e (staffSessions st) -> fst e <> u_id user ->
                (forall profile, profile_of_user profiles user = Some profile ->
                                 fst e <> p_shortName profile) ->
                In e (staffSessions st')).
Proof.
  unfold unregister_staff. cbv zeta.
  set (st1 := staffSessions_delete (u_id user) st).
  set (st2 := match profile_of_user profiles user with
              | Some profile =>
                  if nonempty (p_shortName profile)
                  then staffSessions_delete (p_shortName profile) st1
                  else st1
              | None => st1
              end).
  assert (H2 : staffSessions_get (u_id user) st2 = None
               /\ (forall profile,
                     profile_of_user profiles user = Some profile ->
                     nonempty (p_shortName profile) = true ->
                     staffSessions_get (p_shortName profile) st2 = None)
               /\ connectedUsers st2 = connectedUsers st
               /\ activeCalls st2 = activeCalls st
               /\ waitingCalls st2 = waitingCalls st
               /\ staffEmailSessions st2 = staffEmailSessions st
               /\ staffRooms st2 = staffRooms st
               /\ (forall e, In e (staffSessions st) -> fst e <> u_id user ->
                     (forall profile, profile_of_user profiles user = Some profile ->
                                      fst e <> p_shortName profile) ->
                     In e (staffSessions st2))).
  { assert (H1 : staffSessions_get (u_id user) st1 = None)
      by (unfold st1, staffSessions_get, staffSessions_delete; cbn;
          apply get_delete_same).
    subst st2. destruct (profile_of_user profiles user) as [p|].
    - destruct (nonempty (p_shortName p)) eqn:Hn.
      + split.
        { unfold staffSessions_get, staffSessions_delete. cbn.
          apply smap_get_delete_none. exact H1. }
        split.
        { intros profile [= <-] _. unfold staffSessions_get, staffSessions_delete.
          cbn. apply get_delete_same. }
        repeat (split; [reflexivity|]).
        intros e Hin Hid Hp. cbn. apply smap_in_delete.
        * apply smap_in_delete; assumption.
        * apply (Hp p eq_refl).
      + split; [exact H1|]. split; [intros profile [= <-] Hn'; congruence|].
        repeat (split; [reflexivity|]).
        intros e Hin Hid _. cbn. apply smap_in_delete; assumption.
    - split; [exact H1|]. split; [intros profile [=]|].
      repeat (split; [reflexivity|]).
      intros e Hin Hid _. cbn. apply smap_in_delete; assumption. }
  destruct H2 as (Hid & Hshort & Hcu & Hac & Hwc & Hes & Hsr & Hkeep).
  destruct (u_email user) as [email|]; cbn [fst snd].
  - assert (Hroom : forall st4,
               st4 = match staffRooms (upd_staffEmailSessions (delete email) st2) !! email with
                     | Some room =>
                         if bool_decide (size (room ∖ {[socket]}) = 0%nat)
                         then upd_staffRooms (delete email)
                                (upd_staffEmailSessions (delete email) st2)
                         else upd_staffRooms (fun m => <[email := room ∖ {[socket]}]> m)
                                (upd_staffEmailSessions (delete email) st2)
                     | None => upd_staffEmailSessions (delete email) st2
                     end ->
               staffSessions st4 = staffSessions st2
               /\ staffEmailSessions st4 = delete email (staffEmailSessions st2)
               /\ connectedUsers st4 = connectedUsers st2
               /\ activeCalls st4 = activeCalls st2
               /\ waitingCalls st4 = waitingCalls st2
               /\ lastSeenByEmail st4 = lastSeenByEmail st2).
    { intros st4 ->.
      destruct (staffRooms (upd_staffEmailSessions (delete email) st2) !! email);
        [destruct (bool_decide _)|]; repeat split; reflexivity. }
    match goal with
    | |- context [upd_lastSeenByEmail _ ?X] => set (st4 := X) in *
    end.
    specialize (Hroom st4 eq_refl).
    destruct Hroom as (Hs4 & He4 & Hc4 & Ha4 & Hw4 & Hl4).
    unfold staffSessions_get in *. unfold upd_lastSeenByEmail.
    cbn [staffSessions staffEmailSessions connectedUsers activeCalls
         waitingCalls lastSeenByEmail].
    rewrite Hs4, He4, Hc4, Ha4, Hw4.
    split; [exact Hid|]. split; [exact Hshort|].
    split.
    { intros email' [= <-]. rewrite lookup_delete_eq, lookup_insert_eq.
      repeat split; reflexivity. }
    repeat (split; [assumption|]). exact Hkeep.
  - split; [exact Hid|]. split; [exact Hshort|].
    split; [intros email' [=]|].
    repeat (split; [assumption|]). exact Hkeep.
Qed.

Lemma staff_list_throws st entries key other :
  In (key, other) entries ->
  connectedUsers st !! other = None ->
  exists m, staff_list st entries = Throw m.
Proof.
  intros Hin Hnone. induction entries as [|[k s] rest IH]; [contradiction|].
  cbn [staff_list]. destruct Hin as [[= -> ->]|Hin].
  - rewrite Hnone. eexists. reflexivity.
  - destruct (connectedUsers st !! s); [|eexists; reflexivity].
    destruct (IH Hin) as [m ->]. eexists. reflexivity.
Qed.

(** When the disconnect handler of a staff socket returns, the session of
    its user id is gone. *)
Lemma on_disconnect_staff_session_gone :
  forall profiles st socket now user st' out,
    connectedUsers st !! socket = Some user ->
    u_role user = "staff"%string ->
    on_disconnect profiles st socket now = Returned st' out ->
    staffSessions_get (u_id user) st' = None.
Proof.
  intros profiles st socket now user st' out Hu Hrole Hret.
  unfold on_disconnect in Hret. cbv zeta in Hret.
  set (st0 := upd_joined _ (upd_sockets _ st)) in Hret.
  change (connectedUsers st0 !! socket) with (connectedUsers st !! socket) in Hret.
  rewrite Hu, Hrole in Hret. cbn [String.eqb Ascii.eqb Bool.eqb] in Hret.
  pose proof (unregister_staff_spec profiles socket user now st0) as Hspec.
  destruct (unregister_staff profiles socket user now st0) as [st1 out1].
  cbn [fst snd] in Hspec. destruct Hspec as (Hid & _).
  destruct (staff_list st1 (staffSessions st1)) as [items|m]; [|discriminate Hret].
  set (st2 := upd_connectedUsers (delete socket) st1) in Hret.
  pose proof (cleanup_waiting_call_frame socket st2) as Hw.
  destruct (cleanup_waiting_call socket st2) as [st3 out3]. cbn [fst] in Hw.
  pose proof (cleanup_active_calls_frame socket (activeCalls st3) st3) as Ha.
  destruct (cleanup_active_calls socket (activeCalls st3) st3) as [st4 out4].
  cbn [fst] in Ha. injection Hret as <- <-.
  destruct Hw as (_ & Hw2 & _). destruct Ha as (_ & Ha2 & _).
  unfold staffSessions_get in *. rewrite Ha2, Hw2. exact Hid.
Qed.

(** X4.  When the disconnect handler of a staff socket returns, the
    identity is unregistered under every key: the socket has no user
    record, the sessions of the user id and of the profile's short name
    are gone (whichever socket they pointed to), the e-mail session is
    gone, the time is recorded as last seen, and the offline status is
    broadcast. *)
Theorem staff_disconnect_unregisters :
  forall profiles st socket now user st' out,
    connectedUsers st !! socket = Some user ->
    u_role user = "staff"%string ->
    on_disconnect profiles st socket now = Returned st' out ->
    connectedUsers st' !! socket = None
    /\ staffSessions_get (u_id user) st' = None
    /\ (forall profile,
          profile_of_user profiles user = Some profile ->
          nonempty (p_shortName profile) = true ->
          staffSessions_get (p_shortName profile) st' = None)
    /\ (forall email,
          u_email user = Some email ->
          staffEmailSessions st' !! email = None
          /\ lastSeenByEmail st' !! email = Some now
          /\ In (mkEmit All "staff_status_update"
                   (JObj [("staffEmail", JStr email); ("status", JStr "offline");
                          ("lastSeen", JDate now); ("timestamp", JDate now)])) out).
Proof.
  intros profiles st socket now user st' out Hu Hrole Hret.
  unfold on_disconnect in Hret. cbv zeta in Hret.
  set (st0 := upd_joined _ (upd_sockets _ st)) in Hret.
  change (connectedUsers st0 !! socket) with (connectedUsers st !! socket) in Hret.
  rewrite Hu, Hrole in Hret. cbn [String.eqb Ascii.eqb Bool.eqb] in Hret.
  pose proof (unregister_staff_spec profiles socket user now st0) as Hspec.
  destruct (unregister_staff profiles socket user now st0) as [st1 out1].
  cbn [fst snd] in Hspec.
  destruct Hspec as (Hid & Hshort & Hemail & Hcu & _).
  destruct (staff_list st1 (staffSessions st1)) as [items|m]; [|discriminate Hret].
  set (st2 := upd_connectedUsers (delete socket) st1) in Hret.
  pose proof (cleanup_waiting_call_frame socket st2) as Hw.
  destruct (cleanup_waiting_call socket st2) as [st3 out3]. cbn [fst] in Hw.
  pose proof (cleanup_active_calls_frame socket (activeCalls st3) st3) as Ha.
  destruct (cleanup_active_calls socket (activeCalls st3) st3) as [st4 out4].
  cbn [fst] in Ha. injection Hret as <- <-.
  destruct Hw as (Hw1 & Hw2 & Hw3 & Hw4 & _).
  destruct Ha as (Ha1 & Ha2 & Ha3 & Ha4 & _).
  unfold staffSessions_get in *.
  rewrite Ha1, Ha2, Ha3, Ha4, Hw1, Hw2, Hw3, Hw4.
  split; [subst st2; cbn; apply lookup_delete_eq|].
  split; [exact Hid|]. split; [exact Hshort|].
  intros email He. destruct (Hemail email He) as (H1 & H2 & H3).
  split; [exact H1|]. split; [exact H2|].
  rewrite H3. left. reflexivity.
Qed.

(** X4 (witness): the staff socket [s] of [ACS] disconnects. *)
Lemma staff_disconnect_unregisters_witness :
  exists st' out,
    on_disconnect profiles acs_online "s" 9000 = Returned st' out
    /\ staffSessions_get "ACS" acs_online = Some "s"
    /\ staffSessions_get "ACS" st' = None
    /\ lastSeenByEmail st' !! "anitha@college.edu" = Some 9000.
Proof.
  destruct (on_disconnect profiles acs_online "s" 9000) as [st' out|st' out m] eqn:E;
    [|vm_compute in E; discriminate E].
  exists st', out. split; [reflexivity|]. split; [reflexivity|].
  destruct (staff_disconnect_unregisters profiles acs_online "s" 9000
              (mkUser "ACS" "Prof. Anitha C S" "staff" "CSE" (Some "anitha@college.edu"))
              st' out eq_refl eq_refl E) as (_ & Hid & _ & Hemail).
  split; [exact Hid | exact (proj1 (proj2 (Hemail _ eq_refl)))].
Defined.

(** X5.  The list of staff sent with [staff-list-updated] reads the user
    of every remaining session; when a session of another key points to a
    socket without user record, the disconnect handler of a staff socket
    rejects at that point: the socket keeps its user record and neither
    waiting nor active calls are cleaned up. *)
Theorem staff_disconnect_rejected_by_stale_session :
  forall profiles st socket now user key other,
    connectedUsers st !! socket = Some user ->
    u_role user = "staff"%string ->
    In (key, other) (staffSessions st) ->
    key <> u_id user ->
    (forall profile, profile_of_user profiles user = Some profile ->
                     key <> p_shortName profile) ->
    connectedUsers st !! other = None ->
    exists st' out m,
      on_disconnect profiles st socket now = Rejected st' out m
      /\ connectedUsers st' !! socket = Some user
      /\ activeCalls st' = activeCalls st
      /\ waitingCalls st' = waitingCalls st.
Proof.
  intros profiles st socket now user key other Hu Hrole Hin Hkey Hprof Hnone.
  unfold on_disconnect. cbv zeta.
  set (st0 := upd_joined _ (upd_sockets _ st)).
  change (connectedUsers st0 !! socket) with (connectedUsers st !! socket).
  rewrite Hu, Hrole. cbn [String.eqb Ascii.eqb Bool.eqb].
  pose proof (unregister_staff_spec profiles socket user now st0) as Hspec.
  destruct (unregister_staff profiles socket user now st0) as [st1 out1].
  cbn [fst snd] in Hspec.
  destruct Hspec as (_ & _ & _ & Hcu & Hac & Hwc & Hkeep).
  assert (Hin1 : In (key, other) (staffSessions st1)).
  { apply Hkeep; [exact Hin | exact Hkey | exact Hprof]. }
  assert (Hnone1 : connectedUsers st1 !! other = None) by (rewrite Hcu; exact Hnone).
  destruct (staff_list_throws st1 _ key other Hin1 Hnone1) as [m ->].
  exists st1, out1, m. split; [reflexivity|].
  split; [rewrite Hcu; exact Hu|]. split; assumption.
Qed.

(** X5 (witness): the session of [ACS] points to the vanished socket [s]
    when [NN] disconnects from socket [x]. *)
Lemma staff_disconnect_rejected_by_stale_session_witness :
  exists st' out m,
    on_disconnect profiles nn_on_x "x" 4000 = Rejected st' out m
    /\ connectedUsers st' !! "x"
       = Some (mkUser "NN" "Dr. Nagashree N" "staff" "CSE"
                 (Some "nagashree@college.edu"))
    /\ activeCalls st' = activeCalls nn_on_x
    /\ waitingCalls st' = waitingCalls nn_on_x.
Proof.
  apply (staff_disconnect_rejected_by_stale_session profiles nn_on_x "x" 4000
           _ "ACS" "s").
  - reflexivity.
  - reflexivity.
  - vm_compute. left. reflexivity.
  - discriminate.
  - intros profile H. vm_compute in H. injection H as <-. discriminate.
  - reflexivity.
Defined.

(** ** Call requests over REST *)

(** X6.  A REST call request has exactly one of three outcomes: an unknown
    short name is answered 404 and nothing happens; for a staff member
    with a session the request is emitted to that socket and nothing is
    queued; otherwise the request is appended to the queue of the short
    name and nothing is emitted.  No other registry changes. *)
Theorem api_staff_call_request_outcomes :
  forall profiles st callId now body,
    let result := api_staff_call_request profiles st callId now body in
    let st' := fst (fst result) in
    let out := snd (fst result) in
    let code := fst (snd result) in
    let request := call_request_object callId now body in
    (List.find (fun s => str_eq (p_shortName s) (field "staffId" body)) profiles = None
     /\ code = 404 /\ st' = st /\ out = [])
    \/ (exists p socketOfStaff,
          List.find (fun s => str_eq (p_shortName s) (field "staffId" body)) profiles
          = Some p
          /\ staffSessions_get (p_shortName p) st = Some socketOfStaff
          /\ code = 200 /\ st' = st
          /\ out = [mkEmit (Room (JStr socketOfStaff)) "incoming-call-request" request])
    \/ (exists p,
          List.find (fun s => str_eq (p_shortName s) (field "staffId" body)) profiles
          = Some p
          /\ code = 200 /\ out = []
          /\ queue_of st' (p_shortName p) = queue_of st (p_shortName p) ++ [request]
          /\ (forall k, k <> p_shortName p -> queue_of st' k = queue_of st k)
          /\ st' = upd_pendingStaffCalls
                     (fun m => <[p_shortName p :=
                                   queue_of st (p_shortName p) ++ [request]]> m) st).
Proof.
  intros profiles st callId now body. cbv zeta. unfold api_staff_call_request.
  destruct (List.find _ profiles) as [p|]; [|left; repeat split; reflexivity].
  destruct (staffSessions_get (p_shortName p) st) as [s|] eqn:Hs.
  - destruct (nonempty s) eqn:Hn.
    + right. left. exists p, s. repeat split; solve [reflexivity | exact Hs].
    + right. right. exists p. cbn [fst snd]. split; [reflexivity|].
      split; [reflexivity|]. split; [reflexivity|].
      split; [unfold queue_of; cbn; rewrite lookup_insert_eq; reflexivity|].
      split; [|reflexivity].
      intros k Hk. unfold queue_of. cbn.
      rewrite lookup_insert_ne by congruence. reflexivity.
  - right. right. exists p. cbn [fst snd]. split; [reflexivity|].
    split; [reflexivity|]. split; [reflexivity|].
    split; [unfold queue_of; cbn; rewrite lookup_insert_eq; reflexivity|].
    split; [|reflexivity].
    intros k Hk. unfold queue_of. cbn.
    rewrite lookup_insert_ne by congruence. reflexivity.
Qed.

(** ** Accepting a call *)

(** X7.  [accept-call] either reports one [call-error] and does nothing,
    or the caller is a staff user assigned to the call: with a database,
    the call document exists in status [waiting], carries the caller's
    id as staff id, and is saved as in progress; without one, the call
    is an entry of [waitingCalls] with the caller's id as staff id. *)
Theorem accept_call_requires_assigned_staff :
  forall env st socket now now2 data,
    let callId := field "callId" data in
    let result := on_accept_call env st socket now now2 data in
    (exists text, result = (st, [call_error socket text], []))
    \/ (exists staffUser call,
          connectedUsers st !! socket = Some staffUser
          /\ u_role staffUser = "staff"%string
          /\ cd_staffId call = u_id staffUser
          /\ ((isDbConnected env = true
               /\ Call_findById env callId = Ok (Some call)
               /\ cd_status call = "waiting"%string
               /\ snd result = [WCallSave (start_call call now)])
              \/ (isDbConnected env = false
                  /\ (exists client, In (client, call) (waitingCalls st))
                  /\ str_eq (cd_id call) callId = true
                  /\ snd result = []))).
Proof.
  intros env st socket now now2 data callId result. subst result.
  unfold on_accept_call. fold callId. cbv zeta.
  destruct (connectedUsers st !! socket) as [staffUser|] eqn:Hu;
    [|left; eexists; reflexivity].
  destruct (String.eqb (u_role staffUser) "staff") eqn:Hrole;
    [|left; eexists; reflexivity].
  apply String.eqb_eq in Hrole. cbn [negb].
  destruct (isDbConnected env) eqn:Hdb.
  - destruct (Call_findById env callId) as [[call|]|m] eqn:Hfind;
      try (left; eexists; reflexivity).
    destruct (String.eqb (cd_status call) "waiting") eqn:Hst;
      [|left; eexists; reflexivity].
    destruct (String.eqb (cd_staffId call) (u_id staffUser)) eqn:Hid;
      [|left; eexists; reflexivity].
    cbn [negb].
    destruct (Call_save env (start_call call now)); [|left; eexists; reflexivity].
    right. exists staffUser, call.
    apply String.eqb_eq in Hst, Hid.
    split; [reflexivity|]. split; [exact Hrole|]. split; [exact Hid|].
    left. split; [reflexivity|]. split; [reflexivity|]. split; [exact Hst|].
    destruct (accept_call_tail _ _ _ _ _ _ _). reflexivity.
  - destruct (List.find _ (waitingCalls st)) as [[client call]|] eqn:Hfind;
      [|left; eexists; reflexivity].
    destruct (String.eqb (cd_staffId call) (u_id staffUser)) eqn:Hid;
      [|left; eexists; reflexivity].
    cbn [negb]. right. exists staffUser, call.
    apply String.eqb_eq in Hid. apply List.find_some in Hfind as [Hin Hmatch].
    split; [reflexivity|]. split; [exact Hrole|]. split; [exact Hid|].
    right. split; [reflexivity|]. split; [exists client; exact Hin|].
    split; [exact Hmatch|].
    destruct (accept_call_tail _ _ _ _ _ _ _). reflexivity.
Qed.

(** ** Video-call requests *)

Lemma filter_drops_fresh (rid : string) (q : list string) :
  ~ In rid q ->
  List.filter (fun id => negb (str_eq id (JStr rid))) (q ++ [rid]) = q.
Proof.
  intros Hfresh. rewrite List.filter_app. cbn [List.filter str_eq].
  rewrite String.eqb_refl. cbn [negb]. rewrite app_nil_r.
  induction q as [|x q IH]; [reflexivity|].
  cbn [List.filter str_eq].
  destruct (String.eqb x rid) eqn:E.
  - apply String.eqb_eq in E. subst x. exfalso. apply Hfresh. left. reflexivity.
  - cbn [negb]. f_equal. apply IH. intros H. apply Hfresh. right. exact H.
Qed.

(** The registries after a [video-call-request] whose target resolves. *)
Lemma on_video_call_request_stores :
  forall profiles st socket requestId now data p,
    List.find (matches_video_target (field "staffId" data)
                 (field "staffName" data) (field "staffEmail" data)) profiles
    = Some p ->
    nonempty (p_shortName p) = true ->
    let st' := fst (on_video_call_request profiles st socket requestId now data) in
    videoCallRequests st' !! requestId
    = Some (mkVideoCallRequest requestId (p_shortName p) (p_name p)
              (p_department p) (field "clientName" data)
              (field "clientSocketId" data) "pending" now false JUndef JUndef)
    /\ pendingVideoCalls st' !! p_shortName p
       = Some (default [] (pendingVideoCalls st !! p_shortName p) ++ [requestId])
    /\ activeCalls st' = activeCalls st.
Proof.
  intros profiles st socket requestId now data p Hfind Hname. cbv zeta.
  unfold on_video_call_request. rewrite Hfind, Hname. cbn [negb].
  destruct (staffSessions_get (p_shortName p) st) as [s|] eqn:Hs;
    [destruct (nonempty s)|];
    (split; [cbn; rewrite lookup_insert_eq; reflexivity|]);
    (split; [cbn; rewrite lookup_insert_eq; reflexivity|]); reflexivity.
Qed.

(** X8.  A video-call request whose target resolves to a profile with a
    short name is stored as [pending] under the generated id and appended
    to the queue of that short name, whether or not the staff member has
    a session; no call session is created, and the requester receives
    one [video-call-request-sent]. *)
Theorem video_call_request_is_stored_and_queued :
  forall profiles st socket requestId now data p,
    List.find (matches_video_target (field "staffId" data)
                 (field "staffName" data) (field "staffEmail" data)) profiles
    = Some p ->
    nonempty (p_shortName p) = true ->
    let result := on_video_call_request profiles st socket requestId now data in
    let st' := fst result in
    videoCallRequests st' !! requestId
    = Some (mkVideoCallRequest requestId (p_shortName p) (p_name p)
              (p_department p) (field "clientName" data)
              (field "clientSocketId" data) "pending" now false JUndef JUndef)
    /\ pendingVideoCalls st' !! p_shortName p
       = Some (default [] (pendingVideoCalls st !! p_shortName p) ++ [requestId])
    /\ activeCalls st' = activeCalls st
    /\ staffSessions st' = staffSessions st
    /\ (exists payload,
          with_event "video-call-request-sent" (snd result)
          = [mkEmit (Sock socket) "video-call-request-sent" payload])
    /\ (staffSessions_get (p_shortName p) st = None ->
        with_event "video-call-request" (snd result) = []).
Proof.
  intros profiles st socket requestId now data p Hfind Hname. cbv zeta.
  unfold on_video_call_request. rewrite Hfind, Hname. cbn [negb].
  destruct (staffSessions_get (p_shortName p) st) as [s|] eqn:Hs;
    [destruct (nonempty s)|];
    (split; [cbn; rewrite lookup_insert_eq; reflexivity|]);
    (split; [cbn; rewrite lookup_insert_eq; reflexivity|]);
    (split; [reflexivity|]); (split; [reflexivity|]);
    (split; [eexists; reflexivity|]); intros H; try discriminate H; reflexivity.
Qed.

Lemma video_call_request_is_stored_and_queued_witness :
  videoCallRequests video_queued !! "vcr9"
  = Some (mkVideoCallRequest "vcr9" "ACS" "Prof. Anitha C S" "CSE"
            (JStr "Asha") (JStr "a") "pending" 300 false JUndef JUndef)
  /\ pendingVideoCalls video_queued !! "ACS" = Some ["vcr9"].
Proof.
  destruct (video_call_request_is_stored_and_queued profiles connected "a" "vcr9" 300
              (JObj [("staffName", JStr "ACS"); ("clientName", JStr "Asha");
                     ("clientSocketId", JStr "a")])
              (mkStaffProfile "Prof. Anitha C S" "anitha@college.edu" "ACS" "CSE"
                 "pw-acs")
              eq_refl eq_refl) as (H1 & H2 & _).
  split; [exact H1 | exact H2].
Defined.

(** X9.  A video-call request whose target matches no profile, or a
    profile without a short name, changes no registry and is answered
    with exactly one [video-call-error] to the requester. *)
Theorem video_call_request_unknown_staff :
  forall profiles st socket requestId now data,
    match List.find (matches_video_target (field "staffId" data)
                       (field "staffName" data) (field "staffEmail" data)) profiles
    with
    | None => True
    | Some p => nonempty (p_shortName p) = false
    end ->
    exists text,
      on_video_call_request profiles st socket requestId now data
      = (st, [mkEmit (Sock socket) "video-call-error" (message text)]).
Proof.
  intros profiles st socket requestId now data H. unfold on_video_call_request.
  destruct (List.find _ profiles) as [p|].
  - rewrite H. cbn [negb]. eexists. reflexivity.
  - eexists. reflexivity.
Qed.

Lemma video_call_request_unknown_staff_witness :
  exists text,
    on_video_call_request profiles acs_online "a" "vcr7" 2000
      (JObj [("staffName", JStr "Nobody"); ("clientName", JStr "Asha")])
    = (acs_online, [mkEmit (Sock "a") "video-call-error" (message text)]).
Proof.
  exact (video_call_request_unknown_staff profiles acs_online "a" "vcr7" 2000
           (JObj [("staffName", JStr "Nobody"); ("clientName", JStr "Asha")]) I).
Defined.

(** X10.  Request, then rejection: when the staff member rejects a stored
    request with a response that names the request and the staff short
    name, the queue of that short name is what it was before the request
    (for a fresh request id), the request stays stored with status
    [rejected], no call session appears and the client's room receives
    [video-call-rejected]. *)
Theorem video_call_reject_restores_queue :
  forall profiles env st client staff requestId callId now now2 data response p,
    List.find (matches_video_target (field "staffId" data)
                 (field "staffName" data) (field "staffEmail" data)) profiles
    = Some p ->
    nonempty (p_shortName p) = true ->
    ~ In requestId (default [] (pendingVideoCalls st !! p_shortName p)) ->
    field "requestId" response = JStr requestId ->
    field "staffId" response = JStr (p_shortName p) ->
    truthy (field "accepted" response) = false ->
    claraAI_resetDemoMode env = Ok tt ->
    let st1 := fst (on_video_call_request profiles st client requestId now data) in
    let result := on_video_call_response env st1 staff callId now2 response in
    let st2 := fst result in
    pendingVideoCalls st2 !! p_shortName p
    = Some (default [] (pendingVideoCalls st !! p_shortName p))
    /\ (exists r, videoCallRequests st2 !! requestId = Some r
                  /\ vr_status r = "rejected"%string
                  /\ vr_rejectedTime r = JDate now2
                  /\ vr_accepted r = false)
    /\ activeCalls st2 = activeCalls st
    /\ (exists payload,
          with_event "video-call-rejected" (snd result)
          = [mkEmit (Room (field "clientSocketId" data)) "video-call-rejected" payload]).
Proof.
  intros profiles env st client staff requestId callId now now2 data response p
    Hfind Hname Hfresh Hrid Hsid Hacc Hreset. cbv zeta.
  destruct (on_video_call_request_stores profiles st client requestId now
              data p Hfind Hname) as (Hreq & Hq & Hact).
  cbv zeta in Hreq, Hq, Hact.
  set (st1 := fst (on_video_call_request profiles st client requestId now data)) in *.
  unfold on_video_call_response. rewrite Hrid, Hsid.
  cbn [lookup_js]. rewrite Hreq, Hacc, Hreset.
  cbn [vr_requestId vr_staffId vr_staffName vr_staffDepartment vr_clientName
       vr_clientSocketId vr_requestTime vr_accepted vr_acceptedTime fst snd].
  unfold remove_pending.
  split.
  { unfold upd_pendingVideoCalls, upd_videoCallRequests.
    cbn [pendingVideoCalls]. rewrite lookup_insert_eq, Hq. cbn [default from_option]. unfold id.
    rewrite filter_drops_fresh by exact Hfresh. reflexivity. }
  split.
  { eexists. split; [cbn; rewrite lookup_insert_eq; reflexivity|].
    split; [reflexivity|]. split; reflexivity. }
  split; [exact Hact|].
  eexists. reflexivity.
Qed.

Lemma video_call_reject_restores_queue_witness :
  let response :=
    JObj [("requestId", JStr "vcr1"); ("accepted", JBool false);
          ("staffId", JStr "ACS")] in
  let st2 := fst (on_video_call_response no_db video_requested "s" "vcall1" 3000
                    response) in
  pendingVideoCalls st2 !! "ACS" = Some []
  /\ activeCalls st2 = activeCalls acs_online.
Proof.
  cbv zeta.
  assert (Hfresh : ~ In "vcr1"%string
                     (default [] (pendingVideoCalls acs_online !! "ACS"))).
  { vm_compute. intros H. exact H. }
  destruct (video_call_reject_restores_queue profiles no_db acs_online "a" "s"
              "vcr1" "vcall1" 2000 3000
              (JObj [("staffName", JStr "ACS"); ("clientName", JStr "Asha");
                     ("clientSocketId", JStr "a")])
              (JObj [("requestId", JStr "vcr1"); ("accepted", JBool false);
                     ("staffId", JStr "ACS")])
              (mkStaffProfile "Prof. Anitha C S" "anitha@college.edu" "ACS" "CSE"
                 "pw-acs")
              eq_refl eq_refl Hfresh eq_refl eq_refl eq_refl eq_refl)
    as (H1 & _ & H3 & _).
  split; [exact H1 | exact H3].
Defined.

(** ** Call requests addressed by e-mail *)








(** ** Ending a call without validation *)

Lemma end_call_unchecked_found ev text side st socket data callSession :
  destructured data = Ok data ->
  activeCalls_get (field "callId" data) st = Some callSession ->
  let st' := activeCalls_delete (field "callId" data) st in
  end_call_unchecked ev text side st socket data
  = Ok (st', [mkEmit (Room (side callSession)) ev
                (JObj [("callId", field "callId" data); ("message", JStr text)])])
  /\ activeCalls_get (field "callId" data) st' = None
  /\ end_call_unchecked ev text side st' socket data = Ok (st', []).
Proof.
  intros Hdata Hsession. cbv zeta. unfold end_call_unchecked. rewrite Hdata.
  cbn [Res_bind]. rewrite Hsession.
  split; [reflexivity|].
  split; [apply activeCalls_get_delete_same|].
  rewrite activeCalls_get_delete_same. reflexivity.
Qed.

(** X13.  [end-call] refuses a logged-in socket that is not a participant
    of the session, but the same socket ends the session with
    [call-ended-by-client] or [call-ended-by-staff]: the session is
    deleted without a participant check, only the staff side (the client
    side, for the second event) is notified, and a second event for the
    same call does nothing. *)
Theorem call_ended_events_are_unchecked :
  forall env st socket clock data user callSession,
    destructured data = Ok data ->
    connectedUsers st !! socket = Some user ->
    activeCalls_get (field "callId" data) st = Some callSession ->
    is_participant socket callSession = false ->
    let st' := activeCalls_delete (field "callId" data) st in
    on_end_call env st socket clock data
    = (st, [call_error socket "Unauthorized call end attempt"], [])
    /\ on_call_ended_by_client st socket data
       = Ok (st', [mkEmit (Room (staffSocketId callSession)) "call-ended-by-client"
                     (JObj [("callId", field "callId" data);
                            ("message", JStr "Client ended the call")])])
    /\ on_call_ended_by_staff st socket data
       = Ok (st', [mkEmit (Room (clientSocketId callSession)) "call-ended-by-staff"
                     (JObj [("callId", field "callId" data);
                            ("message", JStr "Staff ended the call")])])
    /\ activeCalls_get (field "callId" data) st' = None
    /\ on_call_ended_by_client st' socket data = Ok (st', [])
    /\ on_call_ended_by_staff st' socket data = Ok (st', []).
Proof.
  intros env st socket clock data user callSession Hdata Huser Hsession Hout.
  cbv zeta. split.
  { unfold on_end_call. rewrite Huser, Hsession.
    unfold is_participant in Hout. apply orb_false_elim in Hout as [H1 H2].
    rewrite H1, H2. reflexivity. }
  destruct (end_call_unchecked_found "call-ended-by-client" "Client ended the call"
              staffSocketId st socket data callSession Hdata Hsession)
    as (Hc1 & Hgone & Hc2).
  destruct (end_call_unchecked_found "call-ended-by-staff" "Staff ended the call"
              clientSocketId st socket data callSession Hdata Hsession)
    as (Hs1 & _ & Hs2).
  split; [exact Hc1|]. split; [exact Hs1|]. split; [exact Hgone|].
  split; [exact Hc2 | exact Hs2].
Qed.

Lemma call_ended_events_are_unchecked_witness :
  let st' := activeCalls_delete (JStr "call1") call1_with_nn in
  on_end_call no_db call1_with_nn "x" end_clock end_call1
  = (call1_with_nn, [call_error "x" "Unauthorized call end attempt"], [])
  /\ on_call_ended_by_client call1_with_nn "x" end_call1
     = Ok (st', [mkEmit (Room (JStr "s")) "call-ended-by-client"
                   (JObj [("callId", JStr "call1");
                          ("message", JStr "Client ended the call")])])
  /\ activeCalls_get (JStr "call1") st' = None.
Proof.
  cbv zeta.
  destruct (call_ended_events_are_unchecked no_db call1_with_nn "x" end_clock
              end_call1
              (mkUser "NN" "Dr. Nagashree N" "staff" "CSE"
                 (Some "nagashree@college.edu"))
              (mkCallSession (JStr "call1") (JStr "a") (JStr "s") (Some 3000)
                 "in-progress" JUndef JUndef None)
              eq_refl eq_refl eq_refl eq_refl) as (H1 & H2 & _ & H4 & _).
  split; [exact H1|]. split; [exact H2 | exact H4].
Defined.

(** ** Rooms *)

(** X14.  A socket that joined the room of a call receives every
    [call_offer] a peer sends for that call twice, once with the raw
    payload and once rebuilt by the second listener; the sender receives
    neither, and the registries do not change. *)
Theorem joined_peer_receives_room_offer_twice :
  forall st (a b : SocketId) (c : string) data,
    b ∈ sockets st ->
    a <> b ->
    nonempty c = true ->
    truthy (field "sessionId" data) = false ->
    field "callId" data = JStr c ->
    let st1 := on_join_call st b (JObj [("callId", JStr c)]) in
    let result := on_call_offer st1 a data in
    fst result = st1
    /\ exists e1 e2,
         snd result = [e1; e2]
         /\ event e1 = "call_offer"%string /\ event e2 = "call_offer"%string
         /\ payload e1 = data
         /\ b ∈ recipients st1 e1 /\ b ∈ recipients st1 e2
         /\ (a ∉ recipients st1 e1) /\ (a ∉ recipients st1 e2).
Proof.
  intros st a b c data Hb Hab Hc Hsession Hcall. cbv zeta.
  assert (Hjoin : on_join_call st b (JObj [("callId", JStr c)])
                  = socket_join b c st).
  { unfold on_join_call. cbn. unfold nonempty in Hc. rewrite Hc. reflexivity. }
  rewrite Hjoin.
  unfold on_call_offer, both, relay_room, relay_room_tagged.
  unfold Js.or. rewrite Hsession, Hcall. cbn [truthy]. unfold nonempty in Hc.
  rewrite Hc. cbn [fst snd].
  split; [reflexivity|].
  eexists _, _. split; [reflexivity|]. cbn [event payload].
  split; [reflexivity|]. split; [reflexivity|]. split; [reflexivity|].
  assert (Hmem : b ∈ room_members (socket_join b c st) (JStr c)).
  { unfold room_members, socket_join, upd_joined. cbn [sockets joined].
    rewrite lookup_insert_eq. cbn [default from_option]. set_solver. }
  unfold recipients. cbn [target].
  assert (Hin : b ∈ room_members (socket_join b c st) (JStr c) ∖ {[ a ]}).
  { apply elem_of_difference. split; [exact Hmem|].
    rewrite elem_of_singleton. intros E. apply Hab. symmetry. exact E. }
  assert (Hout : a ∉ room_members (socket_join b c st) (JStr c) ∖ {[ a ]}).
  { intros H. apply elem_of_difference in H as [_ H]. apply H.
    apply elem_of_singleton. reflexivity. }
  repeat split; assumption.
Qed.

Lemma joined_peer_receives_room_offer_twice_witness :
  let st1 := on_join_call call1_active "s" (JObj [("callId", JStr "call1")]) in
  exists e1 e2,
    snd (on_call_offer st1 "a" (obj [("callId", "call1"); ("offer", "sdp")]))
    = [e1; e2]
    /\ "s" ∈ recipients st1 e1 /\ "s" ∈ recipients st1 e2.
Proof.
  cbv zeta.
  assert (Hs : "s" ∈ sockets call1_active).
  { apply (bool_decide_unpack _). vm_compute. exact I. }
  assert (Hne : ("a" : SocketId) <> "s") by discriminate.
  destruct (joined_peer_receives_room_offer_twice call1_active "a" "s" "call1"
              (obj [("callId", "call1"); ("offer", "sdp")])
              Hs Hne eq_refl eq_refl eq_refl)
    as (_ & e1 & e2 & Hout & _ & _ & _ & H1 & H2 & _).
  exists e1, e2. split; [exact Hout|]. split; [exact H1 | exact H2].
Defined.

(** X15.  After [register-staff] with an e-mail, a [call-request] for
    that e-mail reaches the registered socket twice: through the room of
    the e-mail and through the room of its socket id, with the same
    payload. *)
Theorem registered_staff_receives_call_request_twice :
  forall st (s client : SocketId) (e requestId : string) now data,
    s ∈ sockets st ->
    nonempty s = true ->
    field "staffEmail" data = JStr e ->
    let st1 := fst (on_register_staff st s e) in
    let result := on_call_request st1 client requestId now data in
    exists p,
      with_event "incoming-call" (snd result)
      = [mkEmit (Room (JStr e)) "incoming-call" p;
         mkEmit (Room (JStr s)) "incoming-call" p]
      /\ field "requestId" p = JStr requestId
      /\ s ∈ recipients (fst result) (mkEmit (Room (JStr e)) "incoming-call" p)
      /\ s ∈ recipients (fst result) (mkEmit (Room (JStr s)) "incoming-call" p).
Proof.
  intros st s client e requestId now data Hs Hne Hmail. cbv zeta.
  unfold on_call_request. rewrite Hmail. cbn [lookup_js fst snd].
  assert (Hsession : staffEmailSessions (fst (on_register_staff st s e)) !! e
                     = Some s).
  { unfold on_register_staff. cbn [fst]. unfold upd_staffRooms, socket_join,
      upd_joined, upd_staffEmailSessions. cbn [staffEmailSessions].
    apply lookup_insert_eq. }
  rewrite Hsession, Hne.
  eexists. split; [reflexivity|]. split; [reflexivity|].
  unfold recipients. cbn [target].
  unfold room_members, on_register_staff, upd_incomingCallRequests, upd_staffRooms,
    socket_join, upd_joined, upd_staffEmailSessions.
  cbn [fst sockets joined]. rewrite lookup_insert_eq. cbn [default from_option].
  split.
  - set_solver.
  - rewrite bool_decide_eq_true_2 by exact Hs. set_solver.
Qed.

Lemma registered_staff_receives_call_request_twice_witness :
  exists p,
    with_event "incoming-call"
      (snd (on_call_request (fst (on_register_staff connected "s" "nn@college.edu"))
              "a" "req5" 2000
              (obj [("clientId", "client-a"); ("staffEmail", "nn@college.edu")])))
    = [mkEmit (Room (JStr "nn@college.edu")) "incoming-call" p;
       mkEmit (Room (JStr "s")) "incoming-call" p].
Proof.
  assert (Hs : "s" ∈ sockets connected).
  { apply (bool_decide_unpack _). vm_compute. exact I. }
  destruct (registered_staff_receives_call_request_twice connected "s" "a"
              "nn@college.edu" "req5" 2000
              (obj [("clientId", "client-a"); ("staffEmail", "nn@college.edu")])
              Hs eq_refl eq_refl) as (p & Hout & _).
  exists p. exact Hout.
Defined.

Lemma cleanup_waiting_call_sockets socket st :
  sockets (fst (cleanup_waiting_call socket st)) = sockets st.
Proof.
  unfold cleanup_waiting_call.
  destruct (OMap.get String.eqb socket (waitingCalls st)); reflexivity.
Qed.

Lemma cleanup_active_calls_sockets socket entries st :
  sockets (fst (cleanup_active_calls socket entries st)) = sockets st.
Proof.
  induction entries as [|[callId cs] rest IH]; cbn [cleanup_active_calls].
  - reflexivity.
  - destruct (str_eq socket (clientSocketId cs) || str_eq socket (staffSocketId cs)).
    + reflexivity.
    + exact IH.
Qed.

(** X16.  A socket registered with [register-staff] only (it never logged
    in) is not unregistered when it disconnects: the handler returns, the
    socket is gone, but the e-mail still maps to it, and the availability
    check never reports the staff member of that e-mail as offline. *)
Theorem register_staff_survives_disconnect :
  forall profiles env st (s : SocketId) (e : string) now p day,
    connectedUsers st !! s = None ->
    p_email p = e ->
    let st1 := fst (on_register_staff st s e) in
    exists st' out,
      on_disconnect profiles st1 s now = Returned st' out
      /\ (s ∉ sockets st')
      /\ staffEmailSessions st' !! e = Some s
      /\ fst (teacher_status env st' p day) <> "offline"%string.
Proof.
  intros profiles env st s e now p day Huser Hmail. cbv zeta.
  set (st1 := fst (on_register_staff st s e)).
  unfold on_disconnect.
  set (st2 := upd_joined (fmap (fun members => members ∖ {[ s ]}))
                (upd_sockets (fun x => x ∖ {[ s ]}) st1)).
  assert (Hgone : connectedUsers st2 !! s = None) by exact Huser.
  rewrite Hgone.
  pose proof (cleanup_waiting_call_sockets s st2) as Hs1.
  pose proof (cleanup_waiting_call_frame s st2) as Hf1. cbv zeta in Hf1.
  destruct (cleanup_waiting_call s st2) as [st3 out1]. cbn [fst] in Hs1, Hf1.
  pose proof (cleanup_active_calls_sockets s (activeCalls st3) st3) as Hs2.
  pose proof (cleanup_active_calls_frame s (activeCalls st3) st3) as Hf2.
  cbv zeta in Hf2.
  destruct (cleanup_active_calls s (activeCalls st3) st3) as [st4 out2].
  cbn [fst] in Hs2, Hf2.
  exists st4, ([] ++ out1 ++ out2).
  split; [reflexivity|].
  destruct Hf1 as (_ & _ & Hm1 & _). destruct Hf2 as (_ & _ & Hm2 & _).
  assert (Hsession : staffEmailSessions st4 !! e = Some s).
  { rewrite Hm2, Hm1. subst st2 st1. unfold on_register_staff. cbn [fst].
    unfold upd_joined, upd_sockets, upd_staffRooms, socket_join,
      upd_staffEmailSessions. cbn [staffEmailSessions joined sockets].
    apply lookup_insert_eq. }
  split.
  { rewrite Hs2, Hs1. subst st2. unfold upd_joined, upd_sockets. cbn [sockets].
    intros H. apply elem_of_difference in H as [_ H]. apply H.
    apply elem_of_singleton. reflexivity. }
  split; [exact Hsession|].
  unfold teacher_status. cbn [fst]. rewrite Hmail, Hsession.
  rewrite (bool_decide_eq_true_2 (is_Some (Some s))) by (eexists; reflexivity).
  rewrite orb_true_r. unfold status_label.
  repeat match goal with |- context [if ?b then _ else _] => destruct b end;
    discriminate.
Qed.

Lemma register_staff_survives_disconnect_witness :
  exists st' out,
    on_disconnect profiles
      (fst (on_register_staff connected "s" "nagashree@college.edu")) "s" 5000
    = Returned st' out
    /\ staffEmailSessions st' !! "nagashree@college.edu" = Some "s".
Proof.
  destruct (register_staff_survives_disconnect profiles no_db connected "s"
              "nagashree@college.edu" 5000
              (mkStaffProfile "Dr. Nagashree N" "nagashree@college.edu" "NN" "CSE"
                 "pw-nn") None eq_refl eq_refl)
    as (st' & out & H1 & _ & H3 & _).
  exists st', out. split; [exact H1 | exact H3].
Defined.

(** ** Restoring a session *)

(** The registration of a socket under an e-mail, as [restore-session]
    does it. *)
Lemma email_registration_frame (socket : SocketId) (e : string) (st : State) :
  let st' :=
    upd_staffRooms (fun m => <[ e := {[ socket ]} ∪ default ∅ (m !! e) ]> m)
      (socket_join socket e
         (upd_staffEmailSessions (fun m => <[ e := socket ]> m) st)) in
  connectedUsers st' = connectedUsers st
  /\ staffSessions st' = staffSessions st
  /\ staffEmailSessions st' = <[ e := socket ]> (staffEmailSessions st)
  /\ pendingStaffCalls st' = pendingStaffCalls st
  /\ pendingVideoCalls st' = pendingVideoCalls st
  /\ waitingCalls st' = waitingCalls st.
Proof. repeat split; reflexivity. Qed.

Lemma session_registration_frame (socket : SocketId) (user : User) (k : string)
    (st : State) :
  let st' :=
    staffSessions_set k socket
      (staffSessions_set (u_id user) socket
         (upd_connectedUsers (fun m => <[ socket := user ]> m) st)) in
  connectedUsers st' !! socket = Some user
  /\ staffSessions_get k st' = Some socket
  /\ staffEmailSessions st' = staffEmailSessions st
  /\ pendingStaffCalls st' = pendingStaffCalls st
  /\ pendingVideoCalls st' = pendingVideoCalls st.
Proof.
  cbv zeta. split; [apply lookup_insert_eq|].
  split; [apply smap_get_set_same|]. repeat split; reflexivity.
Qed.

(** X17.  [restore-session] registers the socket as the staff member whose
    profile e-mail the payload names, letter case aside, without reading
    any credential: the socket gets the user record of the profile and
    the session of its short name.  Unlike a login it delivers none of
    the queued call requests and leaves the queues as they are. *)
Theorem restore_session_registers_without_credentials :
  forall profiles env st socket now data email p,
    field "email" (field "staff" data) = JStr email ->
    nonempty email = true ->
    List.find (fun s => String.eqb (toLowerCase (p_email s)) (toLowerCase email))
      profiles = Some p ->
    let result := on_restore_session profiles env st socket now data in
    let st' := fst result in
    connectedUsers st' !! socket = Some (restored_user p)
    /\ staffSessions_get (p_shortName p) st' = Some socket
    /\ (nonempty (p_email p) = true ->
        staffEmailSessions st' !! p_email p = Some socket)
    /\ pendingStaffCalls st' = pendingStaffCalls st
    /\ pendingVideoCalls st' = pendingVideoCalls st
    /\ with_event "new-call-request" (snd result) = []
    /\ with_event "pending-video-calls" (snd result) = [].
Proof.
  intros profiles env st socket now data email p Hemail Hne Hfind. cbv zeta.
  unfold on_restore_session.
  assert (Hdata : exists fields, data = JObj fields).
  { destruct data; try discriminate Hemail. eexists. reflexivity. }
  destruct Hdata as [fields ->].
  assert (Hstaff : truthy (field "staff" (JObj fields)) = true).
  { destruct (field "staff" (JObj fields)); try discriminate Hemail. reflexivity. }
  rewrite Hstaff, Hemail. cbn [truthy negb orb]. unfold nonempty in Hne.
  rewrite Hne. cbn [negb]. rewrite Hfind.
  cbv zeta.
  assert (Hem : u_email (restored_user p)
                = if nonempty (p_email p) then Some (p_email p) else None)
    by reflexivity.
  assert (Hid : u_id (restored_user p) = p_shortName p) by reflexivity.
  rewrite Hem.
  pose proof (session_registration_frame socket (restored_user p) (p_shortName p) st)
    as Hreg. cbv zeta in Hreg.
  set (st3 := staffSessions_set (p_shortName p) socket
                (staffSessions_set (u_id (restored_user p)) socket
                   (upd_connectedUsers (fun m => <[ socket := restored_user p ]> m)
                      st))) in *.
  destruct Hreg as (Hr1 & Hr2 & Hr3 & Hr4 & Hr5).
  destruct (nonempty (p_email p)) eqn:Hpe.
  - pose proof (email_registration_frame socket (p_email p) st3) as Hmail.
    cbv zeta in Hmail.
    set (st4 := upd_staffRooms _ (socket_join socket (p_email p) _)) in *.
    destruct Hmail as (Hm1 & Hm2 & Hm3 & Hm4 & Hm5 & Hm6).
    assert (Hstate : connectedUsers st4 !! socket = Some (restored_user p)
                     /\ staffSessions_get (p_shortName p) st4 = Some socket
                     /\ (true = true ->
                         staffEmailSessions st4 !! p_email p = Some socket)
                     /\ pendingStaffCalls st4 = pendingStaffCalls st
                     /\ pendingVideoCalls st4 = pendingVideoCalls st).
    { split; [rewrite Hm1; exact Hr1|].
      split; [unfold staffSessions_get in *; rewrite Hm2; exact Hr2|].
      split; [intros _; rewrite Hm3; apply lookup_insert_eq|].
      split; [rewrite Hm4; exact Hr4 | rewrite Hm5; exact Hr5]. }
    destruct Hstate as (H1 & H2 & H3 & H4 & H5).
    destruct (if isDbConnected env then Call_countWaiting env else _) as [count|m];
      cbn [fst snd];
      (split; [exact H1|]); (split; [exact H2|]); (split; [exact H3|]);
      (split; [exact H4|]); (split; [exact H5|]); split; reflexivity.
  - destruct (if isDbConnected env then Call_countWaiting env else _) as [count|m];
      cbn [fst snd];
      (split; [exact Hr1|]); (split; [exact Hr2|]);
      (split; [intros H; discriminate H|]);
      (split; [exact Hr4|]); (split; [exact Hr5|]); split; reflexivity.
Qed.

Lemma restore_session_registers_without_credentials_witness :
  let result := on_restore_session profiles no_db queued_for_acs "s" 900 restore_acs in
  staffSessions_get "ACS" (fst result) = Some "s"
  /\ pendingStaffCalls (fst result) = pendingStaffCalls queued_for_acs.
Proof.
  cbv zeta.
  destruct (restore_session_registers_without_credentials profiles no_db
              queued_for_acs "s" 900 restore_acs "Anitha@College.edu"
              (mkStaffProfile "Prof. Anitha C S" "anitha@college.edu" "ACS" "CSE"
                 "pw-acs")
              eq_refl eq_refl eq_refl) as (_ & H2 & _ & H4 & _).
  split; [exact H2 | exact H4].
Defined.

(** ** Conversations without a database *)

(** X18.  Without a database, [start-conversation] announces a call id to
    the client (and to the selected staff member, at once or through the
    queue) but stores the call outside [waitingCalls]; since [accept-call]
    then searches [waitingCalls], accepting that call id is answered with
    a [call-error] for every socket, and no session is created. *)
Theorem demo_conversation_cannot_be_accepted :
  forall profiles db_branch env st demo client clock data name email staff now now2,
    isDbConnected env = false ->
    truthy (field "selectedStaffId" data) = true ->
    List.find (fun entry =>
                 str_eq (cd_id (snd entry))
                   (JStr ("call_" +:+ pretty (t_callId clock))))
      (waitingCalls st) = None ->
    let callId := "call_" +:+ pretty (t_callId clock) in
    let result :=
      on_start_conversation profiles db_branch env st demo client clock data
        name email in
    let st1 := fst (fst result) in
    (exists p,
       In (mkEmit (Sock client) "conversation-started" p) (snd result)
       /\ field "callId" p = JStr callId)
    /\ (exists request,
          field "callId" request = JStr callId
          /\ ((exists s, In (mkEmit (Room (JStr s)) "new-call-request" request)
                           (snd result))
              \/ In request
                   (queue_of st1 (toStr (field "selectedStaffId" data)))))
    /\ waitingCalls st1 = waitingCalls st
    /\ activeCalls st1 = activeCalls st
    /\ exists text,
         on_accept_call env st1 staff now now2 (JObj [("callId", JStr callId)])
         = (st1, [call_error staff text], []).
Proof.
  intros profiles db_branch env st demo client clock data name email staff now now2
    Hdb Hsel Hnone. cbv zeta.
  unfold on_start_conversation.
  assert (Hdata : destructured data = Ok data).
  { destruct data; try reflexivity; discriminate Hsel. }
  rewrite Hdata, Hsel, Hdb. cbn [negb].
  set (callId := "call_" +:+ pretty (t_callId clock)) in *.
  set (request := JObj [("callId", JStr callId); ("clientName", JStr name);
                        ("purpose", field "purpose" data);
                        ("timestamp", JDate (t_notified clock))]).
  match goal with
  | |- context [match ?X with Some s => (_, [mkEmit (Room (JStr s)) _ _]) | None => _ end] =>
      set (online := X)
  end.
  assert (Haccept : forall st1 : State,
             waitingCalls st1 = waitingCalls st ->
             exists text,
               on_accept_call env st1 staff now now2 (JObj [("callId", JStr callId)])
               = (st1, [call_error staff text], [])).
  { intros st1 Hw. unfold on_accept_call. rewrite Hdb, Hw.
    change (field "callId" (JObj [("callId", JStr callId)])) with (JStr callId).
    rewrite Hnone.
    destruct (connectedUsers st1 !! staff) as [u|]; [|eexists; reflexivity].
    destruct (negb (String.eqb (u_role u) "staff")); eexists; reflexivity. }
  destruct online as [s|]; cbn [fst snd].
  - split; [eexists; split; [right; left; reflexivity | reflexivity]|].
    split.
    { exists request. split; [reflexivity|]. left. exists s. left. reflexivity. }
    split; [reflexivity|]. split; [reflexivity|].
    apply Haccept. reflexivity.
  - split; [eexists; split; [left; reflexivity | reflexivity]|].
    split.
    { exists request. split; [reflexivity|]. right.
      unfold queue_of, upd_pendingStaffCalls. cbn [pendingStaffCalls].
      rewrite lookup_insert_eq. cbn [default from_option]. unfold id.
      apply in_or_app. right. left. reflexivity. }
    split; [reflexivity|]. split; [reflexivity|].
    apply Haccept. reflexivity.
Qed.

Lemma demo_conversation_cannot_be_accepted_witness :
  let result :=
    on_start_conversation profiles no_db_branch no_db acs_online
      (mkDemoStore [] [] []) "a" start_clock start_with_acs "Asha" None in
  waitingCalls (fst (fst result)) = waitingCalls acs_online
  /\ exists text,
       on_accept_call no_db (fst (fst result)) "s" 3000 3001
         (JObj [("callId", JStr ("call_" +:+ pretty 2001))])
       = (fst (fst result), [call_error "s" text], []).
Proof.
  cbv zeta.
  destruct (demo_conversation_cannot_be_accepted profiles no_db_branch no_db
              acs_online (mkDemoStore [] [] []) "a" start_clock start_with_acs
              "Asha" None "s" 3000 3001 eq_refl eq_refl eq_refl)
    as (_ & _ & Hw & _ & H).
  split; [exact Hw | exact H].
Defined.

(** ** The online-staff checker *)

(** X19.  The checker handed to the AI service answers [true] for every
    non-empty identifier as soon as one staff member of the profiles is
    online (by e-mail or by short name), whoever the identifier names;
    and for an identifier contained in a profile's name it answers [true]
    even when nobody is online.  The empty identifier is never online. *)
Theorem online_checker_true_for_any_identifier :
  forall profiles st identifier p,
    nonempty identifier = true ->
    In p profiles ->
    (nonempty (p_email p) = true /\ is_Some (staffEmailSessions st !! p_email p))
    \/ (nonempty (p_shortName p) = true
        /\ OMap.has String.eqb (p_shortName p) (staffSessions st) = true)
    \/ includes (toLowerCase (p_name p)) (toLowerCase identifier) = true ->
    onlineStaffChecker profiles st identifier = true
    /\ onlineStaffChecker profiles st "" = false.
Proof.
  intros profiles st identifier p Hne Hin Hcase.
  split; [|reflexivity].
  unfold onlineStaffChecker. rewrite Hne. cbn [negb].
  destruct (OMap.has String.eqb identifier (staffSessions st)); [reflexivity|].
  destruct (bool_decide _); [reflexivity|].
  destruct (existsb _ (staffSessions st)); [reflexivity|].
  destruct (List.find _ profiles) as [q|] eqn:Hfind; [reflexivity|].
  exfalso.
  pose proof (List.find_none _ _ Hfind p Hin) as Hno.
  unfold checker_matches in Hno.
  destruct Hcase as [[He Hs] | [[Hn Hs] | Hinc]].
  - rewrite He, (bool_decide_eq_true_2 _ Hs) in Hno. cbn [andb] in Hno.
    rewrite orb_true_r in Hno. cbn [orb] in Hno. discriminate Hno.
  - rewrite Hn, Hs in Hno. cbn [andb] in Hno.
    rewrite orb_true_r in Hno. discriminate Hno.
  - rewrite Hinc in Hno. rewrite orb_true_r in Hno. cbn [orb] in Hno.
    discriminate Hno.
Qed.

Lemma online_checker_true_for_any_identifier_witness :
  onlineStaffChecker profiles acs_online "Nobody of that name" = true
  /\ onlineStaffChecker profiles connected "nagashree" = true.
Proof.
  assert (Hacs : is_Some (staffEmailSessions acs_online !! "anitha@college.edu")).
  { apply (bool_decide_unpack _). vm_compute. exact I. }
  split.
  - exact (proj1 (online_checker_true_for_any_identifier profiles acs_online
                    "Nobody of that name"
                    (mkStaffProfile "Prof. Anitha C S" "anitha@college.edu" "ACS"
                       "CSE" "pw-acs")
                    eq_refl (or_introl eq_refl) (or_introl (conj eq_refl Hacs)))).
  - exact (proj1 (online_checker_true_for_any_identifier profiles connected
                    "nagashree"
                    (mkStaffProfile "Dr. Nagashree N" "nagashree@college.edu" "NN"
                       "CSE" "pw-nn")
                    eq_refl (or_intror (or_introl eq_refl))
                    (or_intror (or_intror eq_refl)))).
Defined.

(** ** Derived status *)

(** X20.  Once the disconnect handler of a staff socket has returned, the
    status route does not report the user id of that socket as online:
    its [isOnline] flag is false and the label is [offline], [in_class]
    or [busy]. *)
Theorem status_not_online_after_disconnect :
  forall profiles env st socket now user st' out,
    connectedUsers st !! socket = Some user ->
    u_role user = "staff"%string ->
    on_disconnect profiles st socket now = Returned st' out ->
    fst (fst (snd (api_staff_status profiles env st' (u_id user)))) = false
    /\ fst (api_staff_status profiles env st' (u_id user)) <> "online"%string.
Proof.
  intros profiles env st socket now user st' out Hu Hrole Hret.
  pose proof (on_disconnect_staff_session_gone profiles st socket now user st' out
                Hu Hrole Hret) as Hid.
  unfold api_staff_status. cbn [fst snd].
  assert (Hoff : OMap.has String.eqb (u_id user) (staffSessions st') = false).
  { unfold OMap.has. unfold staffSessions_get in Hid. rewrite Hid. reflexivity. }
  rewrite Hoff. split; [reflexivity|].
  unfold status_label.
  repeat match goal with |- context [if ?b then _ else _] => destruct b end;
    discriminate.
Qed.

Lemma status_not_online_after_disconnect_witness :
  exists st' out,
    on_disconnect profiles acs_online "s" 9000 = Returned st' out
    /\ fst (api_staff_status profiles no_db acs_online "ACS") = "online"%string
    /\ fst (api_staff_status profiles no_db st' "ACS") <> "online"%string.
Proof.
  destruct (on_disconnect profiles acs_online "s" 9000) as [st' out|st' out m] eqn:E;
    [|vm_compute in E; discriminate E].
  exists st', out. split; [reflexivity|]. split; [reflexivity|].
  exact (proj2 (status_not_online_after_disconnect profiles no_db acs_online "s" 9000
                  (mkUser "ACS" "Prof. Anitha C S" "staff" "CSE"
                     (Some "anitha@college.edu"))
                  st' out eq_refl eq_refl E)).
Defined.

(** X21.  The availability check reports a teacher as unavailable exactly
    when the question is about today (no day, or today's name) and some
    timetable entry of today contains the current time, start included
    and end excluded.  Entries of other days, and questions about another
    day, never make a teacher unavailable. *)
Theorem unavailable_iff_class_in_progress :
  forall env entries requestedDay,
    isAvailable env entries requestedDay = false
    <-> (requestedDay = None \/ requestedDay = Some (currentDay env))
        /\ exists entry,
             In entry entries
             /\ te_day entry = currentDay env
             /\ timeToMinutes (te_start entry) <= timeToMinutes (currentTime env)
                < timeToMinutes (te_end entry).
Proof.
  intros env entries requestedDay. unfold isAvailable.
  set (now := timeToMinutes (currentTime env)).
  set (targetDay := default (currentDay env) requestedDay).
  set (dayEntries := List.filter _ entries).
  split.
  - intros H.
    destruct (length dayEntries =? 0)%nat; [discriminate H|].
    assert (Hday : requestedDay = None \/ requestedDay = Some (currentDay env)).
    { destruct requestedDay as [d|]; [|left; reflexivity].
      destruct (String.eqb d (currentDay env)) eqn:E; [|discriminate H].
      apply String.eqb_eq in E. subst d. right. reflexivity. }
    assert (Htarget : targetDay = currentDay env).
    { subst targetDay. destruct Hday as [-> | ->]; reflexivity. }
    split; [exact Hday|].
    assert (Hex : existsb
                    (fun entry =>
                       (timeToMinutes (te_start entry) <=? now)
                       && (now <? timeToMinutes (te_end entry))) dayEntries = true).
    { destruct Hday as [-> | ->]; cbn in H.
      - apply negb_false_iff in H. exact H.
      - rewrite String.eqb_refl in H. cbn in H. apply negb_false_iff in H. exact H. }
    apply existsb_exists in Hex as (entry & Hin & Htime).
    apply List.filter_In in Hin as [Hin Hd].
    apply String.eqb_eq in Hd. apply andb_prop in Htime as [H1 H2].
    exists entry. split; [exact Hin|]. split; [congruence|]. lia.
  - intros [Hday (entry & Hin & Hd & Htime)].
    assert (Htarget : targetDay = currentDay env).
    { subst targetDay. destruct Hday as [-> | ->]; reflexivity. }
    assert (Hmem : In entry dayEntries).
    { apply List.filter_In. split; [exact Hin|].
      rewrite Htarget. apply String.eqb_eq. exact Hd. }
    destruct dayEntries as [|e0 rest] eqn:Hentries; [contradiction|].
    cbn [length Nat.eqb].
    assert (Hother : match requestedDay with
                     | Some d => negb (String.eqb d (currentDay env))
                     | None => false
                     end = false).
    { destruct Hday as [-> | ->]; [reflexivity|].
      rewrite String.eqb_refl. reflexivity. }
    rewrite Hother. apply negb_false_iff. apply existsb_exists.
    exists entry. split; [exact Hmem|].
    apply andb_true_intro. split; lia.
Qed.

(** ** Query classification *)

Lemma substring_substring (s : string) (m n k l : nat) :
  (k + l <= n)%nat ->
  String.substring k l (String.substring m n s) = String.substring (m + k) l s.
Proof.
  revert s n k l. induction m as [|m IH]; intros s n k l Hle.
  - cbn [Nat.add]. revert n k l Hle.
    induction s as [|c s IHs]; intros n k l Hle.
    + destruct n, k, l; reflexivity.
    + destruct n as [|n].
      * assert (k = 0%nat) by lia. assert (l = 0%nat) by lia. subst. reflexivity.
      * destruct k as [|k].
        -- destruct l as [|l]; [reflexivity|].
           cbn [String.substring]. f_equal.
           apply (IHs n 0%nat l). lia.
        -- cbn [String.substring]. apply IHs. lia.
  - destruct s as [|c s].
    + cbn [String.substring Nat.add]. destruct k, l; reflexivity.
    + cbn [String.substring Nat.add]. apply IH. exact Hle.
Qed.

(** A string that contains [needle] contains every part of [needle]. *)
Lemma includes_part (hay needle part : string) (k : nat) :
  part <> ""%string ->
  String.substring k (String.length part) needle = part ->
  (k + String.length part <= String.length needle)%nat ->
  includes hay needle = true ->
  includes hay part = true.
Proof.
  intros Hpart Hsub Hle Hinc. unfold includes in *.
  destruct (String.index 0 needle hay) as [m|] eqn:Hm; [|discriminate Hinc].
  apply index_correct1 in Hm.
  destruct (String.index 0 part hay) as [q|] eqn:Hq; [reflexivity|].
  exfalso.
  apply (index_correct3 0 (m + k) part hay Hq Hpart); [lia|].
  rewrite <- (substring_substring hay m (String.length needle) k
                (String.length part) Hle).
  rewrite Hm. exact Hsub.
Qed.

(** X22.  A message that contains a greeting pattern is never a college
    query, and the pattern [hi] is matched inside words: every message
    that mentions [scholarship], one of the college keywords, is
    therefore classified as not being a college query, whatever the
    staff profiles are. *)
Theorem scholarship_is_never_a_college_query :
  forall profiles message,
    includes (toLowerCase message) "scholarship" = true ->
    In "scholarship"%string collegeKeywords
    /\ isCollegeQuery profiles message = false.
Proof.
  intros profiles message Hinc.
  split; [do 8 right; left; reflexivity|].
  unfold isCollegeQuery.
  assert (Hhi : includes (toLowerCase message) "hi" = true).
  { apply (includes_part (toLowerCase message) "scholarship" "hi" 8);
      [discriminate | reflexivity | cbn; lia | exact Hinc]. }
  assert (Hgreet : existsb (includes (toLowerCase message)) greetingPatterns = true).
  { apply existsb_exists. exists "hi"%string. split; [|exact Hhi].
    do 3 right. left. reflexivity. }
  rewrite Hgreet. reflexivity.
Qed.

Lemma scholarship_is_never_a_college_query_witness :
  isCollegeQuery profiles "Is there a Scholarship for CSE?" = false
  /\ isCollegeQuery profiles "What is the fee for CSE?" = true.
Proof.
  split.
  - exact (proj2 (scholarship_is_never_a_college_query profiles
                    "Is there a Scholarship for CSE?" eq_refl)).
  - reflexivity.
Defined.

(** ** The staff-only server *)

Section StringMapDelete.
Context {V : Type}.

Lemma smap_delete_absent (k : string) (m : list (string * V)) :
  ~ In k (map fst m) -> OMap.delete String.eqb k m = m.
Proof.
  induction m as [|[k' v] r IH]; intros Hout; [reflexivity|].
  cbn [OMap.delete]. destruct (String.eqb k k') eqn:E.
  - apply String.eqb_eq in E. subst k'. exfalso. apply Hout. left. reflexivity.
  - f_equal. apply IH. intros H. apply Hout. right. exact H.
Qed.

Lemma smap_delete_app (k : string) (m1 m2 : list (string * V)) :
  OMap.delete String.eqb k (m1 ++ m2)
  = OMap.delete String.eqb k m1 ++ OMap.delete String.eqb k m2.
Proof.
  induction m1 as [|[k' v] r IH]; [reflexivity|].
  cbn [OMap.delete app]. destruct (String.eqb k k'); [exact IH|].
  cbn [app]. f_equal. exact IH.
Qed.

Lemma smap_delete_middle (k : string) (v : V) (m1 m2 : list (string * V)) :
  List.NoDup (map fst (m1 ++ (k, v) :: m2)) ->
  OMap.delete String.eqb k (m1 ++ (k, v) :: m2) = m1 ++ m2.
Proof.
  intros Hnd. rewrite map_app in Hnd. cbn [map fst] in Hnd.
  pose proof (NoDup_remove_2 _ _ _ Hnd) as Hout.
  rewrite smap_delete_app. cbn [OMap.delete]. rewrite String.eqb_refl.
  rewrite !smap_delete_absent; [reflexivity| |].
  - intros H. apply Hout. apply in_or_app. right. exact H.
  - intros H. apply Hout. apply in_or_app. left. exact H.
Qed.

End StringMapDelete.

Lemma staff_only_cleanup_spec socket :
  forall rest pre st,
    StaffOnly.activeCalls st = pre ++ rest ->
    List.NoDup (map fst (pre ++ rest)) ->
    let result := StaffOnly.cleanup_active_calls socket rest st in
    StaffOnly.activeCalls (fst result)
    = pre ++ List.filter (fun entry => negb (ends_on socket entry)) rest
    /\ snd result
       = map (fun entry =>
                StaffOnly.mkEmit (StaffOnly.Others socket) "call-ended"
                  (JObj [("callId", JStr (fst entry));
                         ("reason", JStr "disconnect")]))
           (List.filter (ends_on socket) rest)
    /\ StaffOnly.connectedUsers (fst result) = StaffOnly.connectedUsers st
    /\ StaffOnly.staffEmailSessions (fst result) = StaffOnly.staffEmailSessions st.
Proof.
  induction rest as [|[k cs] rest IH]; intros pre st Hst Hnd; cbv zeta.
  - cbn [StaffOnly.cleanup_active_calls List.filter map fst snd].
    split; [exact Hst|]. repeat split; reflexivity.
  - cbn [StaffOnly.cleanup_active_calls List.filter].
    change (ends_on socket (k, cs))
      with (String.eqb (StaffOnly.staffSocketId cs) socket).
    destruct (String.eqb (StaffOnly.staffSocketId cs) socket) eqn:E; cbn [negb].
    + assert (Hdel : StaffOnly.activeCalls (StaffOnly.activeCalls_delete k st)
                     = pre ++ rest).
      { unfold StaffOnly.activeCalls_delete. cbn [StaffOnly.activeCalls].
        rewrite Hst. apply smap_delete_middle. exact Hnd. }
      assert (Hnd' : List.NoDup (map fst (pre ++ rest))).
      { rewrite map_app in *. cbn [map fst] in Hnd.
        apply NoDup_remove_1 in Hnd. exact Hnd. }
      specialize (IH pre (StaffOnly.activeCalls_delete k st) Hdel Hnd').
      cbv zeta in IH.
      destruct (StaffOnly.cleanup_active_calls socket rest
                  (StaffOnly.activeCalls_delete k st)) as [st' out].
      cbn [fst snd] in *. destruct IH as (H1 & H2 & H3 & H4).
      split; [exact H1|]. split; [cbn [map fst]; rewrite H2; reflexivity|].
      split; [exact H3 | exact H4].
    + assert (Hst' : StaffOnly.activeCalls st = (pre ++ [(k, cs)]) ++ rest).
      { rewrite <- app_assoc. exact Hst. }
      assert (Hnd' : List.NoDup (map fst ((pre ++ [(k, cs)]) ++ rest))).
      { rewrite <- app_assoc. exact Hnd. }
      specialize (IH (pre ++ [(k, cs)]) st Hst' Hnd'). cbv zeta in IH.
      destruct IH as (H1 & H2 & H3 & H4).
      split; [rewrite H1, <- app_assoc; reflexivity|].
      split; [exact H2|]. split; [exact H3 | exact H4].
Qed.

(** X23.  On the staff-only server the disconnect of a socket ends every
    session it has on its staff side, not only the first one: exactly the
    sessions of other sockets remain, in their order, one [call-ended]
    per ended session is broadcast to the other sockets, in the order of
    the sessions, and the socket's user record is gone. *)
Theorem staff_only_disconnect_ends_every_session :
  forall st socket,
    List.NoDup (map fst (StaffOnly.activeCalls st)) ->
    let result := StaffOnly.on_disconnect st socket in
    StaffOnly.activeCalls (fst result)
    = List.filter (fun entry => negb (ends_on socket entry)) (StaffOnly.activeCalls st)
    /\ snd result
       = map (fun entry =>
                StaffOnly.mkEmit (StaffOnly.Others socket) "call-ended"
                  (JObj [("callId", JStr (fst entry));
                         ("reason", JStr "disconnect")]))
           (List.filter (ends_on socket) (StaffOnly.activeCalls st))
    /\ StaffOnly.connectedUsers (fst result) !! socket = None.
Proof.
  intros st socket Hnd. cbv zeta. unfold StaffOnly.on_disconnect. cbv zeta.
  match goal with
  | |- context [StaffOnly.cleanup_active_calls socket _ ?X] => set (st1 := X)
  end.
  change (StaffOnly.activeCalls st1) with (StaffOnly.activeCalls st).
  destruct (staff_only_cleanup_spec socket (StaffOnly.activeCalls st) [] st1
              eq_refl Hnd) as (H1 & H2 & H3 & _).
  split; [exact H1|]. split; [exact H2|].
  rewrite H3. subst st1. cbn [StaffOnly.connectedUsers]. apply lookup_delete_eq.
Qed.

Lemma staff_only_disconnect_ends_every_session_witness :
  map fst (StaffOnly.activeCalls (fst (StaffOnly.on_disconnect so_three_calls "s")))
  = ["c2"%string]
  /\ map (fun e => StaffOnly.payload e)
       (snd (StaffOnly.on_disconnect so_three_calls "s"))
     = [JObj [("callId", JStr "c1"); ("reason", JStr "disconnect")];
        JObj [("callId", JStr "c3"); ("reason", JStr "disconnect")]].
Proof.
  assert (Hnd : List.NoDup (map fst (StaffOnly.activeCalls so_three_calls))).
  { vm_compute. repeat (constructor; [cbn; intuition discriminate|]). constructor. }
  destruct (staff_only_disconnect_ends_every_session so_three_calls "s" Hnd)
    as (H1 & H2 & _).
  split.
  - rewrite H1. reflexivity.
  - rewrite H2. reflexivity.
Defined.

Lemma staff_only_cleanup_frame socket entries st :
  StaffOnly.connectedUsers (fst (StaffOnly.cleanup_active_calls socket entries st))
  = StaffOnly.connectedUsers st
  /\ StaffOnly.staffEmailSessions
       (fst (StaffOnly.cleanup_active_calls socket entries st))
     = StaffOnly.staffEmailSessions st.
Proof.
  revert st. induction entries as [|[k cs] rest IH]; intros st.
  - split; reflexivity.
  - cbn [StaffOnly.cleanup_active_calls].
    destruct (String.eqb (StaffOnly.staffSocketId cs) socket).
    + specialize (IH (StaffOnly.activeCalls_delete k st)).
      destruct (StaffOnly.cleanup_active_calls socket rest
                  (StaffOnly.activeCalls_delete k st)) as [st' out].
      exact IH.
    + apply IH.
Qed.

(** X24.  On the staff-only server [end-call] looks at no user and no
    participant: an unknown call id is ignored silently (no state change,
    no emission, no write), and a known one is ended for whichever socket
    asks, with [call-ended] sent to the asking socket and broadcast to the
    others, whatever the database does. *)
Theorem staff_only_end_call_is_unchecked :
  forall env st socket now data,
    destructured data = Ok data ->
    match StaffOnly.activeCalls_get (field "callId" data) st with
    | None => StaffOnly.on_end_call env st socket now data = Ok (st, [], [])
    | Some callSession =>
        exists k writes,
          field "callId" data = JStr k
          /\ StaffOnly.on_end_call env st socket now data
             = Ok (StaffOnly.activeCalls_delete k st,
                   [StaffOnly.mkEmit (StaffOnly.Self socket) "call-ended"
                      (JObj [("callId", JStr k); ("reason", field "reason" data)]);
                    StaffOnly.mkEmit (StaffOnly.Others socket) "call-ended"
                      (JObj [("callId", JStr k); ("reason", field "reason" data)])],
                   writes)
          /\ StaffOnly.activeCalls_get (JStr k) (StaffOnly.activeCalls_delete k st)
             = None
          /\ (isDbConnected env = false -> writes = [])
    end.
Proof.
  intros env st socket now data Hdata.
  unfold StaffOnly.on_end_call. rewrite Hdata. cbn [Res_bind].
  destruct (StaffOnly.activeCalls_get (field "callId" data) st) as [cs|] eqn:Hget.
  - destruct (field "callId" data) as [| | | |k| | |] eqn:Hk;
      try discriminate Hget.
    rewrite Hget. exists k. eexists. split; [reflexivity|]. split; [reflexivity|].
    split.
    + unfold StaffOnly.activeCalls_get, StaffOnly.activeCalls_delete.
      cbn [StaffOnly.activeCalls]. apply get_delete_same.
    + intros Hdb. unfold StaffOnly.persist_call_log. rewrite Hdb. reflexivity.
  - destruct (field "callId" data); try reflexivity.
    rewrite Hget. reflexivity.
Qed.

Lemma staff_only_end_call_is_unchecked_witness :
  StaffOnly.on_end_call no_db so_three_calls "t" 5000 (obj [("callId", "c9")])
  = Ok (so_three_calls, [], [])
  /\ exists writes,
       StaffOnly.on_end_call db_ok so_three_calls "t" 5000 (obj [("callId", "c1")])
       = Ok (StaffOnly.activeCalls_delete "c1" so_three_calls,
             [StaffOnly.mkEmit (StaffOnly.Self "t") "call-ended"
                (JObj [("callId", JStr "c1"); ("reason", JUndef)]);
              StaffOnly.mkEmit (StaffOnly.Others "t") "call-ended"
                (JObj [("callId", JStr "c1"); ("reason", JUndef)])],
             writes).
Proof.
  split.
  - exact (staff_only_end_call_is_unchecked no_db so_three_calls "t" 5000
             (obj [("callId", "c9")]) eq_refl).
  - pose proof (staff_only_end_call_is_unchecked db_ok so_three_calls "t" 5000
                  (obj [("callId", "c1")]) eq_refl) as H.
    change (StaffOnly.activeCalls_get (field "callId" (obj [("callId", "c1")]))
              so_three_calls)
      with (Some (StaffOnly.mkSession "s" (JStr "anitha@college.edu")
                    (JStr "Prof. Anitha C S") 100)) in H.
    destruct H as (k & writes & Hk & Hrun & _).
    injection Hk as <-. exists writes. exact Hrun.
Defined.

(** X25.  Registration and disconnect on the staff-only server: after
    [register-staff] the e-mail maps to the socket; the disconnect of
    that socket removes its user record, and removes the e-mail session
    exactly when the e-mail is not the empty string, so that a socket
    registered with an empty e-mail stays registered after it is gone. *)
Theorem staff_only_register_disconnect_round_trip :
  forall st socket email,
    let st1 := fst (StaffOnly.on_register_staff st socket email) in
    let st2 := fst (StaffOnly.on_disconnect st1 socket) in
    OMap.get String.eqb email (StaffOnly.staffEmailSessions st1) = Some socket
    /\ StaffOnly.connectedUsers st2 !! socket = None
    /\ OMap.get String.eqb email (StaffOnly.staffEmailSessions st2)
       = if nonempty email then None else Some socket.
Proof.
  intros st socket email. cbv zeta.
  unfold StaffOnly.on_register_staff. cbn [fst].
  split; [cbn [StaffOnly.staffEmailSessions]; apply smap_get_set_same|].
  unfold StaffOnly.on_disconnect. cbv zeta.
  cbn [StaffOnly.connectedUsers StaffOnly.staffEmailSessions StaffOnly.activeCalls].
  rewrite lookup_insert_eq.
  match goal with
  | |- context [StaffOnly.cleanup_active_calls socket ?E ?X] =>
      destruct (staff_only_cleanup_frame socket E X) as [Hc Hs]
  end.
  rewrite Hc, Hs. cbn [StaffOnly.connectedUsers StaffOnly.staffEmailSessions].
  split; [apply lookup_delete_eq|].
  destruct (nonempty email).
  - apply get_delete_same.
  - apply smap_get_set_same.
Qed.

(** ** The staff portal *)


Lemma token_scheme_is_not_read (t : string) :
  Portal.token_of (Some ("Basic " +:+ t)) = Portal.token_of (Some ("Bearer " +:+ t)).
Proof.
  unfold Portal.token_of. cbn.
  destruct (Portal.split_on " " t); reflexivity.
Qed.

(** X27.  A request reaches the handler of a [/:username/...] route only
    with an [Authorization] header whose second word is a non-empty token
    that verifies, for a staff document that exists and whose username
    (or the part of its e-mail before the at sign) equals the route
    parameter, letter case aside.  The first word of the header is not
    read: [Basic] works like [Bearer]. *)
Theorem portal_route_serves_own_username_only :
  forall auth authorization username staff u,
    Portal.guarded auth authorization username = Portal.Next (staff, u) ->
    (exists token decoded id,
       Portal.token_of authorization = Some token
       /\ nonempty token = true
       /\ Portal.jwt_verify auth token = Ok decoded
       /\ Portal.Staff_findById auth id = Ok (Some staff))
    /\ u = toLowerCase username
    /\ Portal.username_of staff = toLowerCase username
    /\ forall t,
         Portal.guarded auth (Some ("Basic " +:+ t)) username
         = Portal.guarded auth (Some ("Bearer " +:+ t)) username.
Proof.
  intros auth authorization username staff u Hrun.
  split; [|split; [|split]].
  4: { intros t. unfold Portal.guarded, Portal.authenticateToken.
       rewrite token_scheme_is_not_read. reflexivity. }
  all: unfold Portal.guarded in Hrun.
  all: destruct (Portal.authenticateToken auth authorization) as [c e|user] eqn:Hauth;
    [discriminate Hrun|].
  all: unfold Portal.ensureSelf in Hrun.
  all: destruct (Portal.Staff_findById auth (Js.or user JUndef)) as [[doc|]|m] eqn:Hdoc;
    cbn [Res_bind try_catch] in Hrun; try discriminate Hrun.
  all: destruct (String.eqb (Portal.username_of doc) (toLowerCase username)) eqn:Hname;
    cbn [negb try_catch] in Hrun; try discriminate Hrun.
  all: injection Hrun as <- <-.
  - unfold Portal.authenticateToken in Hauth.
    destruct (Portal.token_of authorization) as [token|]; [|discriminate Hauth].
    destruct (nonempty token) eqn:Htoken; cbn [negb] in Hauth; [|discriminate Hauth].
    destruct (Portal.jwt_verify auth token) as [decoded|m] eqn:Hverify;
      [|discriminate Hauth].
    exists token, decoded, (Js.or user JUndef).
    split; [reflexivity|]. split; [exact Htoken|]. split; [exact Hverify|].
    exact Hdoc.
  - reflexivity.
  - apply String.eqb_eq. exact Hname.
Qed.

Lemma portal_route_serves_own_username_only_witness :
  Portal.guarded portal_auth (Some "Bearer tok-acs"%string) "ANITHA"
  = Portal.Next (acs_doc, "anitha"%string)
  /\ Portal.username_of acs_doc = "anitha"%string
  /\ Portal.guarded portal_auth (Some "Bearer tok-acs"%string) "nagashree"
     = Portal.Respond 403 "Forbidden".
Proof.
  split; [reflexivity|]. split; [|reflexivity].
  destruct (portal_route_serves_own_username_only portal_auth
              (Some "Bearer tok-acs"%string) "ANITHA" acs_doc "anitha" eq_refl)
    as (_ & _ & H & _).
  exact H.
Defined.

(** X28.  The department stored for a staff member seeded from a profile
    is always one of the allowed departments, and normalising it again
    changes nothing. *)
Theorem normalized_department_is_allowed :
  forall department,
    In (Portal.normalizedDept department) Portal.allowedDepartments
    /\ Portal.normalizedDept (Portal.normalizedDept department)
       = Portal.normalizedDept department.
Proof.
  intros department. unfold Portal.normalizedDept at 1 3 4.
  destruct (includes (toLowerCase department) "computer") eqn:Hc.
  - split; [left; reflexivity | reflexivity].
  - destruct (existsb (String.eqb department) Portal.allowedDepartments) eqn:Ha.
    + split.
      * apply existsb_exists in Ha as (x & Hin & Heq).
        apply String.eqb_eq in Heq. subst x. exact Hin.
      * unfold Portal.normalizedDept. rewrite Hc, Ha. reflexivity.
    + split; [do 5 right; left; reflexivity | reflexivity].
Qed.
